(** * ODT-to-XML exam converter: grouping, classification, validation,
      question builders and document assembly.

    A shallow embedding of the Python modules under [modules/] and of the
    properties stated about them.  Python [str] values are modelled by
    [string] (texts are taken to be ASCII: bytes above 127 are neither
    whitespace, digits, letters nor word characters), Python lists by
    [list], dictionaries with a fixed key set by records, dictionaries
    used as maps by [gmap], and raised exceptions by a sum type. *)

From Stdlib Require Import String Ascii List ZArith Lia Bool Arith QArith.
From stdpp Require Import base strings list gmap.
Import ListNotations.
Close Scope Q_scope.
Open Scope string_scope.
#[local] Set Warnings "-register-all".

(* ===================================================================== *)
(** ** Python string primitives                                            *)
(* ===================================================================== *)

Module Py.

Definition code (c : ascii) : nat := nat_of_ascii c.

Definition in_range (lo hi : nat) (c : ascii) : bool :=
  (lo <=? code c)%nat && (code c <=? hi)%nat.

(** [str.isspace] on one character: TAB, LF, VT, FF, CR, FS, GS, RS, US
    and the space. *)
Definition is_space (c : ascii) : bool :=
  in_range 9 13 c || in_range 28 32 c.

Definition is_digit (c : ascii) : bool := in_range 48 57 c.
Definition is_upper (c : ascii) : bool := in_range 65 90 c.
Definition is_lower (c : ascii) : bool := in_range 97 122 c.
Definition is_alpha (c : ascii) : bool := is_upper c || is_lower c.
(** The class [\w]. *)
Definition is_word (c : ascii) : bool :=
  is_alpha c || is_digit c || Ascii.eqb c "_".

Definition lower_char (c : ascii) : ascii :=
  if is_upper c then ascii_of_nat (code c + 32) else c.
Definition upper_char (c : ascii) : ascii :=
  if is_lower c then ascii_of_nat (code c - 32) else c.

Fixpoint map_string (f : ascii -> ascii) (s : string) : string :=
  match s with
  | EmptyString => EmptyString
  | String c s' => String (f c) (map_string f s')
  end.

(** [s.lower()] and [s.upper()]. *)
Definition lower : string -> string := map_string lower_char.
Definition upper : string -> string := map_string upper_char.

(** [s.lstrip(chars)], [s.rstrip(chars)], [s.strip(chars)] for the
    characters that satisfy [p]. *)
Fixpoint lstrip_by (p : ascii -> bool) (s : string) : string :=
  match s with
  | String c s' => if p c then lstrip_by p s' else s
  | EmptyString => EmptyString
  end.

Fixpoint rstrip_by (p : ascii -> bool) (s : string) : string :=
  match s with
  | EmptyString => EmptyString
  | String c s' =>
      match rstrip_by p s' with
      | EmptyString => if p c then EmptyString else String c EmptyString
      | r => String c r
      end
  end.

Definition strip_by (p : ascii -> bool) (s : string) : string :=
  rstrip_by p (lstrip_by p s).

(** [s.strip()]: whitespace is stripped. *)
Definition strip (s : string) : string := strip_by is_space s.

(** [s.startswith(p)]. *)
Fixpoint startswith (p s : string) : bool :=
  match p, s with
  | EmptyString, _ => true
  | String a p', String b s' => Ascii.eqb a b && startswith p' s'
  | String _ _, EmptyString => false
  end.

Fixpoint drop (n : nat) (s : string) : string :=
  match n, s with
  | O, _ => s
  | S n', String _ s' => drop n' s'
  | S _, EmptyString => EmptyString
  end.

Fixpoint take (n : nat) (s : string) : string :=
  match n, s with
  | O, _ => EmptyString
  | S n', String c s' => String c (take n' s')
  | S _, EmptyString => EmptyString
  end.

(** [s.endswith(p)]. *)
Definition endswith (p s : string) : bool :=
  (String.length p <=? String.length s)%nat
  && String.eqb (drop (String.length s - String.length p) s) p.

(** [s.find(sub)]: index of the first occurrence. *)
Fixpoint find (sub s : string) : option nat :=
  if startswith sub s then Some O
  else match s with
       | EmptyString => None
       | String _ s' => option_map S (find sub s')
       end.

(** [s.rfind(sub)]: index of the last occurrence. *)
Fixpoint rfind (sub s : string) : option nat :=
  match s with
  | EmptyString => if startswith sub s then Some O else None
  | String _ s' =>
      match rfind sub s' with
      | Some i => Some (S i)
      | None => if startswith sub s then Some O else None
      end
  end.

(** [sub in s]. *)
Definition contains (sub s : string) : bool :=
  match find sub s with Some _ => true | None => false end.

(** [s.split(sep, 1)] for a non-empty separator. *)
Definition split_once (sep s : string) : list string :=
  match find sep s with
  | Some i => [take i s; drop (i + String.length sep) s]
  | None => [s]
  end.

(** [s.split(sep)] for a non-empty separator. *)
Fixpoint split_fuel (fuel : nat) (sep s : string) : list string :=
  match fuel with
  | O => [s]
  | S fuel' =>
      match find sep s with
      | Some i => take i s :: split_fuel fuel' sep (drop (i + String.length sep) s)
      | None => [s]
      end
  end.

Definition split (sep s : string) : list string :=
  split_fuel (String.length s) sep s.

(** [sep.join(l)]. *)
Fixpoint join (sep : string) (l : list string) : string :=
  match l with
  | [] => ""
  | [x] => x
  | x :: l' => x +:+ sep +:+ join sep l'
  end.

Fixpoint all_chars (p : ascii -> bool) (s : string) : bool :=
  match s with
  | EmptyString => true
  | String c s' => p c && all_chars p s'
  end.

(** [s.isdigit()]: non-empty and every character a digit. *)
Definition isdigit (s : string) : bool :=
  match s with EmptyString => false | _ => all_chars is_digit s end.

(** [int(s)] for a string of decimal digits. *)
Fixpoint int_acc (acc : Z) (s : string) : Z :=
  match s with
  | EmptyString => acc
  | String c s' => int_acc (10 * acc + Z.of_nat (code c - 48)) s'
  end.

Definition int (s : string) : Z := int_acc 0 s.

(** [str(n)] for a natural number. *)
Fixpoint digits_fuel (fuel n : nat) (acc : string) : string :=
  match fuel with
  | O => acc
  | S fuel' =>
      let acc' := String (ascii_of_nat (48 + n mod 10)) acc in
      if (n <? 10)%nat then acc' else digits_fuel fuel' (n / 10) acc'
  end.

Definition str_of_nat (n : nat) : string := digits_fuel (S n) n "".

(** [s.replace(old, new)] for a non-empty [old]. *)
Fixpoint replace_fuel (fuel : nat) (old new s : string) : string :=
  match fuel with
  | O => s
  | S fuel' =>
      if startswith old s
      then new +:+ replace_fuel fuel' old new (drop (String.length old) s)
      else match s with
           | EmptyString => EmptyString
           | String c s' => String c (replace_fuel fuel' old new s')
           end
  end.

Definition replace (old new s : string) : string :=
  replace_fuel (S (String.length s)) old new s.

(** [s.splitlines()] followed by the removal of empty lines: the line
    boundaries are LF, CR, VT, FF, FS, GS and RS, and CR LF counts once,
    which only adds an empty line. *)
Definition is_linebreak (c : ascii) : bool :=
  in_range 10 13 c || in_range 28 30 c.

Fixpoint lines_acc (cur : string) (s : string) : list string :=
  match s with
  | EmptyString => match cur with EmptyString => [] | _ => [cur] end
  | String c s' =>
      if is_linebreak c
      then match cur with
           | EmptyString => lines_acc EmptyString s'
           | _ => cur :: lines_acc EmptyString s'
           end
      else lines_acc (cur +:+ String c EmptyString) s'
  end.

Definition nonempty_lines (s : string) : list string := lines_acc EmptyString s.

(** Truthiness of a list, and [x is not None]. *)
Definition nonempty_list {A} (l : list A) : bool :=
  match l with [] => false | _ => true end.

Definition is_some {A} (o : option A) : bool :=
  match o with Some _ => true | None => false end.

(** Truthiness of a string. *)
Definition nonempty (s : string) : bool :=
  match s with EmptyString => false | _ => true end.

End Py.

(* ===================================================================== *)
(** ** Regular expressions (Python's [re] module)                          *)
(* ===================================================================== *)

(** The patterns of the source are written as abstract syntax and run by a
    backtracking matcher with the priorities of Python's engine: the left
    alternative first, a greedy repetition as long as possible first, a
    lazy one as short as possible first, the leftmost start first. *)

Module Re.

Inductive regex : Type :=
| Eps                                   (* the empty pattern *)
| Chr (c : ascii)                       (* a literal character *)
| Dot                                   (* [.] *)
| Cls (p : ascii -> bool)               (* a class: [[A-Z]], [\d], [\s], [\w] *)
| Cat (r1 r2 : regex)
| Alt (r1 r2 : regex)                   (* [r1|r2] *)
| Star (greedy : bool) (r : regex)      (* [r*] and [r*?] *)
| Grp (n : nat) (r : regex)             (* capturing group number [n] *)
| Bol                                   (* [^] *)
| Eol                                   (* [$] *)
| WordB                                 (* [\b] *)
| Ahead (r : regex).                    (* [(?=r)] *)

Record flags := { IGNORECASE : bool; MULTILINE : bool; DOTALL : bool }.

Definition no_flags := {| IGNORECASE := false; MULTILINE := false; DOTALL := false |}.
Definition I := {| IGNORECASE := true; MULTILINE := false; DOTALL := false |}.
Definition ML := {| IGNORECASE := false; MULTILINE := true; DOTALL := false |}.
Definition S_ := {| IGNORECASE := false; MULTILINE := false; DOTALL := true |}.
Definition IS := {| IGNORECASE := true; MULTILINE := false; DOTALL := true |}.
Definition MS := {| IGNORECASE := false; MULTILINE := true; DOTALL := true |}.

(** Derived forms. *)
Fixpoint Lit (s : string) : regex :=
  match s with
  | EmptyString => Eps
  | String c EmptyString => Chr c
  | String c s' => Cat (Chr c) (Lit s')
  end.

Fixpoint Seq (l : list regex) : regex :=
  match l with
  | [] => Eps
  | [r] => r
  | r :: l' => Cat r (Seq l')
  end.

Fixpoint Alts (l : list regex) : regex :=
  match l with
  | [] => Cls (fun _ => false)
  | [r] => r
  | r :: l' => Alt r (Alts l')
  end.

Definition Plus (r : regex) : regex := Cat r (Star true r).       (* [r+] *)
Definition PlusLazy (r : regex) : regex := Cat r (Star false r).  (* [r+?] *)
Definition Opt (r : regex) : regex := Alt r Eps.                  (* [r?] *)
Fixpoint AtLeast (n : nat) (r : regex) : regex :=                 (* [r{n,}] *)
  match n with
  | O => Star true r
  | S n' => Cat r (AtLeast n' r)
  end.

Definition d : regex := Cls Py.is_digit.                          (* [\d] *)
Definition s : regex := Cls Py.is_space.                          (* [\s] *)
Definition w : regex := Cls Py.is_word.                           (* [\w] *)
Definition AZ : regex := Cls Py.is_upper.                         (* [[A-Z]] *)
Definition NotIn (p : ascii -> bool) : regex := Cls (fun c => negb (p c)).

(** Captured groups, most recent first. *)
Definition caps := list (nat * string).

Fixpoint group (n : nat) (cs : caps) : option string :=
  match cs with
  | [] => None
  | (m, v) :: cs' => if (n =? m)%nat then Some v else group n cs'
  end.

(** A position in the subject: the index, the character before it and the
    characters from it on. *)
Definition result := (nat * option ascii * list ascii * caps)%type.
Definition cont := nat -> option ascii -> list ascii -> caps -> option result.

Definition nl : ascii := ascii_of_nat 10.

Definition chr_eq (f : flags) (a b : ascii) : bool :=
  if IGNORECASE f then Ascii.eqb (Py.lower_char a) (Py.lower_char b)
  else Ascii.eqb a b.

Definition cls_ok (f : flags) (p : ascii -> bool) (c : ascii) : bool :=
  if IGNORECASE f then p c || p (Py.lower_char c) || p (Py.upper_char c)
  else p c.

Definition at_bol (f : flags) (prev : option ascii) : bool :=
  match prev with
  | None => true
  | Some c => MULTILINE f && Ascii.eqb c nl
  end.

Definition at_eol (f : flags) (rest : list ascii) : bool :=
  match rest with
  | [] => true
  | c :: rest' =>
      Ascii.eqb c nl && (MULTILINE f || match rest' with [] => true | _ => false end)
  end.

Definition word_opt (o : option ascii) : bool :=
  match o with Some c => Py.is_word c | None => false end.

Definition at_wordb (prev : option ascii) (rest : list ascii) : bool :=
  xorb (word_opt prev) (word_opt (head rest)).

Fixpoint run (f : flags) (r : regex) (i : nat) (prev : option ascii)
    (rest : list ascii) (cs : caps) (k : cont) {struct r} : option result :=
  match r with
  | Eps => k i prev rest cs
  | Chr c =>
      match rest with
      | x :: rest' => if chr_eq f c x then k (S i) (Some x) rest' cs else None
      | [] => None
      end
  | Dot =>
      match rest with
      | x :: rest' =>
          if DOTALL f || negb (Ascii.eqb x nl) then k (S i) (Some x) rest' cs else None
      | [] => None
      end
  | Cls p =>
      match rest with
      | x :: rest' => if cls_ok f p x then k (S i) (Some x) rest' cs else None
      | [] => None
      end
  | Cat r1 r2 =>
      run f r1 i prev rest cs (fun i' p' rest' cs' => run f r2 i' p' rest' cs' k)
  | Alt r1 r2 =>
      match run f r1 i prev rest cs k with
      | Some x => Some x
      | None => run f r2 i prev rest cs k
      end
  | Star greedy r1 =>
      (fix loop (fuel : nat) (i : nat) (prev : option ascii)
           (rest : list ascii) (cs : caps) {struct fuel} : option result :=
         match fuel with
         | O => k i prev rest cs
         | S fuel' =>
             if greedy then
               match run f r1 i prev rest cs
                       (fun i' p' rest' cs' =>
                          if (i <? i')%nat then loop fuel' i' p' rest' cs' else None) with
               | Some x => Some x
               | None => k i prev rest cs
               end
             else
               match k i prev rest cs with
               | Some x => Some x
               | None =>
                   run f r1 i prev rest cs
                     (fun i' p' rest' cs' =>
                        if (i <? i')%nat then loop fuel' i' p' rest' cs' else None)
               end
         end) (S (length rest)) i prev rest cs
  | Grp n r1 =>
      run f r1 i prev rest cs
        (fun i' p' rest' cs' =>
           k i' p' rest' ((n, string_of_list_ascii (firstn (i' - i) rest)) :: cs'))
  | Bol => if at_bol f prev then k i prev rest cs else None
  | Eol => if at_eol f rest then k i prev rest cs else None
  | WordB => if at_wordb prev rest then k i prev rest cs else None
  | Ahead r1 =>
      match run f r1 i prev rest cs (fun i' p' rest' cs' => Some (i', p', rest', cs')) with
      | Some (_, _, _, cs') => k i prev rest cs'
      | None => None
      end
  end.

Definition stop : cont := fun i p rest cs => Some (i, p, rest, cs).

(** A match: where it starts, where it ends, what precedes and follows its
    end, and its groups. *)
Record rmatch := {
  m_start : nat; m_end : nat;
  m_prev : option ascii; m_rest : list ascii; m_caps : caps }.

Definition mk (st : nat) (r : result) : rmatch :=
  let '(e, p, rest, cs) := r in
  {| m_start := st; m_end := e; m_prev := p; m_rest := rest; m_caps := cs |}.

(** The leftmost match starting at index [i] or later. *)
Fixpoint scan (f : flags) (r : regex) (i : nat) (prev : option ascii)
    (rest : list ascii) : option rmatch :=
  match run f r i prev rest [] stop with
  | Some x => Some (mk i x)
  | None =>
      match rest with
      | [] => None
      | c :: rest' => scan f r (S i) (Some c) rest'
      end
  end.

(** [re.search(r, text, f)]. *)
Definition search (f : flags) (r : regex) (text : string) : option rmatch :=
  scan f r 0 None (list_ascii_of_string text).

Definition matches (f : flags) (r : regex) (text : string) : bool :=
  match search f r text with Some _ => true | None => false end.

(** [re.match(r, text, f)]: a match at the start only. *)
Definition match_ (f : flags) (r : regex) (text : string) : option rmatch :=
  option_map (mk 0) (run f r 0 None (list_ascii_of_string text) [] stop).

Definition group_or_empty (n : nat) (m : rmatch) : string :=
  match group n (m_caps m) with Some v => v | None => "" end.

(** All non-overlapping matches from left to right, each with the text
    skipped before it; as the last component the text after the last
    match.  After an empty match the scan moves on by one character. *)
Fixpoint iter (fuel : nat) (f : flags) (r : regex) (i : nat)
    (prev : option ascii) (rest : list ascii)
    : list (string * string * caps) * string :=
  match fuel with
  | O => ([], string_of_list_ascii rest)
  | S fuel' =>
      match scan f r i prev rest with
      | None => ([], string_of_list_ascii rest)
      | Some m =>
          let skipped := firstn (m_start m - i) rest in
          let matched := firstn (m_end m - m_start m) (skipn (m_start m - i) rest) in
          if (m_start m <? m_end m)%nat then
            let '(ms, tl) := iter fuel' f r (m_end m) (m_prev m) (m_rest m) in
            ((string_of_list_ascii skipped, string_of_list_ascii matched, m_caps m) :: ms, tl)
          else
            match m_rest m with
            | [] => ([(string_of_list_ascii skipped, "", m_caps m)], "")
            | c :: rest' =>
                let '(ms, tl) := iter fuel' f r (S (m_end m)) (Some c) rest' in
                match ms with
                | [] => ([(string_of_list_ascii skipped, "", m_caps m)], String c tl)
                | (sk, mt, cs) :: ms' =>
                    ((string_of_list_ascii skipped, "", m_caps m) :: (String c sk, mt, cs) :: ms', tl)
                end
            end
      end
  end.

Definition finditer (f : flags) (r : regex) (text : string)
    : list (string * string * caps) * string :=
  iter (S (String.length text)) f r 0 None (list_ascii_of_string text).

(** [re.findall(r, text, f)] for a pattern without groups: the matched
    texts. *)
Definition findall (f : flags) (r : regex) (text : string) : list string :=
  map (fun x => snd (fst x)) (fst (finditer f r text)).

(** [re.sub(r, repl, text, flags=f)] with a replacement computed from the
    match. *)
Definition sub_fun (f : flags) (r : regex) (repl : string -> caps -> string)
    (text : string) : string :=
  let '(ms, tl) := finditer f r text in
  fold_right (fun x acc => fst (fst x) +:+ repl (snd (fst x)) (snd x) +:+ acc) tl ms.

Definition sub (f : flags) (r : regex) (repl : string) (text : string) : string :=
  sub_fun f r (fun _ _ => repl) text.

End Re.

(* ===================================================================== *)
(** ** modules/utils/text_helpers.py                                       *)
(* ===================================================================== *)

Module TextHelpers.
Import Re.

Definition NL : string := String Re.nl EmptyString.
Definition CR : ascii := ascii_of_nat 13.
Definition TAB : ascii := ascii_of_nat 9.

(** [QUESTION NO:\s*(\d+)] *)
Definition question_number_re : regex :=
  Seq [Lit "QUESTION NO:"; Star true s; Grp 1 (Plus d)].

Definition get_question_number (text : string) : option string :=
  match search I question_number_re text with
  | Some m => group 1 (m_caps m)
  | None => None
  end.

(** [QUESTION NO:\s*\d+\s+<keyword>] *)
Definition numbered (keyword : string) : regex :=
  Seq [Lit "QUESTION NO:"; Star true s; Plus d; Plus s; Lit keyword].

Definition positioneddragdrop_patterns : list regex :=
  [ Lit "POSITIONEDDRAGDROP"; Lit "PositionedDragDrop"; Lit "positioneddragdrop";
    Lit "Positioned DragDrop";
    numbered "POSITIONEDDRAGDROP"; numbered "PositionedDragDrop" ].

Definition positioneddropdown_patterns : list regex :=
  [ Lit "POSITIONEDDROPDOWN"; Lit "PositionedDropdown"; Lit "positioneddropdown";
    Lit "Positioned Dropdown";
    numbered "POSITIONEDDROPDOWN"; numbered "PositionedDropdown" ].

Definition fillintheblank_patterns : list regex :=
  [ Lit "FillInTheBlank"; Lit "FILLINTHEBLANK"; Lit "fillInTheBlank";
    Lit "Fill In The Blank";
    numbered "FillInTheBlank";
    AtLeast 3 (Chr "_") ].

Definition simulation_patterns : list regex :=
  [ Lit "SIMULATION"; Lit "Simulation"; Lit "simulation";
    numbered "SIMULATION"; numbered "Simulation" ].

(** [QUESTION NO:\s*\d+\s*(\w+)] *)
Definition declared_type_re : regex :=
  Seq [Lit "QUESTION NO:"; Star true s; Plus d; Star true s; Grp 1 (Plus w)].

Definition declared_types : list string :=
  [ "HOTSPOT"; "DRAGDROP"; "DROPDOWN"; "RADIOBUTTON"; "MULTIPLECHOICE";
    "FillInTheBlank"; "SIMULATION"; "POSITIONEDDROPDOWN" ].

(** A word between word boundaries, and [.*]. *)
Definition bw (word : string) : regex := Seq [WordB; Lit word; WordB].
Definition dots : regex := Star true Dot.

(** [\bhot\s*spot\b|\bselect\b.*\byes\b.*\bif\b|\bselect\b.*\bstatement\b.*\btrue\b] *)
Definition hotspot_re : regex :=
  Alts [ Seq [WordB; Lit "hot"; Star true s; Lit "spot"; WordB];
         Seq [bw "select"; dots; bw "yes"; dots; bw "if"];
         Seq [bw "select"; dots; bw "statement"; dots; bw "true"] ].

(** [\bdrag\b.*\bdrop\b|\bmatch\b.*\bitem\b|\bdrag\b.*\bappropriate\b|\bcorrect\b\s+\bmatch\b] *)
Definition dragdrop_re : regex :=
  Alts [ Seq [bw "drag"; dots; bw "drop"];
         Seq [bw "match"; dots; bw "item"];
         Seq [bw "drag"; dots; bw "appropriate"];
         Seq [bw "correct"; Plus s; bw "match"] ].

(** [\bdrop\s*down\b|\bselect\b.*\bfrom\b.*\bmenu\b|\bcorrectly completes the sentence\b|\bselect the appropriate options? in the answer area\b] *)
Definition dropdown_re : regex :=
  Alts [ Seq [WordB; Lit "drop"; Star true s; Lit "down"; WordB];
         Seq [bw "select"; dots; bw "from"; dots; bw "menu"];
         bw "correctly completes the sentence";
         Seq [WordB; Lit "select the appropriate option"; Opt (Chr "s");
              Lit " in the answer area"; WordB] ].

(** [^[A-Z]\.\s+] *)
Definition option_start_re : regex := Seq [Bol; AZ; Chr "."; Plus s].

(** [Answer:\s*( [A-Z] (?:,\s*[A-Z])* )], written here with spaces. *)
Definition answer_line_re : regex :=
  Seq [Lit "Answer:"; Star true s;
       Grp 1 (Cat AZ (Star true (Seq [Chr ","; Star true s; AZ])))].

(** [[a.strip() for a in text.split(',') if a.strip()]] *)
Definition split_answers (answer_text : string) : list string :=
  filter (fun a => Py.nonempty a) (map Py.strip (Py.split "," answer_text)).

Definition any_match (f : flags) (patterns : list regex) (text : string) : bool :=
  existsb (fun p => matches f p text) patterns.

Definition in_list (x : string) (l : list string) : bool :=
  existsb (String.eqb x) l.

Definition get_question_type (text : string) : string :=
  if any_match I positioneddragdrop_patterns text then "POSITIONEDDRAGDROP"
  else if any_match I positioneddropdown_patterns text then "POSITIONEDDROPDOWN"
  else if any_match I fillintheblank_patterns text then "FILLINTHEBLANK"
  else if any_match I simulation_patterns text then "SIMULATION"
  else
    let declared :=
      match search I declared_type_re text with
      | Some m =>
          let declared_type := Py.upper (group_or_empty 1 m) in
          if in_list declared_type declared_types then Some declared_type else None
      | None => None
      end in
    match declared with
    | Some t => t
    | None =>
        if matches I hotspot_re text then "HOTSPOT"
        else if matches I dragdrop_re text then "DRAGDROP"
        else if matches I dropdown_re text then "DROPDOWN"
        else
          let options := findall ML option_start_re text in
          match options, search no_flags answer_line_re text with
          | _ :: _, Some m =>
              let answers := split_answers (group_or_empty 1 m) in
              if (1 <? length answers)%nat then "MultipleChoice" else "SingleChoice"
          | _, _ => "SingleChoice"
          end
    end.

(** [^([A-Z])\.\s+(.*?)$] *)
Definition option_line_re : regex :=
  Seq [Bol; Grp 1 AZ; Chr "."; Plus s; Grp 2 (Star false Dot); Eol].

(** Returns the options, the correct answers and the updated type. *)
Definition extract_options_from_text (text q_type : string)
    : list (string * string) * list string * string :=
  if in_list q_type ["SingleChoice"; "MultipleChoice"] then
    let options :=
      map (fun x : string * string * caps =>
             let cs := snd x in
             (match group 1 cs with Some l => l | None => "" end,
              Py.strip (match group 2 cs with Some t => t | None => "" end)))
          (fst (finditer ML option_line_re text)) in
    match search no_flags answer_line_re text with
    | Some m =>
        let correct_answers := split_answers (group_or_empty 1 m) in
        (options, correct_answers,
         if (1 <? length correct_answers)%nat then "MultipleChoice" else q_type)
    | None => (options, [], q_type)
    end
  else ([], [], q_type).

Definition any_char : regex := Cls (fun _ => true).                (* [[\s\S]] *)
Definition AF : regex := Cls (Py.in_range 65 70).                  (* [[A-F]] *)
Definition nl_cr : regex := Alt (Chr Re.nl) (Chr CR).              (* [(?:\n|\r)] *)

(** The substitutions of [remove_noise], in the order of the source. *)
Definition remove_noise (text : string) : string :=
  if negb (Py.nonempty text) then "" else
  let lines := Py.split NL text in
  let lines :=
    match lines with
    | l0 :: tl => if Py.contains "QUESTION NO:" (Py.upper l0) then tl else lines
    | [] => lines
    end in
  let text := Py.join NL lines in
  (* QuestionDescriptionImage:\s* *)
  let text := sub S_ (Seq [Lit "QuestionDescriptionImage:"; Star true s]) "" text in
  (* <map>.*$ *)
  let text := sub S_ (Seq [Lit "<map>"; dots; Eol]) "" text in
  (* (?:\n|\r|^)[A-F]\.\s+.*?(?=(?:\n|\r)[A-F]\.|(?:\n|\r)Answer:|$) *)
  let text :=
    sub MS (Seq [Alts [Chr Re.nl; Chr CR; Bol]; AF; Chr "."; Plus s; Star false Dot;
                 Ahead (Alts [Seq [nl_cr; AF; Chr "."];
                              Seq [nl_cr; Lit "Answer:"];
                              Eol])]) "" text in
  (* (?:\n|\r|^)References:[\s\S]*?(?=QUESTION NO:|$) *)
  let text :=
    sub IS (Seq [Alts [Chr Re.nl; Chr CR; Bol]; Lit "References:"; Star false any_char;
                 Ahead (Alt (Lit "QUESTION NO:") Eol)]) "" text in
  (* \s*(Answer:[\s\S]*?|Explanation:[\s\S]*?)(?=References:|$) *)
  let text :=
    sub IS (Seq [Star true s;
                 Grp 1 (Alt (Seq [Lit "Answer:"; Star false any_char])
                            (Seq [Lit "Explanation:"; Star false any_char]));
                 Ahead (Alt (Lit "References:") Eol)]) "" text in
  (* PositionedImage:\s*$ *)
  let text := sub S_ (Seq [Lit "PositionedImage:"; Star true s; Eol]) "" text in
  (* BackgroundImage:\s* *)
  let text := sub S_ (Seq [Lit "BackgroundImage:"; Star true s]) "" text in
  (* \s*JustDropDown:\s*$ and the like *)
  let text := sub no_flags (Seq [Star true s; Lit "JustDropDown:"; Star true s; Eol]) "" text in
  let text := sub no_flags (Seq [Star true s; Lit "QuestionOptionImage:"; Star true s; Eol]) "" text in
  let text := sub no_flags (Seq [Star true s; Lit "AnswerOptionImage:"; Star true s; Eol]) "" text in
  let text :=
    sub no_flags (Seq [Star true s; Lit "QuestionDescriptionImage:"; Star true s;
                       Lit "QuestionDescriptionImage:"; Star true s; Eol]) "" text in
  (* [ \t]+ *)
  let text :=
    sub no_flags (Plus (Cls (fun c => Ascii.eqb c " " || Ascii.eqb c TAB))) " " text in
  (* \n\s*\n *)
  let text := sub no_flags (Seq [Chr Re.nl; Star true s; Chr Re.nl]) (NL +:+ NL) text in
  Py.strip text.

End TextHelpers.

(* ===================================================================== *)
(** ** Data model                                                          *)
(* ===================================================================== *)

(** An image dictionary [{"data", "format", "path"}]. *)
Record Image := { img_data : string; img_format : string; img_path : string }.

(** [ContentItem]; [to_dict] keeps the four fields, so one record stands
    for the object and for its dictionary. *)
Record ContentItem := {
  ci_type : string;
  content : string;
  frame_refs : list string;
  images : list Image }.

(** A question dictionary.  [number] is [None] when the question line
    carries no digits. *)
Record Question := {
  number : option string;
  q_type : string;
  content_items : list ContentItem;
  text : string;
  q_images : list Image }.

(** An entry of a segment's [contents]. *)
Inductive SegmentContent :=
| SegText (content : string)
| SegTitle (content : string)
| SegImage (image : Image) (is_answer_image : bool).

Record Segment := { seg_name : string; seg_contents : list SegmentContent }.

Record CaseStudy := {
  topic_number : string;
  cs_number : string;
  topic_name : string;
  segments : list Segment;
  questions : list Question;
  cs_images : list Image }.

Definition text_item (s : string) : ContentItem :=
  {| ci_type := "text"; content := s; frame_refs := []; images := [] |}.

(** [ContentItem.has_question_start] *)
Definition has_question_start (item : ContentItem) : bool :=
  Py.contains "QUESTION NO:" (Py.upper (content item)).

(* ===================================================================== *)
(** ** modules/core: the grouping state machine                            *)
(* ===================================================================== *)

Module Grouper.
Import Re TextHelpers.

(** [CaseStudyState] *)
Record CaseStudyState := {
  st_topic_number : string;
  st_case_study_number : string;
  st_topic_name : string;
  current_case_study : option CaseStudy;
  current_segment_name : string;
  current_segment_contents : list SegmentContent;
  in_case_study : bool;
  in_case_study_details : bool;
  next_image_is_case_study : bool }.

(** [CaseStudyState.__init__] and [CaseStudyState.reset] *)
Definition reset : CaseStudyState :=
  {| st_topic_number := ""; st_case_study_number := ""; st_topic_name := "";
     current_case_study := None;
     current_segment_name := ""; current_segment_contents := [];
     in_case_study := false; in_case_study_details := false;
     next_image_is_case_study := false |}.

(** [CaseStudyState.start_case_study] *)
Definition start_case_study (st : CaseStudyState) : CaseStudyState :=
  {| st_topic_number := st_topic_number st;
     st_case_study_number := st_case_study_number st;
     st_topic_name := st_topic_name st;
     current_case_study :=
       Some {| topic_number := st_topic_number st;
               cs_number := st_case_study_number st;
               topic_name := st_topic_name st;
               segments := []; questions := []; cs_images := [] |};
     current_segment_name := current_segment_name st;
     current_segment_contents := current_segment_contents st;
     in_case_study := true;
     in_case_study_details := in_case_study_details st;
     next_image_is_case_study := next_image_is_case_study st |}.

Definition set_case_study (cs : option CaseStudy) (st : CaseStudyState) : CaseStudyState :=
  {| st_topic_number := st_topic_number st;
     st_case_study_number := st_case_study_number st;
     st_topic_name := st_topic_name st;
     current_case_study := cs;
     current_segment_name := current_segment_name st;
     current_segment_contents := current_segment_contents st;
     in_case_study := in_case_study st;
     in_case_study_details := in_case_study_details st;
     next_image_is_case_study := next_image_is_case_study st |}.

Definition set_segment (name : string) (contents : list SegmentContent)
    (st : CaseStudyState) : CaseStudyState :=
  {| st_topic_number := st_topic_number st;
     st_case_study_number := st_case_study_number st;
     st_topic_name := st_topic_name st;
     current_case_study := current_case_study st;
     current_segment_name := name;
     current_segment_contents := contents;
     in_case_study := in_case_study st;
     in_case_study_details := in_case_study_details st;
     next_image_is_case_study := next_image_is_case_study st |}.

Definition set_flags (details next_image : bool) (st : CaseStudyState) : CaseStudyState :=
  {| st_topic_number := st_topic_number st;
     st_case_study_number := st_case_study_number st;
     st_topic_name := st_topic_name st;
     current_case_study := current_case_study st;
     current_segment_name := current_segment_name st;
     current_segment_contents := current_segment_contents st;
     in_case_study := in_case_study st;
     in_case_study_details := details;
     next_image_is_case_study := next_image |}.

Definition set_topic (topic case_study name : string) (st : CaseStudyState) : CaseStudyState :=
  {| st_topic_number := topic;
     st_case_study_number := case_study;
     st_topic_name := name;
     current_case_study := current_case_study st;
     current_segment_name := current_segment_name st;
     current_segment_contents := current_segment_contents st;
     in_case_study := in_case_study st;
     in_case_study_details := in_case_study_details st;
     next_image_is_case_study := next_image_is_case_study st |}.

Definition add_segment (sg : Segment) (cs : CaseStudy) : CaseStudy :=
  {| topic_number := topic_number cs; cs_number := cs_number cs;
     topic_name := topic_name cs;
     segments := segments cs ++ [sg];
     questions := questions cs; cs_images := cs_images cs |}.

Definition add_question (q : Question) (cs : CaseStudy) : CaseStudy :=
  {| topic_number := topic_number cs; cs_number := cs_number cs;
     topic_name := topic_name cs;
     segments := segments cs;
     questions := questions cs ++ [q]; cs_images := cs_images cs |}.

Definition add_images (imgs : list Image) (cs : CaseStudy) : CaseStudy :=
  {| topic_number := topic_number cs; cs_number := cs_number cs;
     topic_name := topic_name cs;
     segments := segments cs;
     questions := questions cs; cs_images := cs_images cs ++ imgs |}.

(** [CaseStudyState.finalize_current_segment] *)
Definition finalize_current_segment (st : CaseStudyState) : CaseStudyState :=
  match current_case_study st with
  | Some cs =>
      if Py.nonempty (current_segment_name st)
         && Py.nonempty_list (current_segment_contents st)
      then set_segment (current_segment_name st) []
             (set_case_study
                (Some (add_segment {| seg_name := current_segment_name st;
                                      seg_contents := current_segment_contents st |} cs))
                st)
      else st
  | None => st
  end.

(** [CaseStudyContentGrouper]: the fields of the object. *)
Record GrouperState := {
  current_question : option Question;
  case_studies : list CaseStudy;
  standalone_questions : list Question;
  state : CaseStudyState }.

(** [CaseStudyContentGrouper.__init__] *)
Definition init : GrouperState :=
  {| current_question := None; case_studies := []; standalone_questions := [];
     state := reset |}.

Definition with_state (st : CaseStudyState) (g : GrouperState) : GrouperState :=
  {| current_question := current_question g; case_studies := case_studies g;
     standalone_questions := standalone_questions g; state := st |}.

Definition with_question (q : option Question) (g : GrouperState) : GrouperState :=
  {| current_question := q; case_studies := case_studies g;
     standalone_questions := standalone_questions g; state := state g |}.

(** [BaseContentGrouper._create_question_from_item] *)
Definition _create_question_from_item (item : ContentItem) : Question :=
  {| number := get_question_number (content item);
     q_type := get_question_type (content item);
     content_items := [item];
     text := content item;
     q_images := images item |}.

(** [BaseContentGrouper._add_item_to_current_question] *)
Definition _add_item_to_current_question (item : ContentItem) (g : GrouperState)
    : GrouperState :=
  match current_question g with
  | Some q =>
      with_question
        (Some {| number := number q; q_type := q_type q;
                 content_items := content_items q ++ [item];
                 text := text q +:+ NL +:+ content item;
                 q_images := q_images q ++ images item |}) g
  | None => g
  end.

(** [Topic\s+(\d+),\s+Case\s+Study\s+(\d+)] *)
Definition topic_re : regex :=
  Seq [Lit "Topic"; Plus s; Grp 1 (Plus d); Chr ","; Plus s; Lit "Case"; Plus s;
       Lit "Study"; Plus s; Grp 2 (Plus d)].

Definition QUOTE : string := String (ascii_of_nat 34) EmptyString.

(** [_extract_topic_name] *)
Definition _extract_topic_name (text : string) : string :=
  match Py.split_once "TopicName:" text with
  | [_; after] =>
      let topic_content := Py.strip after in
      let topic_content :=
        if Py.startswith QUOTE topic_content && Py.endswith QUOTE topic_content
        then Py.take (String.length topic_content - 2) (Py.drop 1 topic_content)
        else topic_content in
      Py.strip topic_content
  | _ => ""
  end.

(** [_handle_case_study_heading] *)
Definition _handle_case_study_heading (text : string) (st : CaseStudyState)
    : CaseStudyState :=
  let st := finalize_current_segment st in
  match Py.split_once "Segment:" text with
  | [_; after] => set_segment (Py.strip after) (current_segment_contents st) st
  | _ => st
  end.

(** [_handle_case_study_heading_title] *)
Definition _handle_case_study_heading_title (text : string) (st : CaseStudyState)
    : CaseStudyState :=
  match Py.split_once "Title:" text with
  | [_; after] =>
      set_segment (current_segment_name st)
        (current_segment_contents st ++ [SegTitle (Py.strip after)]) st
  | _ => st
  end.

(** [_finalize_case_study] *)
Definition _finalize_case_study (g : GrouperState) : GrouperState :=
  let g :=
    match current_question g, current_case_study (state g) with
    | Some q, Some cs =>
        if in_case_study (state g) then
          let question_numbers := map number (questions cs) in
          let cs' :=
            if existsb (fun n => bool_decide (n = number q)) question_numbers
            then cs else add_question q cs in
          with_question None (with_state (set_case_study (Some cs') (state g)) g)
        else g
    | _, _ => g
    end in
  let g :=
    match current_case_study (state g) with
    | Some _ =>
        let st := finalize_current_segment (state g) in
        {| current_question := current_question g;
           case_studies :=
             case_studies g ++ match current_case_study st with
                               | Some cs => [cs] | None => [] end;
           standalone_questions := standalone_questions g;
           state := st |}
    | None => g
    end in
  with_state reset g.

(** [CaseStudyContentGrouper._finalize_current_question] *)
Definition _finalize_current_question (g : GrouperState) : GrouperState :=
  match current_question g with
  | Some q =>
      match current_case_study (state g) with
      | Some cs =>
          if in_case_study (state g)
          then with_question None
                 (with_state (set_case_study (Some (add_question q cs)) (state g)) g)
          else {| current_question := None; case_studies := case_studies g;
                  standalone_questions := standalone_questions g ++ [q];
                  state := state g |}
      | None =>
          {| current_question := None; case_studies := case_studies g;
             standalone_questions := standalone_questions g ++ [q];
             state := state g |}
      end
  | None => g
  end.

(** [_handle_case_study_markers]: [Some g'] when the unit was handled. *)
Definition _handle_case_study_markers (item : ContentItem) (g : GrouperState)
    : option GrouperState :=
  let text := content item in
  let st := state g in
  match search no_flags topic_re text with
  | Some m =>
      Some (with_state (set_topic (group_or_empty 1 m) (group_or_empty 2 m)
                          (st_topic_name st) st) g)
  | None =>
  if Py.contains "TopicName:" text then
    Some (with_state (set_topic (st_topic_number st) (st_case_study_number st)
                        (_extract_topic_name text) st) g)
  else if Py.contains "CaseStudyStart:" text then
    Some (with_state (start_case_study st) g)
  else if Py.contains "CaseStudyEnd:" text then
    Some (_finalize_case_study g)
  else if Py.contains "CaseStudyDetailsStart:" text then
    Some (with_state (set_flags true (next_image_is_case_study st) st) g)
  else if Py.contains "CaseStudyDetailsEnd:" text then
    Some (with_state (set_flags false false st) g)
  else if in_case_study_details st && Py.contains "Segment:" text
          && Py.is_some (current_case_study st) then
    Some (with_state (_handle_case_study_heading text st) g)
  else if in_case_study_details st && Py.contains "Title:" text
          && Py.is_some (current_case_study st)
          && Py.nonempty (current_segment_name st) then
    Some (with_state (_handle_case_study_heading_title text st) g)
  else if Py.contains "CaseStudyImage:" text then
    Some (with_state (set_flags (in_case_study_details st) true st) g)
  else None
  end.

(** [_handle_question_markers] *)
Definition _handle_question_markers (item : ContentItem) (g : GrouperState)
    : option GrouperState :=
  if has_question_start item then
    Some (with_question (Some (_create_question_from_item item))
            (_finalize_current_question g))
  else None.

(** [_handle_case_study_content] *)
Definition _handle_case_study_content (item : ContentItem) (g : GrouperState)
    : option GrouperState :=
  let text := content item in
  let st := state g in
  match current_case_study st with
  | Some cs =>
      if next_image_is_case_study st && Py.nonempty_list (images item) then
        let st1 := set_case_study (Some (add_images (images item) cs)) st in
        let st2 :=
          if in_case_study_details st1 && Py.nonempty (current_segment_name st1)
          then set_segment (current_segment_name st1)
                 (current_segment_contents st1
                    ++ map (fun img => SegImage img false) (images item)) st1
          else st1 in
        Some (with_state (set_flags (in_case_study_details st2) false st2) g)
      else if in_case_study_details st then
        if Py.nonempty (current_segment_name st) then
          if Py.nonempty (Py.strip text) then
            Some (with_state
                    (set_segment (current_segment_name st)
                       (current_segment_contents st ++ [SegText (Py.strip text)]) st) g)
          else Some g
        else if Py.nonempty (Py.strip text) then
          Some (with_state
                  (set_segment "Introduction"
                     (current_segment_contents st ++ [SegText (Py.strip text)]) st) g)
        else None
      else None
  | None => None
  end.

(** [_process_single_item] *)
Definition _process_single_item (g : GrouperState) (item : ContentItem) : GrouperState :=
  match _handle_case_study_markers item g with
  | Some g' => g'
  | None =>
      match _handle_question_markers item g with
      | Some g' => g'
      | None =>
          match _handle_case_study_content item g with
          | Some g' => g'
          | None => _add_item_to_current_question item g
          end
      end
  end.

(** [_finalize_processing] *)
Definition _finalize_processing (g : GrouperState) : GrouperState :=
  let g :=
    match current_question g with
    | Some q =>
        match current_case_study (state g) with
        | Some cs =>
            if in_case_study (state g)
            then with_state (set_case_study (Some (add_question q cs)) (state g)) g
            else {| current_question := current_question g;
                    case_studies := case_studies g;
                    standalone_questions := standalone_questions g ++ [q];
                    state := state g |}
        | None =>
            {| current_question := current_question g;
               case_studies := case_studies g;
               standalone_questions := standalone_questions g ++ [q];
               state := state g |}
        end
    | None => g
    end in
  match current_case_study (state g) with
  | Some _ =>
      let st := finalize_current_segment (state g) in
      {| current_question := current_question g;
         case_studies :=
           case_studies g ++ match current_case_study st with
                             | Some cs => [cs] | None => [] end;
         standalone_questions := standalone_questions g;
         state := st |}
  | None => g
  end.

(** The loop of [process_content_items]. *)
Definition run_items (g : GrouperState) (content_items : list ContentItem) : GrouperState :=
  fold_left _process_single_item content_items g.

(** [process_content_items]: the standalone questions and the case
    studies. *)
Definition process_content_items (content_items : list ContentItem)
    : list Question * list CaseStudy :=
  let g := _finalize_processing (run_items init content_items) in
  (standalone_questions g, case_studies g).

End Grouper.

(* ===================================================================== *)
(** ** modules/image_processing/image_processor.py: image roles            *)
(* ===================================================================== *)

Module ImageTypes.

(** The role a unit's text sets, by the [if]/[elif] chain of
    [identify_image_types]; [None] when it holds no role marker. *)
Definition marker_type (content : string) : option string :=
  if Py.contains "QuestionOptionImage:" content then Some "question"
  else if Py.contains "AnswerOptionImage:" content then Some "answer"
  else if Py.contains "QuestionDescriptionImage:" content then Some "description"
  else if Py.contains "JustDropDown:" content then Some "justdropdown"
  else if Py.contains "PositionedImage:" content then Some "positioned"
  else if Py.contains "BackgroundImage:" content then Some "background"
  else if Py.contains "JustCoordinates:" content then Some "just_coordinates"
  else None.

(** The role in force after the unit's text has been looked at. *)
Definition next_type (current_type : option string) (item : ContentItem) : option string :=
  match marker_type (Py.strip (content item)) with
  | Some t => Some t
  | None => current_type
  end.

(** [image_types[img["path"]] = current_type] for each image of a unit. *)
Definition assign (t : string) (imgs : list Image) (image_types : gmap string string)
    : gmap string string :=
  fold_left (fun m img => <[img_path img := t]> m) imgs image_types.

(** One turn of the loop of [identify_image_types]. *)
Definition step (acc : gmap string string * option string) (item : ContentItem)
    : gmap string string * option string :=
  let current_type := next_type (snd acc) item in
  match current_type with
  | Some t => (assign t (images item) (fst acc), current_type)
  | None => (fst acc, current_type)
  end.

Definition scan (content_items : list ContentItem)
    (acc : gmap string string * option string) : gmap string string * option string :=
  fold_left step content_items acc.

Definition identify_image_types (content_items : list ContentItem) : gmap string string :=
  fst (scan content_items (∅, None)).

(** [image_types.get(img.get("path", ""), "description")], the lookup of
    [BaseQuestion._add_sequential_content]. *)
Definition consumed_type (image_types : gmap string string) (img : Image) : string :=
  default "description" (image_types !! img_path img).

End ImageTypes.

(* ===================================================================== *)
(** ** modules/image_processing/image_validation.py                        *)
(* ===================================================================== *)

Module Validation.

(** The five marker checks made on one text; [image_markers] is a
    dictionary whose values are all [True], that is a set of keys. *)
Definition mark (content : string) (image_markers : gset string) : gset string :=
  let m := image_markers in
  let m := if Py.contains "QuestionOptionImage:" content
           then {["QuestionOptionImage"]} ∪ m else m in
  let m := if Py.contains "AnswerOptionImage:" content
           then {["AnswerOptionImage"]} ∪ m else m in
  let m := if Py.contains "QuestionDescriptionImage:" content
           then {["QuestionDescriptionImage"]} ∪ m else m in
  let m := if Py.contains "PositionedImage:" content
           then {["PositionedImage"]} ∪ m else m in
  let m := if Py.contains "BackgroundImage:" content
           then {["BackgroundImage"]} ∪ m else m in
  m.

Definition image_markers (question : Question) : gset string :=
  mark (text question)
    (fold_left (fun m item => mark (content item) m) (content_items question) ∅).

(** [str(q_number)] inside the f-strings. *)
Definition fmt_number (n : option string) : string :=
  match n with Some s => s | None => "None" end.

(** [if key not in image_markers: error_messages.append(msg); all_valid = False] *)
Definition require (key : string) (markers : gset string) (msg : string)
    (acc : bool * list string) : bool * list string :=
  if bool_decide (key ∈ markers) then acc else (false, (snd acc ++ [msg])%list).

Definition missing (q : Question) (kind what : string) : string :=
  "Question " +:+ fmt_number (number q) +:+ " (" +:+ kind +:+ ") - Missing " +:+ what.

(** The body of the loop of [validate_question_images]. *)
Definition validate_one (acc : bool * list string) (question : Question)
    : bool * list string :=
  let markers := image_markers question in
  let t := q_type question in
  if String.eqb t "HOTSPOT" then
    require "AnswerOptionImage" markers (missing question "HOTSPOT" "AnswerOptionImage")
      (require "QuestionOptionImage" markers
         (missing question "HOTSPOT" "QuestionOptionImage") acc)
  else if String.eqb t "DRAGDROP" then
    require "AnswerOptionImage" markers (missing question "DRAGDROP" "AnswerOptionImage")
      (require "QuestionOptionImage" markers
         (missing question "DRAGDROP" "QuestionOptionImage") acc)
  else if String.eqb t "DROPDOWN" then
    require "AnswerOptionImage" markers
      (missing question "DROPDOWN Type 1" "AnswerOptionImage")
      (require "QuestionOptionImage" markers
         (missing question "DROPDOWN Type 1" "QuestionOptionImage") acc)
  else if String.eqb t "POSITIONEDDROPDOWN" then
    require "PositionedImage" markers
      (missing question "POSITIONEDDROPDOWN" "PositionedImage")
      (require "BackgroundImage" markers
         (missing question "POSITIONEDDROPDOWN" "PositionedImage") acc)
  else if String.eqb t "POSITIONEDDRAGDROP" then
    require "PositionedImage" markers
      (missing question "POSITIONEDDRAGDROP" "PositionedImage")
      (require "BackgroundImage" markers
         (missing question "POSITIONEDDRAGDROP" "BackgroundImage") acc)
  else acc.

(** [validate_question_images]: the verdict and the error messages.  The
    function reads its argument only; the embedding returns nothing else. *)
Definition validate_from (acc : bool * list string) (questions : list Question)
    : bool * list string :=
  fold_left validate_one questions acc.

Definition validate_question_images (questions : list Question) : bool * list string :=
  validate_from (true, []) questions.

(** [validate_case_study_questions] *)
Definition validate_case_study (acc : bool * list string) (case_study : CaseStudy)
    : bool * list string :=
  let cs_number := topic_number case_study +:+ "-" +:+ cs_number case_study in
  let '(valid, errors) := validate_question_images (questions case_study) in
  if valid then acc
  else (false,
        (snd acc ++ ["Case Study " +:+ cs_number +:+ " contains invalid questions:"]
                 ++ map (fun e => "  " +:+ e) errors ++ [""])%list).

Definition validate_case_study_questions (case_studies : list CaseStudy)
    : bool * list string :=
  fold_left validate_case_study case_studies (true, []).

End Validation.

(* ===================================================================== *)
(** ** Output trees, exceptions, dynamic values, the service monad         *)
(* ===================================================================== *)

(** An [xml.etree.ElementTree.Element]: tag, attributes in insertion
    order, text ([None] when never assigned) and children. *)
Inductive Element :=
| Elem (tag : string) (attrib : list (string * string)) (etext : option string)
       (children : list Element).

Definition tag_of (e : Element) : string := let 'Elem t _ _ _ := e in t.
Definition attrib_of (e : Element) : list (string * string) := let 'Elem _ a _ _ := e in a.
Definition text_of (e : Element) : option string := let 'Elem _ _ x _ := e in x.
Definition children_of (e : Element) : list Element := let 'Elem _ _ _ c := e in c.

(** [ET.SubElement(parent, tag).text = txt] and an element with children
    only. *)
Definition leaf (tag txt : string) : Element := Elem tag [] (Some txt) [].
Definition node (tag : string) (children : list Element) : Element :=
  Elem tag [] None children.

(** The children of [e] that carry the tag [t]. *)
Definition findall_tag (t : string) (e : Element) : list Element :=
  filter (fun c => String.eqb (tag_of c) t) (children_of e).

(** A raised exception: its class and [str(e)]. *)
Inductive exn := Exn (class msg : string).
Definition str_exn (e : exn) : string := let 'Exn _ m := e in m.

(** Loosely typed values, as [json.loads] returns them. *)
Inductive pyval :=
| VNone
| VBool (b : bool)
| VInt (z : Z)
| VFloat (x : Q)
| VStr (s : string)
| VList (l : list pyval)
| VDict (d : list (string * pyval)).

Module Dyn.

Definition type_name (v : pyval) : string :=
  match v with
  | VNone => "NoneType" | VBool _ => "bool" | VInt _ => "int" | VFloat _ => "float"
  | VStr _ => "str" | VList _ => "list" | VDict _ => "dict"
  end.

(** Truthiness. *)
Definition truthy (v : pyval) : bool :=
  match v with
  | VNone => false
  | VBool b => b
  | VInt z => negb (z =? 0)%Z
  | VFloat x => negb (Qeq_bool x 0)
  | VStr s => Py.nonempty s
  | VList l => match l with [] => false | _ => true end
  | VDict d => match d with [] => false | _ => true end
  end.

Definition APOS : string := String (ascii_of_nat 39) EmptyString.

Definition no_attribute (v : pyval) (name : string) : exn :=
  Exn "AttributeError"
    (APOS +:+ type_name v +:+ APOS +:+ " object has no attribute "
     +:+ APOS +:+ name +:+ APOS).

Definition not_iterable (v : pyval) : exn :=
  Exn "TypeError" (APOS +:+ type_name v +:+ APOS +:+ " object is not iterable").

Fixpoint lookup (k : string) (d : list (string * pyval)) : option pyval :=
  match d with
  | [] => None
  | (k', v) :: d' => if String.eqb k k' then Some v else lookup k d'
  end.

(** [v.get(k, dflt)]: defined on dictionaries only. *)
Definition get (v : pyval) (k : string) (dflt : pyval) : exn + pyval :=
  match v with
  | VDict d => inr (default dflt (lookup k d))
  | _ => inl (no_attribute v "get")
  end.

(** [v.strip()]: defined on strings only. *)
Definition strip (v : pyval) : exn + string :=
  match v with
  | VStr s => inr (Py.strip s)
  | _ => inl (no_attribute v "strip")
  end.

(** The items a [for] loop over [v] visits. *)
Definition iterate (v : pyval) : exn + list pyval :=
  match v with
  | VList l => inr l
  | VDict d => inr (map (fun kv => VStr (fst kv)) d)
  | VStr s => inr (map (fun c => VStr (String c EmptyString)) (list_ascii_of_string s))
  | _ => inl (not_iterable v)
  end.

End Dyn.

(** Computations that call the vision service and may raise.  The state
    is the number of attempts made on the service so far. *)
Definition World := nat.
Definition M (A : Type) : Type := World -> (exn + A) * World.

Definition ret {A} (x : A) : M A := fun w => (inr x, w).
Definition raise {A} (e : exn) : M A := fun w => (inl e, w).
Definition bind {A B} (m : M A) (k : A -> M B) : M B :=
  fun w => match m w with
           | (inr x, w') => k x w'
           | (inl e, w') => (inl e, w')
           end.
Definition lift {A} (r : exn + A) : M A :=
  match r with inr x => ret x | inl e => raise e end.

Notation "'let*' x ':=' m 'in' k" := (bind m (fun x => k))
  (at level 10, x name, k at level 200).

(** [for x in l: ...] collecting what each turn emits. *)
Fixpoint for_each {A B} (f : A -> M (list B)) (l : list A) : M (list B) :=
  match l with
  | [] => ret []
  | x :: l' => let* ys := f x in let* zs := for_each f l' in ret (ys ++ zs)%list
  end.

(** [base64.b64encode(data).decode('utf-8')] *)
Module Base64.

Definition alphabet : list ascii :=
  list_ascii_of_string "ABCDEFGHIJKLMNOPQRSTUVWXYZabcdefghijklmnopqrstuvwxyz0123456789+/".

Definition sextet (n : nat) : ascii := nth n alphabet "="%char.

Fixpoint encode_fuel (fuel : nat) (l : list ascii) : list ascii :=
  match fuel with
  | O => []
  | S fuel' =>
      match l with
      | [] => []
      | [a] =>
          let x := Py.code a in
          [sextet (x / 4); sextet (x mod 4 * 16); "="%char; "="%char]
      | [a; b] =>
          let x := Py.code a in
          let y := Py.code b in
          [sextet (x / 4); sextet (x mod 4 * 16 + y / 16); sextet (y mod 16 * 4); "="%char]
      | a :: b :: c :: l' =>
          let x := Py.code a in
          let y := Py.code b in
          let z := Py.code c in
          sextet (x / 4) :: sextet (x mod 4 * 16 + y / 16)
            :: sextet (y mod 16 * 4 + z / 64) :: sextet (z mod 64)
            :: encode_fuel fuel' l'
      end
  end.

Definition b64encode (data : string) : string :=
  string_of_list_ascii (encode_fuel (S (String.length data)) (list_ascii_of_string data)).

End Base64.

(* ===================================================================== *)
(** ** difflib.SequenceMatcher (as the hotspot builder uses it)            *)
(* ===================================================================== *)

(** [SequenceMatcher(None, a, b).ratio()]: no junk predicate, the automatic
    junk heuristic on.  The score is kept as the exact quotient
    [2 * matches / (len(a) + len(b))]. *)
Module Difflib.

Definition count (c : ascii) (b : list ascii) : nat :=
  length (filter (Ascii.eqb c) b).

(** The elements purged from [b2j] as popular: only when [b] has 200
    elements or more, those that occur more than [n // 100 + 1] times. *)
Definition popular (b : list ascii) (c : ascii) : bool :=
  (200 <=? length b)%nat && (length b / 100 + 1 <? count c b)%nat.

Fixpoint indices (c : ascii) (b : list ascii) (j : nat) : list nat :=
  match b with
  | [] => []
  | x :: b' => if Ascii.eqb c x then j :: indices c b' (S j) else indices c b' (S j)
  end.

(** [b2j.get(c, [])] *)
Definition b2j (b : list ascii) (c : ascii) : list nat :=
  if popular b c then [] else indices c b 0.

Fixpoint j2len_get (j : nat) (j2len : list (nat * nat)) : nat :=
  match j2len with
  | [] => 0
  | (j', k) :: tl => if (j =? j')%nat then k else j2len_get j tl
  end.

(** The inner loop of [find_longest_match] over the positions [js] of
    [a[i]] in [b]; it stops at the first position beyond [bhi]. *)
Fixpoint inner (blo bhi i : nat) (j2len newj2len : list (nat * nat))
    (best : nat * nat * nat) (js : list nat) : list (nat * nat) * (nat * nat * nat) :=
  match js with
  | [] => (newj2len, best)
  | j :: js' =>
      if (j <? blo)%nat then inner blo bhi i j2len newj2len best js'
      else if (bhi <=? j)%nat then (newj2len, best)
      else
        let k := S (match j with O => 0 | S j1 => j2len_get j1 j2len end) in
        let best' :=
          if (snd best <? k)%nat then (i + 1 - k, j + 1 - k, k) else best in
        inner blo bhi i j2len ((j, k) :: newj2len) best' js'
  end.

(** The outer loop, over [i] in [range(alo, ahi)]. *)
Fixpoint outer (a b : list ascii) (blo bhi : nat) (n i : nat)
    (j2len : list (nat * nat)) (best : nat * nat * nat) : nat * nat * nat :=
  match n with
  | O => best
  | S n' =>
      match nth_error a i with
      | Some c =>
          let '(newj2len, best') := inner blo bhi i j2len [] best (b2j b c) in
          outer a b blo bhi n' (S i) newj2len best'
      | None => best
      end
  end.

Definition same_at (a b : list ascii) (i j : nat) : bool :=
  match nth_error a i, nth_error b j with
  | Some x, Some y => Ascii.eqb x y
  | _, _ => false
  end.

(** The two loops that extend the best block over equal elements on the
    left and on the right (the junk set is empty, so the loops over junk
    never run). *)
Fixpoint extend_left (a b : list ascii) (alo blo : nat) (fuel : nat)
    (best : nat * nat * nat) : nat * nat * nat :=
  match fuel with
  | O => best
  | S fuel' =>
      let '(besti, bestj, bestsize) := best in
      if (alo <? besti)%nat && (blo <? bestj)%nat && same_at a b (besti - 1) (bestj - 1)
      then extend_left a b alo blo fuel' (besti - 1, bestj - 1, S bestsize)
      else best
  end.

Fixpoint extend_right (a b : list ascii) (ahi bhi : nat) (fuel : nat)
    (best : nat * nat * nat) : nat * nat * nat :=
  match fuel with
  | O => best
  | S fuel' =>
      let '(besti, bestj, bestsize) := best in
      if (besti + bestsize <? ahi)%nat && (bestj + bestsize <? bhi)%nat
         && same_at a b (besti + bestsize) (bestj + bestsize)
      then extend_right a b ahi bhi fuel' (besti, bestj, S bestsize)
      else best
  end.

Definition find_longest_match (a b : list ascii) (alo ahi blo bhi : nat)
    : nat * nat * nat :=
  let best := outer a b blo bhi (ahi - alo) alo [] (alo, blo, 0) in
  let best := extend_left a b alo blo (length a) best in
  extend_right a b ahi bhi (length a) best.

(** [get_matching_blocks], without the closing sentinel of size 0; the
    blocks come out in increasing order. *)
Fixpoint blocks (fuel : nat) (a b : list ascii) (alo ahi blo bhi : nat)
    : list (nat * nat * nat) :=
  match fuel with
  | O => []
  | S fuel' =>
      let '(i, j, k) := find_longest_match a b alo ahi blo bhi in
      if (k =? 0)%nat then []
      else
        (if (alo <? i)%nat && (blo <? j)%nat
         then blocks fuel' a b alo i blo j else [])
        ++ (i, j, k)
        :: (if (i + k <? ahi)%nat && (j + k <? bhi)%nat
            then blocks fuel' a b (i + k) ahi (j + k) bhi else [])
  end.

Definition get_matching_blocks (a b : list ascii) : list (nat * nat * nat) :=
  blocks (S (length a)) a b 0 (length a) 0 (length b).

Definition matches (a b : list ascii) : nat :=
  fold_right (fun t acc => snd t + acc) 0 (get_matching_blocks a b).

(** [ratio()]: [1.0] for two empty sequences. *)
Definition ratio (a b : string) : Q :=
  let la := list_ascii_of_string a in
  let lb := list_ascii_of_string b in
  match (length la + length lb)%nat with
  | O => 1%Q
  | S n => (Z.of_nat (2 * matches la lb)%nat # Pos.of_succ_nat n)%Q
  end.

End Difflib.

(* ===================================================================== *)
(** ** modules/image_processing: the vision service and the extractors     *)
(* ===================================================================== *)

Module Vision.
Import Re TextHelpers.

Definition QUOTE : string := Grouper.QUOTE.
Definition BACKTICK : ascii := ascii_of_nat 96.
Definition FENCE : string := String BACKTICK (String BACKTICK (String BACKTICK EmptyString)).

(** [MAX_API_RETRIES] of [modules/config.py] *)
Definition MAX_API_RETRIES : nat := 3.

(** The prompt of [extract_text_from_image]. *)
Definition extract_text_from_image_prompt : string :=
  Py.join NL
  [ EmptyString;
    "    You are an expert in analyzing images.";
    "    Extract and return all the text from the provided image.";
    "    Output only the extracted text with no additional commentary.";
    "    " ].

(** The prompt of [extract_answers_from_image]. *)
Definition extract_answers_from_image_prompt : string :=
  Py.join NL
  [ EmptyString;
    "    You are an expert in analyzing images of multiple-choice questions.";
    "    In the provided image, a grey-colored rectangle indicates the selected (correct) answer.";
    "    Extract the complete text of each statement along with its selected answer.";
    "    Output a JSON array of objects with exactly two keys:";
    "      " +:+ QUOTE +:+ "statement" +:+ QUOTE +:+ ": the full text of the statement,";
    "      " +:+ QUOTE +:+ "answer" +:+ QUOTE +:+ ": either " +:+ QUOTE +:+ "Yes" +:+ QUOTE +:+ " or " +:+ QUOTE +:+ "No" +:+ QUOTE +:+ ".";
    "    Output ONLY valid JSON with no extra commentary.";
    "    " ].

(** The prompt of [extract_columns_dynamic]. *)
Definition extract_columns_dynamic_prompt : string :=
  Py.join NL
  [ EmptyString;
    "    You are an expert in analyzing images of a drag-and-drop question.";
    "    This question image has multiple columns (possibly 3 or more), each with a heading (like " +:+ QUOTE +:+ "Applications" +:+ QUOTE +:+ ", " +:+ QUOTE +:+ "Feature" +:+ QUOTE +:+ ", " +:+ QUOTE +:+ "Service" +:+ QUOTE +:+ ", etc.).";
    "    IMPORTANT: Extract ALL columns and their items completely, even if they appear in separate sections or different parts of the image.";
    "    Pay special attention to ensuring you capture ALL columns shown in the image.";
    "    ";
    "    Return the data in JSON with this structure:";
    "    {";
    "      " +:+ QUOTE +:+ "columns" +:+ QUOTE +:+ ": [";
    "        {" +:+ QUOTE +:+ "heading" +:+ QUOTE +:+ ": " +:+ QUOTE +:+ "<column heading>" +:+ QUOTE +:+ ", " +:+ QUOTE +:+ "items" +:+ QUOTE +:+ ": [" +:+ QUOTE +:+ "item1" +:+ QUOTE +:+ ", " +:+ QUOTE +:+ "item2" +:+ QUOTE +:+ ", " +:+ QUOTE +:+ "..." +:+ QUOTE +:+ "]},";
    "        ...";
    "      ]";
    "    }";
    "    Output ONLY valid JSON, no extra commentary.";
    "    " ].

(** The prompt of [extract_pairs_dynamic]. *)
Definition extract_pairs_dynamic_prompt : string :=
  Py.join NL
  [ EmptyString;
    "    You are an expert in analyzing images of a drag-and-drop question.";
    "    This image shows the final matched pairs (or triplets) of the columns that appeared in the question image.";
    "    Each row includes all relevant columns, matched to the correct items.";
    "    Output a JSON array where each object has keys corresponding to the column headings.";
    "    Output ONLY valid JSON, no extra commentary.";
    "    " ].

(** The prompt of [extract_just_dropdown_options]. *)
Definition extract_just_dropdown_options_prompt : string :=
  Py.join NL
  [ EmptyString;
    "    You are an expert in analyzing images containing dropdown menus.";
    "    This image is marked with " +:+ QUOTE +:+ "JustDropDown:" +:+ QUOTE +:+ " which means it contains dropdown options.";
    "    Extract ALL dropdown options WITH their category/parameter labels.";
    EmptyString;
    "    Return ONLY a JSON array using this format:";
    "    [";
    "      {";
    "        " +:+ QUOTE +:+ "label" +:+ QUOTE +:+ ": " +:+ QUOTE +:+ "parameter_name" +:+ QUOTE +:+ ", ";
    "        " +:+ QUOTE +:+ "options" +:+ QUOTE +:+ ": [" +:+ QUOTE +:+ "option1" +:+ QUOTE +:+ ", " +:+ QUOTE +:+ "option2" +:+ QUOTE +:+ ", " +:+ QUOTE +:+ "option3" +:+ QUOTE +:+ "]";
    "      },";
    "      {";
    "        " +:+ QUOTE +:+ "label" +:+ QUOTE +:+ ": " +:+ QUOTE +:+ "another_parameter" +:+ QUOTE +:+ ",";
    "        " +:+ QUOTE +:+ "options" +:+ QUOTE +:+ ": [" +:+ QUOTE +:+ "choice1" +:+ QUOTE +:+ ", " +:+ QUOTE +:+ "choice2" +:+ QUOTE +:+ "]";
    "      }";
    "    ]";
    EmptyString;
    "    Make sure to:";
    "    1. Include ALL dropdown menus visible in the image";
    "    2. Return ONLY valid JSON with no extra text or commentary";
    "    3. Use exact text for options and labels";
    "    " ].

(** The prompt of [extract_dropdown_questions]. *)
Definition extract_dropdown_questions_prompt : string :=
  Py.join NL
  [ EmptyString;
    "    You are an expert in analyzing an image that shows two columns with headers.";
    "    One column (the left) contains the statement header and statement text,";
    "    and the other column (the right) contains the options header and the dropdown options.";
    "    For each row in the image, extract:";
    "      - " +:+ QUOTE +:+ "statement_header" +:+ QUOTE +:+ ": the header for the statement column,";
    "      - " +:+ QUOTE +:+ "statement" +:+ QUOTE +:+ ": the statement text,";
    "      - " +:+ QUOTE +:+ "options_header" +:+ QUOTE +:+ ": the header for the options column,";
    "      - " +:+ QUOTE +:+ "options" +:+ QUOTE +:+ ": an array of the dropdown options.";
    "    Return a JSON array of objects with these four keys.";
    "    Output ONLY valid JSON, with no extra commentary.";
    "    " ].

(** The prompt of [extract_dropdown_answers]. *)
Definition extract_dropdown_answers_prompt : string :=
  Py.join NL
  [ EmptyString;
    "    You are an expert in analyzing an image that shows two columns with headers.";
    "    One column contains the statement header and statement text,";
    "    and the other column contains the answer header and the highlighted answer.";
    "    For each row, extract:";
    "      - " +:+ QUOTE +:+ "statement_header" +:+ QUOTE +:+ ": the header for the statement column,";
    "      - " +:+ QUOTE +:+ "statement" +:+ QUOTE +:+ ": the full text of the statement,";
    "      - " +:+ QUOTE +:+ "answer_header" +:+ QUOTE +:+ ": the header for the answer column,";
    "      - " +:+ QUOTE +:+ "answer" +:+ QUOTE +:+ ": the highlighted option text.";
    "    Return a JSON array of objects with these four keys.";
    "    Output ONLY valid JSON, with no extra commentary.";
    "    " ].

Section Service.

(** The vision service: what the attempt number [n] (counted over the
    whole run) answers to a prompt and an optional image, [None] when the
    attempt raises. *)
Variable gemini : nat -> string -> option string -> option string.

(** [json.loads]: [None] when it raises. *)
Variable json_loads : string -> option pyval.

(** The loop of [call_gemini_with_retry]; the pauses between attempts and
    the message shown after the last failure are left out. *)
Fixpoint attempts (retries_left : nat) (prompt : string) (image : option string)
    (wd : World) : option string * World :=
  match retries_left with
  | O => (None, wd)
  | S n =>
      match gemini wd prompt image with
      | Some response_text => (Some (Py.strip response_text), S wd)
      | None => attempts n prompt image (S wd)
      end
  end.

Definition default_response (prompt : string) : string :=
  if Py.contains "JSON" prompt then "[]" else "".

Definition call_gemini_with_retry (prompt image_data : string) : M string :=
  fun wd =>
    let image := if Py.nonempty image_data then Some image_data else None in
    match attempts MAX_API_RETRIES prompt image wd with
    | (Some response_text, wd') => (inr response_text, wd')
    | (None, wd') => (inr (default_response prompt), wd')
    end.

Definition extract_text_from_image (image_bytes : string) : M string :=
  call_gemini_with_retry extract_text_from_image_prompt image_bytes.

(** The removal of a Markdown fence around the answer. *)
Definition strip_fence (raw_text : string) : string :=
  if Py.startswith FENCE raw_text then
    let raw_text := Py.strip_by (Ascii.eqb BACKTICK) raw_text in
    (* ^json\s* *)
    Py.strip (sub I (Seq [Bol; Lit "json"; Star true s]) "" raw_text)
  else raw_text.

(** [raw_text[start_idx:end_idx+1]] between the first [[] and the last
    []], when both occur. *)
Definition bracket_slice (raw_text : string) : string :=
  match Py.find "[" raw_text, Py.rfind "]" raw_text with
  | Some start_idx, Some end_idx =>
      Py.take (end_idx + 1 - start_idx) (Py.drop start_idx raw_text)
  | _, _ => raw_text
  end.

Definition loads_or (dflt : pyval) (raw_text : string) : pyval :=
  match json_loads raw_text with Some v => v | None => dflt end.

Definition extract_answers_from_image (image_bytes : string) : M pyval :=
  let* raw_text := call_gemini_with_retry extract_answers_from_image_prompt image_bytes in
  ret (loads_or (VList []) (strip_fence raw_text)).

Definition extract_columns_dynamic (image_bytes : string) : M pyval :=
  let* raw_text := call_gemini_with_retry extract_columns_dynamic_prompt image_bytes in
  ret match json_loads (strip_fence raw_text) with
      | Some (VDict data) =>
          match Dyn.lookup "columns" data with
          | Some _ => VDict data
          | None => VDict [("columns", VList [])]
          end
      | _ => VDict [("columns", VList [])]
      end.

Definition extract_pairs_dynamic (image_bytes : string) : M pyval :=
  let* raw_text := call_gemini_with_retry extract_pairs_dynamic_prompt image_bytes in
  ret (loads_or (VList []) (bracket_slice (strip_fence raw_text))).

Definition extract_just_dropdown_options (image_bytes : string) : M pyval :=
  let* raw_text := call_gemini_with_retry extract_just_dropdown_options_prompt image_bytes in
  ret (loads_or (VList []) (bracket_slice (strip_fence raw_text))).

Definition extract_dropdown_questions (image_bytes : string) (is_just_dropdown : bool)
    : M pyval :=
  if is_just_dropdown then extract_just_dropdown_options image_bytes
  else
    let* raw_text := call_gemini_with_retry extract_dropdown_questions_prompt image_bytes in
    ret (loads_or (VList []) (bracket_slice (strip_fence raw_text))).

Definition is_quote (c : ascii) : bool :=
  Ascii.eqb c (ascii_of_nat 34) || Ascii.eqb c (ascii_of_nat 39).

(** The line-by-line fallback of [extract_dropdown_answers]. *)
Definition manual_answer (line : string) : list pyval :=
  if Py.contains ":" line then
    match Py.split_once ":" line with
    | [before; after] =>
        let header := Py.strip_by is_quote (Py.strip before) in
        let value := Py.strip after in
        if Py.nonempty header && Py.nonempty value then
          [VDict [("statement_header", VStr header);
                  ("statement", VStr (QUOTE +:+ header +:+ QUOTE +:+ " :"));
                  ("answer_header", VStr "");
                  ("answer", VStr value)]]
        else []
    | _ => []
    end
  else [].

Definition extract_dropdown_answers (image_bytes : string) : M pyval :=
  let* raw_text := call_gemini_with_retry extract_dropdown_answers_prompt image_bytes in
  match json_loads (bracket_slice (strip_fence raw_text)) with
  | Some data => ret data
  | None =>
      let* answer_text := extract_text_from_image image_bytes in
      ret (VList (concat (map manual_answer (Py.split NL (Py.strip answer_text)))))
  end.

(** [parse_question_options] *)
Fixpoint combine_lines (buffer : string) (lines : list string) : list string :=
  match lines with
  | [] => if Py.nonempty buffer then [buffer] else []
  | line :: lines' =>
      if negb (Py.nonempty buffer) then combine_lines line lines'
      else
        match line with
        | String c _ =>
            if Py.is_lower c then combine_lines (buffer +:+ " " +:+ line) lines'
            else buffer :: combine_lines line lines'
        | EmptyString => buffer :: combine_lines line lines'
        end
  end.

Definition parse_question_options (extracted_text : string)
    : list (string * list string) :=
  let lines :=
    filter Py.nonempty (map Py.strip (Py.nonempty_lines extracted_text)) in
  let lines :=
    match lines with
    | l0 :: l1 :: l2 :: tl =>
        if String.eqb (Py.lower l0) "statement" && String.eqb (Py.lower l1) "yes"
           && String.eqb (Py.lower l2) "no"
        then tl else lines
    | _ => lines
    end in
  let combined_lines := combine_lines "" lines in
  let statements := filter (fun l => (20 <? String.length l)%nat) combined_lines in
  map (fun stmt => (stmt, ["Yes"; "No"])) statements.

End Service.
End Vision.

(* ===================================================================== *)
(** ** modules/questions: the builders                                     *)
(* ===================================================================== *)

Module Questions.
Import Re TextHelpers.

(** The subclasses of [BaseQuestion]. *)
Inductive QuestionClass :=
| HotspotQuestion | DragDropQuestion | DropdownQuestion | TextBasedQuestion
| FillInTheBlankQuestion | SimulationQuestion
| PositionedDropdownQuestion | PositionedDragDropQuestion.

(** [QuestionFactory.create_question]: the class chosen for a question. *)
Definition create_question (question_data : Question) : QuestionClass :=
  let t := Py.upper (q_type question_data) in
  if String.eqb t "HOTSPOT" then HotspotQuestion
  else if String.eqb t "DRAGDROP" then DragDropQuestion
  else if String.eqb t "DROPDOWN" then DropdownQuestion
  else if String.eqb t "FILLINTHEBLANK" then FillInTheBlankQuestion
  else if String.eqb t "POSITIONEDDROPDOWN" then PositionedDropdownQuestion
  else if String.eqb t "POSITIONEDDRAGDROP" then PositionedDragDropQuestion
  else if String.eqb t "SIMULATION" then SimulationQuestion
  else if in_list t ["SINGLECHOICE"; "MULTIPLECHOICE"; "RADIOBUTTON"] then TextBasedQuestion
  else TextBasedQuestion.

(** [get_xml_kind] *)
Definition get_xml_kind (cls : QuestionClass) (q : Question) : string :=
  match cls with
  | HotspotQuestion => "Hotspot"
  | DragDropQuestion => "DragDrop"
  | DropdownQuestion => "DropDown"
  | TextBasedQuestion => q_type q
  | FillInTheBlankQuestion => "FillInTheBlank"
  | SimulationQuestion => "Simulation"
  | PositionedDropdownQuestion => "PositionedDropDown"
  | PositionedDragDropQuestion => "PositionedDragDrop"
  end.

(** [str(x)] for a question number. *)
Definition str_number (n : option string) : string :=
  match n with Some x => x | None => "None" end.

(** [_add_basic_elements] *)
Definition _add_basic_elements (cls : QuestionClass) (q : Question) : list Element :=
  [ leaf "Kind" (get_xml_kind cls q);
    leaf "DisplayKind" (get_xml_kind cls q);
    leaf "QuestionNo" (str_number (number q)) ].

(** [[^\s\)]+] *)
Definition url_body : regex :=
  Plus (NotIn (fun c => Py.is_space c || Ascii.eqb c ")")).
(** [https://[^\s\)]+], [http://[^\s\)]+], [https:[^\s\)]+] and
    [www\.[^\s\)]+\.[a-zA-Z]{2,}] *)
Definition url_https : regex := Cat (Lit "https://") url_body.
Definition url_http : regex := Cat (Lit "http://") url_body.
Definition url_malformed : regex := Cat (Lit "https:") url_body.
Definition url_www : regex :=
  Seq [Lit "www."; url_body; Chr "."; AtLeast 2 (Cls Py.is_alpha)].

(** [_extract_explanation] *)
Definition _extract_explanation (q : Question) : string :=
  if Py.contains "Explanation:" (text q) then
    match Py.split_once "Explanation:" (text q) with
    | [_; after] =>
        let explanation_text := Py.strip after in
        let lines := map Py.strip (Py.split NL explanation_text) in
        (* https?://|https?:|www\. *)
        let url :=
          Alts [Seq [Lit "http"; Opt (Chr "s"); Lit "://"];
                Seq [Lit "http"; Opt (Chr "s"); Chr ":"];
                Lit "www."] in
        Py.join NL
          (filter (fun line => Py.nonempty line && negb (matches no_flags url line)) lines)
    | _ => ""
    end
  else "".

Fixpoint dedup (seen : list string) (l : list string) : list string :=
  match l with
  | [] => []
  | x :: l' =>
      if in_list x seen then dedup seen l' else x :: dedup (x :: seen) l'
  end.

(** [_extract_references] *)
Definition _extract_references (q : Question) : list string :=
  let all_text :=
    fold_left (fun acc item =>
                 if Py.nonempty (Py.strip (content item))
                 then acc +:+ " " +:+ content item else acc)
              (content_items q) (text q) in
  let all_urls :=
    concat (map (fun p => findall no_flags p all_text)
                [url_https; url_http; url_malformed; url_www]) in
  dedup [] all_urls.

(** [_is_answer_content] *)
Definition _is_answer_content (txt : string) : bool :=
  let text_lower := Py.strip (Py.lower txt) in
  if Py.startswith "answer:" text_lower || Py.contains "choices" text_lower then true
  else if Py.is_some (match_ no_flags (Seq [Bol; AZ; Chr "."]) (Py.strip txt)) then true
  else if Py.startswith "explanation:" text_lower then true
  else any_match no_flags [url_https; url_malformed; url_www] txt.

(** [_is_question_type_duplicate] *)
Definition _is_question_type_duplicate (txt : string) : bool :=
  in_list (Py.strip txt)
    [ "FillInTheBlank"; "MultipleChoice"; "TrueFalse"; "SingleChoice"; "MultipleSelect";
      "DropDown"; "DragDrop"; "Hotspot"; "Simulation"; "DROPDOWN"; "DRAGDROP";
      "HOTSPOT"; "SIMULATION"; "POSITIONEDDROPDOWN"; "PositionedDropDown";
      "POSITIONEDDRAGDROP"; "POSITIONEDDragDrop" ].

(** [_replace_blanks_with_keyword]: [_{2,}] becomes [[blank]]. *)
Definition _replace_blanks_with_keyword (txt : string) : string :=
  sub no_flags (AtLeast 2 (Chr "_")) "[blank]" txt.

(** [_is_explanation_duplicate] *)
Definition _is_explanation_duplicate (q : Question) (txt : string) : bool :=
  let explanation_text := _extract_explanation q in
  Py.nonempty explanation_text && Py.contains (Py.strip txt) explanation_text.

Definition marker_words : list string :=
  [ "QuestionDescriptionImage:"; "BackgroundImage:"; "PositionedImage:";
    "QuestionOptionImage:"; "AnswerOptionImage:"; "JustDropDown:"; "CaseStudyImage:" ].

(** [_clean_item_text] *)
Definition _clean_item_text (q : Question) (txt : string) : string :=
  (* (QuestionDescriptionImage:|...|CaseStudyImage:)\s* *)
  let txt := sub no_flags (Seq [Grp 1 (Alts (map Lit marker_words)); Star true s]) "" txt in
  (* ^\s*QUESTION NO:\s*\d+.*?\n? *)
  let txt :=
    sub I (Seq [Bol; Star true s; Lit "QUESTION NO:"; Star true s; Plus d;
                Star false Dot; Opt (Chr Re.nl)]) "" txt in
  (* \s+ *)
  let txt := Py.strip (sub no_flags (Plus s) " " txt) in
  if _is_answer_content txt then ""
  else if _is_question_type_duplicate txt then ""
  else if _is_explanation_duplicate q txt then ""
  else _replace_blanks_with_keyword txt.

Definition text_contents (txt : string) : Element :=
  node "Contents" [leaf "ContentType" "Text"; leaf "Text" txt].

(** [_add_image_content] *)
Definition _add_image_content (img : Image) (is_answer is_background : bool) : Element :=
  node "Contents"
    [ leaf "ContentType" (if is_background then "BImage" else "Image");
      leaf "Image" (Base64.b64encode (img_data img));
      leaf "IsAnswerImage" (if is_answer then "true" else "false") ].

(** [_get_image_types] *)
Definition _get_image_types (q : Question) : gmap string string :=
  ImageTypes.identify_image_types (content_items q).

(** [_clean_description], with the override of [FillInTheBlankQuestion]. *)
Definition _clean_description (cls : QuestionClass) (q : Question) : string :=
  let clean_desc := remove_noise (text q) in
  match cls with
  | FillInTheBlankQuestion =>
      (* _{3,}, then _+, then \[_+\] *)
      let clean_desc := sub no_flags (AtLeast 3 (Chr "_")) "[blank]" clean_desc in
      let clean_desc := sub no_flags (Plus (Chr "_")) "[blank]" clean_desc in
      sub no_flags (Seq [Chr "["; Plus (Chr "_"); Chr "]"]) "[blank]" clean_desc
  | _ => clean_desc
  end.

(** [_add_description_contents] *)
Definition _add_description_contents (cls : QuestionClass) (q : Question) : list Element :=
  let paragraphs :=
    filter Py.nonempty (map Py.strip (Py.split NL (_clean_description cls q))) in
  map text_contents paragraphs.

(** [_get_description_images] and [_add_description_images] *)
Definition _get_description_images (q : Question) : list Image :=
  let image_types := _get_image_types q in
  filter (fun img => bool_decide (image_types !! img_path img = Some "description"))
         (q_images q).

Definition _add_description_images (q : Question) : list Element :=
  map (fun img => _add_image_content img false false) (_get_description_images q).

(** What one content unit adds in [_add_sequential_content]. *)
Definition item_content (q : Question) (image_types : gmap string string)
    (item : ContentItem) : list Element :=
  let item_text := Py.strip (content item) in
  let texts :=
    if Py.nonempty item_text then
      let clean_text := _clean_item_text q item_text in
      if Py.nonempty clean_text then [text_contents clean_text] else []
    else [] in
  let imgs :=
    concat (map (fun img =>
                   let img_type := ImageTypes.consumed_type image_types img in
                   if String.eqb img_type "description"
                   then [_add_image_content img false false]
                   else if String.eqb img_type "background"
                   then [_add_image_content img false true]
                   else [])
                (images item)) in
  (texts ++ imgs)%list.

(** [_add_sequential_content] *)
Definition _add_sequential_content (cls : QuestionClass) (q : Question) : list Element :=
  match content_items q with
  | [] => (_add_description_contents cls q ++ _add_description_images q)%list
  | _ =>
      let image_types := _get_image_types q in
      concat (map (item_content q image_types) (content_items q))
  end.

(** [_add_explanation] *)
Definition _add_explanation (q : Question) : list Element :=
  let explanation_text := _extract_explanation q in
  let references := _extract_references q in
  if Py.nonempty explanation_text || Py.nonempty_list references then
    let paragraphs :=
      if Py.nonempty explanation_text
      then filter Py.nonempty (map Py.strip (Py.split NL explanation_text))
      else [] in
    let kept :=
      filter (fun p => negb (Py.contains "References:" (Py.strip p))
                       && negb (matches no_flags (Alts [url_https; url_malformed; url_www]) p))
             paragraphs in
    [ node "Explanation"
        (map text_contents kept
         ++ map (fun link => node "Contents" [leaf "ContentType" "Link"; leaf "Link" link])
                references)%list ]
  else [].

(** [_get_question_answer_images] *)
Definition _get_question_answer_images (q : Question) : list Image * list Image :=
  let image_types := _get_image_types q in
  let with_type t :=
    filter (fun img => bool_decide (image_types !! img_path img = Some t)) (q_images q) in
  match with_type "question", with_type "answer" with
  | [], [] =>
      match q_images q with
      | i0 :: i1 :: _ => ([i0], [i1])
      | [i0] => ([i0], [])
      | [] => ([], [])
      end
  | qs, as_ => (qs, as_)
  end.

(* --------------------------------------------------------------------- *)
(** *** TextBasedQuestion                                                  *)

(** [_extract_options_from_content_items] *)
Definition _extract_options_from_content_items (q : Question) : list (string * string) :=
  concat (map (fun item =>
                 let item_text := Py.strip (content item) in
                 if Py.is_some (match_ no_flags (Seq [Bol; AZ; Chr "."]) item_text) then
                   [(Py.take 1 item_text,
                     (* ^[A-Z]\.\s* *)
                     Py.strip (sub no_flags (Seq [Bol; AZ; Chr "."; Star true s]) "" item_text))]
                 else [])
              (content_items q)).

(** [\b[A-Z]\b] *)
Definition letter_re : regex := Seq [WordB; AZ; WordB].

(** [_extract_answers_from_text] *)
Definition _extract_answers_from_text (q : Question) : list string :=
  let from_text :=
    if Py.contains "Answer:" (text q) then
      match Py.split_once "Answer:" (text q) with
      | [_; answer_part] => findall no_flags letter_re answer_part
      | _ => []
      end
    else [] in
  let from_items :=
    concat (map (fun item =>
                   let item_text := Py.strip (content item) in
                   if Py.startswith "answer:" (Py.lower item_text)
                   then findall no_flags letter_re item_text else [])
                (content_items q)) in
  (from_text ++ from_items)%list.

(** [_extract_text_options] *)
Definition _extract_text_options (q : Question) : list (string * string) * list string :=
  let '(text_options, text_answers, _) := extract_options_from_text (text q) (q_type q) in
  let '(options, correct_answers) :=
    match text_options with
    | [] => ([], [])
    | _ => (text_options, text_answers)
    end in
  let '(options, correct_answers) :=
    match options, content_items q with
    | [], _ :: _ => (_extract_options_from_content_items q, _extract_answers_from_text q)
    | _, _ => (options, correct_answers)
    end in
  (options, dedup [] correct_answers).

(** [_add_text_choices_to_xml] *)
Definition _add_text_choices_to_xml (options : list (string * string))
    (correct_answers : list string) : list Element :=
  (map (fun o => node "Choices"
                   [ leaf "Number" (fst o);
                     node "Contents" [leaf "ContentType" "Text"; leaf "Text" (snd o)] ])
       options
   ++ match correct_answers with
      | [] => []
      | _ => [node "Answer" (map (leaf "Choices") correct_answers)]
      end)%list.

Definition text_based_elements (q : Question) : list Element :=
  let '(options, correct_answers) := _extract_text_options q in
  _add_text_choices_to_xml options correct_answers.

Section Dispatch.

Variable gemini : nat -> string -> option string -> option string.
Variable json_loads : string -> option pyval.

(** [str(v)] for a float, a list or a dictionary. *)
Variable str_compound : pyval -> string.

(** [_add_question_specific_elements] of the classes that are not
    embedded: [DragDropQuestion], [FillInTheBlankQuestion],
    [SimulationQuestion], [PositionedDropdownQuestion] and
    [PositionedDragDropQuestion]. *)
Variable other_elements : QuestionClass -> Question -> M (list Element).

Definition str_Z (z : Z) : string :=
  if (z <? 0)%Z then "-" +:+ Py.str_of_nat (Z.abs_nat z) else Py.str_of_nat (Z.abs_nat z).

(** [str(v)] *)
Definition py_str (v : pyval) : string :=
  match v with
  | VNone => "None"
  | VBool b => if b then "True" else "False"
  | VInt z => str_Z z
  | VStr x => x
  | _ => str_compound v
  end.

(* --------------------------------------------------------------------- *)
(** *** HotspotQuestion                                                    *)

Definition _extract_options_from_image (image_data : string)
    : M (list (string * list string)) :=
  let* q_text := Vision.extract_text_from_image gemini image_data in
  ret (Vision.parse_question_options q_text).

Fixpoint enumerate {A} (start : nat) (l : list A) : list (nat * A) :=
  match l with
  | [] => []
  | x :: l' => (start, x) :: enumerate (S start) l'
  end.

(** [_add_options_to_xml] *)
Definition _add_options_to_xml (options : list (string * list string)) : Element :=
  node "QuestionOptions"
    (map (fun io : nat * (string * list string) =>
            let '(idx, (stmt, opts)) := io in
            Elem "OptionSet" [("index", Py.str_of_nat idx)] None
              [ leaf "Statement" stmt; node "Options" (map (leaf "Option") opts) ])
         (enumerate 1 options)).

(** The threshold [0.6]; the floating-point quotient [2.0 * m / t] exceeds
    the literal [0.6] exactly when the exact quotient exceeds [3/5], as
    long as [t] stays below 10^15. *)
Definition threshold : Q := (6 # 10)%Q.

Definition Qgt_bool (x y : Q) : bool := negb (Qle_bool x y).

(** The loop over the candidate statements: the best match so far and its
    score. *)
Definition best_step (ans_stmt : string) (acc : option string * Q)
    (opt : string * list string) : option string * Q :=
  let opt_stmt := fst opt in
  let seq_score := Difflib.ratio (Py.lower opt_stmt) (Py.lower ans_stmt) in
  if Qgt_bool seq_score (snd acc) && Qgt_bool seq_score threshold
  then (Some opt_stmt, seq_score) else acc.

Definition best_match (options : list (string * list string)) (ans_stmt : string)
    : option string * Q :=
  fold_left (best_step ans_stmt) options (None, 0%Q).

(** [final_statement = best_match if best_match else ans_stmt] *)
Definition final_statement (options : list (string * list string)) (ans_stmt : string)
    : string :=
  match fst (best_match options ans_stmt) with
  | Some m => if Py.nonempty m then m else ans_stmt
  | None => ans_stmt
  end.

Definition try_bind {A B} (r : exn + A) (k : A -> exn + B) : exn + B :=
  match r with inr x => k x | inl e => inl e end.

(** The body of the loop of [_add_answers_to_xml]. *)
Definition answer_element (options : list (string * list string)) (item : pyval)
    : exn + Element :=
  try_bind (Dyn.get item "statement" (VStr "")) (fun v =>
  try_bind (Dyn.strip v) (fun ans_stmt =>
  try_bind (Dyn.get item "answer" (VStr "")) (fun v' =>
  try_bind (Dyn.strip v') (fun ans_value =>
  inr (Elem "Answer" [("statement", final_statement options ans_stmt)]
            (Some ans_value) []))))).

Fixpoint try_map {A B} (f : A -> exn + B) (l : list A) : exn + list B :=
  match l with
  | [] => inr []
  | x :: l' =>
      try_bind (f x) (fun y => try_bind (try_map f l') (fun ys => inr (y :: ys)))
  end.

(** [_add_answers_to_xml] *)
Definition _add_answers_to_xml (answers_data : pyval)
    (options : list (string * list string)) : exn + Element :=
  if Py.nonempty_list options && Dyn.truthy answers_data then
    try_bind (Dyn.iterate answers_data) (fun items =>
    try_bind (try_map (answer_element options) items) (fun answers =>
    inr (node "Answers" answers)))
  else inr (node "Answers" []).

Definition hotspot_elements (q : Question) : M (list Element) :=
  let '(q_imgs, a_imgs) := _get_question_answer_images q in
  let* options_xml :=
    match q_imgs with
    | qi :: _ =>
        let* options := _extract_options_from_image (img_data qi) in
        ret [_add_options_to_xml options]
    | [] => ret []
    end in
  let* answers_xml :=
    match a_imgs with
    | ai :: _ =>
        let* answers := Vision.extract_answers_from_image gemini json_loads (img_data ai) in
        let* options :=
          match q_imgs with
          | qi :: _ => _extract_options_from_image (img_data qi)
          | [] => ret []
          end in
        let* answers_elem := lift (_add_answers_to_xml answers options) in
        ret [answers_elem]
    | [] => ret []
    end in
  ret (options_xml ++ answers_xml)%list.

(* --------------------------------------------------------------------- *)
(** *** DropdownQuestion                                                   *)

(** [_get_categorized_images]; [str(img_types)] is the role itself, or
    ["[]"] for an image without a role. *)
Definition _get_categorized_images (q : Question) : list Image * list Image :=
  let image_types := _get_image_types q in
  let shown img := default "[]" (image_types !! img_path img) in
  let q_imgs := filter (fun img => Py.contains "question" (shown img)) (q_images q) in
  let a_imgs :=
    filter (fun img => negb (Py.contains "question" (shown img))
                       && Py.contains "answer" (shown img)) (q_images q) in
  match q_imgs, a_imgs with
  | [], [] =>
      match q_images q with
      | i0 :: i1 :: _ => ([i0], [i1])
      | [i0] => ([i0], [])
      | [] => ([], [])
      end
  | _, _ => (q_imgs, a_imgs)
  end.

Definition options_of (v : pyval) : pyval := VDict [("options", VList [VStr (py_str v)])].

(** [_extract_dropdown_questions_from_image] *)
Definition _extract_dropdown_questions_from_image (image_data : string)
    : M (list pyval) :=
  let* raw_data := Vision.extract_dropdown_questions gemini json_loads image_data false in
  ret match raw_data with
      | VList l => l
      | VDict _ => [raw_data]
      | VStr x =>
          match json_loads x with
          | Some (VList l) => l
          | Some (VDict d) => [VDict d]
          | Some parsed => [options_of parsed]
          | None => [options_of raw_data]
          end
      | _ => []
      end.

(** [_extract_dropdown_answers_from_image] *)
Definition _extract_dropdown_answers_from_image (image_data : string) : M (list pyval) :=
  let* raw_answers := Vision.extract_dropdown_answers gemini json_loads image_data in
  ret match raw_answers with
      | VList l => l
      | _ => if Dyn.truthy raw_answers then [raw_answers] else []
      end.

Definition field (d : list (string * pyval)) (k : string) : string :=
  Py.strip (py_str (default (VStr "") (Dyn.lookup k d))).

(** [_add_dropdown_options_to_xml] *)
Definition _add_dropdown_options_to_xml (question_data : list pyval) : Element :=
  node "QuestionOptions"
    (concat (map (fun iq : nat * pyval =>
                    match snd iq with
                    | VDict qd =>
                        let opts :=
                          match default (VList []) (Dyn.lookup "options" qd) with
                          | VList opts_list => map py_str opts_list
                          | opts_list => [py_str opts_list]
                          end in
                        [ Elem "OptionSet" [("index", Py.str_of_nat (fst iq))] None
                            [ leaf "ColumnHeaderStatement" (field qd "statement_header");
                              leaf "Statement" (field qd "statement");
                              leaf "ColumnHeaderOptions" (field qd "options_header");
                              node "Options" (map (leaf "Option") opts) ] ]
                    | _ => []
                    end)
                 (enumerate 1 question_data))).

Definition answer_from_line (line : string) : list Element :=
  match Py.split_once ":" line with
  | [before; after] =>
      let header := Py.strip before in
      let value := Py.strip after in
      if Py.nonempty header && Py.nonempty value then
        [ Elem "Answer"
            [ ("statement_header", header); ("answer_header", "");
              ("statement", Vision.QUOTE +:+ header +:+ Vision.QUOTE +:+ " :") ]
            (Some value) [] ]
      else []
  | _ => []
  end.

Definition answer_from_item (ans_item : pyval) : list Element :=
  match ans_item with
  | VDict d =>
      [ Elem "Answer"
          [ ("statement_header", field d "statement_header");
            ("answer_header", field d "answer_header");
            ("statement", field d "statement") ]
          (Some (field d "answer")) [] ]
  | _ => []
  end.

(** [_add_dropdown_answers_to_xml] *)
Definition _add_dropdown_answers_to_xml (answers_data : list pyval) (a_imgs : list Image)
    : M Element :=
  match answers_data, a_imgs with
  | [], ai :: _ =>
      let* answer_text := Vision.extract_text_from_image gemini (img_data ai) in
      ret (node "Answers"
             (concat (map answer_from_line (Py.split NL (Py.strip answer_text)))))
  | _, _ => ret (node "Answers" (concat (map answer_from_item answers_data)))
  end.

Definition dropdown_elements (q : Question) : M (list Element) :=
  let '(q_imgs, a_imgs) := _get_categorized_images q in
  let* question_data :=
    match q_imgs with
    | qi :: _ => _extract_dropdown_questions_from_image (img_data qi)
    | [] => ret []
    end in
  let* answers_data :=
    match a_imgs with
    | ai :: _ => _extract_dropdown_answers_from_image (img_data ai)
    | [] => ret []
    end in
  let* answers_elem := _add_dropdown_answers_to_xml answers_data a_imgs in
  ret [_add_dropdown_options_to_xml question_data; answers_elem].

(* --------------------------------------------------------------------- *)
(** *** BaseQuestion.build_xml and the dispatch                            *)

Definition _add_question_specific_elements (cls : QuestionClass) (q : Question)
    : M (list Element) :=
  match cls with
  | HotspotQuestion => hotspot_elements q
  | DropdownQuestion => dropdown_elements q
  | TextBasedQuestion => ret (text_based_elements q)
  | _ => other_elements cls q
  end.

(** [build_xml] of the object the factory creates for [q]. *)
Definition build_xml (q : Question) : M Element :=
  let cls := create_question q in
  let* specific := _add_question_specific_elements cls q in
  ret (node "Question"
         (_add_basic_elements cls q ++ _add_sequential_content cls q ++ specific
          ++ [leaf "Id" ""] ++ _add_explanation q)%list).

(** An entry of the list [process_questions] returns. *)
Record Processed := { p_number : option string; p_type : string; element : Element }.

(** The type after the update made for text-based questions. *)
Definition updated_type (q : Question) : string :=
  if in_list (q_type q) ["SingleChoice"; "MultipleChoice"]
  then snd (extract_options_from_text (text q) (q_type q))
  else q_type q.

Definition with_type (t : string) (q : Question) : Question :=
  {| number := number q; q_type := t; content_items := content_items q;
     text := text q; q_images := q_images q |}.

(** The node built when a question raises. *)
Definition fallback (q_number : option string) (q_type e : string) : Element :=
  node "Question"
    [ leaf "QuestionNo" (str_number q_number); leaf "Kind" q_type; leaf "Error" e ].

(** The body of the loop of [process_questions]: [try] ... [except]. *)
Definition process_one (question_data : Question) : M Processed :=
  fun wd =>
    let q_number := number question_data in
    let q_type := updated_type question_data in
    match build_xml (with_type q_type question_data) wd with
    | (inr xml_element, wd') =>
        (inr {| p_number := q_number; p_type := q_type; element := xml_element |}, wd')
    | (inl e, wd') =>
        (inr {| p_number := q_number; p_type := q_type;
                element := fallback q_number q_type (str_exn e) |}, wd')
    end.

(** [process_questions] *)
Fixpoint process_questions (questions : list Question) : M (list Processed) :=
  match questions with
  | [] => ret []
  | question_data :: rest =>
      let* r := process_one question_data in
      let* rs := process_questions rest in
      ret (r :: rs)
  end.

End Dispatch.
End Questions.

(* ===================================================================== *)
(** ** modules/output/xml_generator.py: the document assembler             *)
(* ===================================================================== *)

Module Output.
Import Re TextHelpers Questions.

(** A sort key: [int(x)] or the string itself. *)
Inductive key := KInt (z : Z) | KStr (x : string).

(** [int(x) if x.isdigit() else x] *)
Definition key_of (x : string) : key :=
  if Py.isdigit x then KInt (Py.int x) else KStr x.

Definition key_type (k : key) : string :=
  match k with KInt _ => "int" | KStr _ => "str" end.

Definition not_supported (a b : key) : exn :=
  Exn "TypeError"
    ("'<' not supported between instances of " +:+ Dyn.APOS +:+ key_type a +:+ Dyn.APOS
     +:+ " and " +:+ Dyn.APOS +:+ key_type b +:+ Dyn.APOS).

(** [a == b] and [a < b] on keys; an integer and a string are never equal
    and cannot be ordered. *)
Definition key_eq (a b : key) : bool :=
  match a, b with
  | KInt x, KInt y => (x =? y)%Z
  | KStr x, KStr y => String.eqb x y
  | _, _ => false
  end.

Definition key_lt (a b : key) : exn + bool :=
  match a, b with
  | KInt x, KInt y => inr (x <? y)%Z
  | KStr x, KStr y => inr (String.ltb x y)
  | _, _ => inl (not_supported a b)
  end.

(** [a < b] on pairs of keys: the first components that differ decide. *)
Definition pair_lt (a b : key * key) : exn + bool :=
  if key_eq (fst a) (fst b) then
    if key_eq (snd a) (snd b) then inr false else key_lt (snd a) (snd b)
  else key_lt (fst a) (fst b).

(** [list.sort(key=...)] is a stable sort by comparisons with [<], and an
    exception raised by a comparison ends it.  It is modelled by a stable
    insertion sort: each element goes behind the elements not greater
    than it.  On two elements it makes the one comparison [l[1] < l[0]],
    as the library's sort does. *)
Section Sort.
Context {K A : Type} (lt : K -> K -> exn + bool).

Fixpoint insert (x : K * A) (sorted : list (K * A)) : exn + list (K * A) :=
  match sorted with
  | [] => inr [x]
  | y :: sorted' =>
      match lt (fst x) (fst y) with
      | inl e => inl e
      | inr true => inr (x :: y :: sorted')
      | inr false =>
          match insert x sorted' with
          | inl e => inl e
          | inr r => inr (y :: r)
          end
      end
  end.

(** The elements are inserted from the first to the last, each into the
    sorted list of those before it. *)
Definition sort_keyed (l : list (K * A)) : exn + list (K * A) :=
  fold_left (fun acc x => match acc with
                          | inl e => inl e
                          | inr sorted => insert x sorted
                          end) l (inr []).

End Sort.

(** The key of a case study:
    [(int(topic_number) if topic_number.isdigit() else topic_number,
      int(number) if number.isdigit() else number)]. *)
Definition case_study_key (cs : CaseStudy) : key * key :=
  (key_of (topic_number cs), key_of (cs_number cs)).

(** [case_studies.sort(key=...)] *)
Definition sort_case_studies (case_studies : list CaseStudy) : exn + list CaseStudy :=
  match sort_keyed pair_lt (map (fun cs => (case_study_key cs, cs)) case_studies) with
  | inl e => inl e
  | inr l => inr (map snd l)
  end.

(** The key of a processed question:
    [int(x["number"]) if x["number"].isdigit() else x["number"]]; a
    missing number has no [isdigit]. *)
Definition result_key (r : Processed) : exn + key :=
  match p_number r with
  | Some n => inr (key_of n)
  | None => inl (Dyn.no_attribute VNone "isdigit")
  end.

(** [results.sort(key=...)]: the keys are computed first. *)
Definition sort_results (results : list Processed) : exn + list Processed :=
  try_bind (try_map (fun r => try_bind (result_key r) (fun k => inr (k, r))) results)
    (fun keyed =>
       match sort_keyed key_lt keyed with
       | inl e => inl e
       | inr l => inr (map snd l)
       end).

(** [build_xml_for_case_study] *)
Definition segment_content (c : SegmentContent) : Element :=
  match c with
  | SegText x => node "Contents" [leaf "ContentType" "Text"; leaf "Text" x]
  | SegTitle x => node "Contents" [leaf "ContentType" "Title"; leaf "Text" x]
  | SegImage img _ =>
      node "Contents"
        [ leaf "ContentType" "Image";
          leaf "Image" (Base64.b64encode (img_data img));
          leaf "IsAnswerImage" "false" ]
  end.

Definition build_xml_for_case_study (case_study : CaseStudy) : Element :=
  node "CaseStudy"
    (leaf "Number" (topic_number case_study)
     :: leaf "Name" (topic_name case_study)
     :: map (fun sg => node "Segments"
                         (leaf "Name" (seg_name sg)
                          :: map segment_content (seg_contents sg)))
            (segments case_study)).

(** [fix_case_study_details_tags]:
    [(<CaseStudyDetails>)(.*?)(</CaseStudyDetails>)], with [.] matching
    newlines. *)
Definition details_re : regex :=
  Seq [ Grp 1 (Lit "<CaseStudyDetails>"); Grp 2 (Star false Dot);
        Grp 3 (Lit "</CaseStudyDetails>") ].

Definition replace_escaped_tags (cs : caps) : string :=
  let g n := default "" (group n cs) in
  g 1 +:+ Py.replace "&gt;" ">" (Py.replace "&lt;" "<" (g 2)) +:+ g 3.

Definition fix_case_study_details_tags (xml_string : string) : string :=
  sub_fun S_ details_re (fun _ cs => replace_escaped_tags cs) xml_string.

(** Serialisation: [ET.tostring] followed by
    [minidom.parseString(...).toprettyxml(indent="  ")]. *)
Module Serialize.

Definition QUOTE : string := Grouper.QUOTE.

(** The characters the parser refuses: the control characters other than
    TAB, LF and CR. *)
Definition bad_char (c : ascii) : bool :=
  (Py.code c <? 32)%nat
  && negb (Ascii.eqb c (ascii_of_nat 9) || Ascii.eqb c (ascii_of_nat 10)
           || Ascii.eqb c (ascii_of_nat 13)).

Definition well_formed_text (x : string) : bool := Py.all_chars (fun c => negb (bad_char c)) x.

(** The parser turns CR LF and CR of a text into LF. *)
Definition normalize_newlines (x : string) : string :=
  Py.replace (String TextHelpers.CR EmptyString) NL
    (Py.replace (String TextHelpers.CR NL) NL x).

(** [_write_data] of minidom. *)
Definition write_data (x : string) : string :=
  Py.replace ">" "&gt;"
    (Py.replace QUOTE "&quot;" (Py.replace "<" "&lt;" (Py.replace "&" "&amp;" x))).

Definition write_attrs (attrs : list (string * string)) : string :=
  fold_right (fun kv acc => " " +:+ fst kv +:+ "=" +:+ QUOTE +:+ write_data (snd kv)
                            +:+ QUOTE +:+ acc) "" attrs.

(** [Element.writexml] with the indentation [indent], two more spaces per
    level and LF as the line end. *)
Fixpoint writexml (indent : string) (e : Element) : string :=
  let 'Elem tag attrs etext children := e in
  let open := indent +:+ "<" +:+ tag +:+ write_attrs attrs in
  let txt := normalize_newlines (default "" etext) in
  match children with
  | [] =>
      if Py.nonempty txt
      then open +:+ ">" +:+ write_data txt +:+ "</" +:+ tag +:+ ">" +:+ NL
      else open +:+ "/>" +:+ NL
  | _ =>
      open +:+ ">" +:+ NL
      +:+ (if Py.nonempty txt
           then write_data (indent +:+ "  " +:+ txt +:+ NL) else "")
      +:+ fold_right (fun c acc => writexml (indent +:+ "  ") c +:+ acc) "" children
      +:+ indent +:+ "</" +:+ tag +:+ ">" +:+ NL
  end.

Fixpoint well_formed (e : Element) : bool :=
  let 'Elem _ attrs etext children := e in
  forallb (fun kv => well_formed_text (snd kv)) attrs
  && well_formed_text (default "" etext)
  && forallb well_formed children.

Definition header : string := "<?xml version=" +:+ QUOTE +:+ "1.0" +:+ QUOTE +:+ " ?>" +:+ NL.

(** The position the parser reports is left out of the message. *)
Definition toprettyxml (root : Element) : exn + string :=
  if well_formed root then inr (header +:+ writexml "" root)
  else inl (Exn "ExpatError" "not well-formed (invalid token)").

End Serialize.

Section Assembler.

Variable gemini : nat -> string -> option string -> option string.
Variable json_loads : string -> option pyval.
Variable str_compound : pyval -> string.
Variable other_elements : QuestionClass -> Question -> M (list Element).

Definition process_questions := process_questions gemini json_loads str_compound other_elements.

(** The elements of a batch of questions, sorted by number. *)
Definition sorted_elements (questions : list Question) : M (list Element) :=
  let* results := process_questions questions in
  let* results := lift (sort_results results) in
  ret (map element results).

(** The testlet of one case study. *)
Definition case_study_testlet (case_study : CaseStudy) : M Element :=
  let* question_elems :=
    match questions case_study with
    | [] => ret []
    | qs => sorted_elements qs
    end in
  ret (node "Testlets" (build_xml_for_case_study case_study :: question_elems)).

Fixpoint for_all {A B} (f : A -> M B) (l : list A) : M (list B) :=
  match l with
  | [] => ret []
  | x :: l' => let* y := f x in let* ys := for_all f l' in ret (y :: ys)
  end.

(** The tree [generate_xml_output] builds before it serialises it. *)
Definition output_tree (standalone_questions : list Question)
    (case_studies : list CaseStudy) : M Element :=
  let questions_count :=
    (length standalone_questions
     + fold_left (fun n cs => n + length (questions cs)) case_studies 0)%nat in
  let* case_studies := lift (sort_case_studies case_studies) in
  let* testlets := for_all case_study_testlet case_studies in
  let* standalone_testlet :=
    match standalone_questions with
    | [] => ret []
    | _ =>
        let* elems := sorted_elements standalone_questions in
        ret [node "Testlets" elems]
    end in
  ret (node "root"
         ([ leaf "Id" ""; leaf "Code" ""; leaf "Name" ""; leaf "VendorName" "";
            leaf "QuestionsPerExam" (Py.str_of_nat questions_count);
            leaf "Version" ""; leaf "AllowedTime" ""; leaf "MaxScore" "";
            leaf "RequiredScore" ""; leaf "SchemaVersion" ""; leaf "Sections" "" ]
          ++ testlets ++ standalone_testlet)%list).

(** [generate_xml_output] *)
Definition generate_xml_output (standalone_questions : list Question)
    (case_studies : list CaseStudy) : M string :=
  let* root := output_tree standalone_questions case_studies in
  let* xml_pretty := lift (Serialize.toprettyxml root) in
  ret (fix_case_study_details_tags xml_pretty).

End Assembler.
End Output.

(* ===================================================================== *)
(** ** modules/utils/content_statistics.py: ContentUtilities               *)
(* ===================================================================== *)

Module ContentUtilities.
Import TextHelpers.

(** What one part after a [CaseStudyHeading:] marker adds to the result. *)
Definition heading_part (part : string) : string :=
  let part := Py.strip part in
  if negb (Py.nonempty part) then ""
  else
    match Py.split_once NL part with
    | [title; rest] =>
        "<CaseStudyHeading>" +:+ Py.strip title +:+ "</CaseStudyHeading>" +:+ NL
        +:+ rest +:+ NL
    | [title] =>
        "<CaseStudyHeading>" +:+ Py.strip title +:+ "</CaseStudyHeading>" +:+ NL
    | _ => ""
    end.

(** [process_case_study_headings] *)
Definition process_case_study_headings (text : string) : string :=
  match Py.split "CaseStudyHeading:" text with
  | first :: (_ :: _) as parts =>
      fold_left (fun result part => result +:+ heading_part part) parts first
  | _ => text
  end.

End ContentUtilities.

(* ===================================================================== *)
(** ** modules/core/content_processor_base.py: SimpleQuestionGrouper       *)
(* ===================================================================== *)

Module SimpleGrouper.

(** The fields of [BaseContentGrouper]. *)
Record State := { current_question : option Question; questions : list Question }.

Definition init : State := {| current_question := None; questions := [] |}.

(** [BaseContentGrouper._finalize_current_question] *)
Definition _finalize_current_question (g : State) : State :=
  match current_question g with
  | Some q => {| current_question := None; questions := questions g ++ [q] |}
  | None => g
  end.

(** [BaseContentGrouper._add_item_to_current_question] *)
Definition _add_item_to_current_question (item : ContentItem) (g : State) : State :=
  match current_question g with
  | Some q =>
      {| current_question :=
           Some {| number := number q; q_type := q_type q;
                   content_items := content_items q ++ [item];
                   text := text q +:+ TextHelpers.NL +:+ content item;
                   q_images := q_images q ++ images item |};
         questions := questions g |}
  | None => g
  end.

(** The body of the loop of [SimpleQuestionGrouper.process_content_items]. *)
Definition step (g : State) (item : ContentItem) : State :=
  if has_question_start item then
    {| current_question := Some (Grouper._create_question_from_item item);
       questions := questions (_finalize_current_question g) |}
  else
    match current_question g with
    | Some _ => _add_item_to_current_question item g
    | None => g
    end.

(** [SimpleQuestionGrouper.process_content_items], which
    [ContentProcessor.group_content_into_questions] calls on the units
    rebuilt from their dictionaries. *)
Definition process_content_items (content_items : list ContentItem) : list Question :=
  questions (_finalize_current_question (fold_left step content_items init)).

End SimpleGrouper.

(* ===================================================================== *)
(** ** modules/utils/content_statistics.py: ContentStatistics              *)
(* ===================================================================== *)

Module Statistics.

(** An entry of the list of statistics: [{"Question", "Type", "Images"}]. *)
Record Stat := { s_question : option string; s_type : string; s_images : nat }.

(** The dictionary of counts, in the order of its keys. *)
Definition question_types : list (string * nat) :=
  [ ("HOTSPOT", 0%nat); ("DRAGDROP", 0%nat); ("DROPDOWN", 0%nat); ("RADIOBUTTON", 0%nat);
    ("MULTIPLECHOICE", 0%nat) ].

(** [if q_type in question_types: question_types[q_type] += 1] *)
Definition count_type (q_type : string) (counts : list (string * nat))
    : list (string * nat) :=
  map (fun kv => if String.eqb (fst kv) q_type then (fst kv, S (snd kv)) else kv) counts.

(** The body of the loop of [get_question_stats]. *)
Definition add_question (acc : list Stat * nat * list (string * nat)) (q : Question)
    : list Stat * nat * list (string * nat) :=
  let '(stats, total_images, counts) := acc in
  let img_count := length (q_images q) in
  ((stats ++ [{| s_question := number q; s_type := q_type q; s_images := img_count |}])%list,
   (total_images + img_count)%nat,
   count_type (q_type q) counts).

(** The sort key [int(x) if str(x).isdigit() else x]: [str(None)] is no
    string of digits, so a missing number is its own key. *)
Inductive skey := SInt (z : Z) | SStr (x : string) | SNone.

Definition stat_key (x : Stat) : skey :=
  match s_question x with
  | Some n => if Py.isdigit n then SInt (Py.int n) else SStr n
  | None => SNone
  end.

Definition skey_type (k : skey) : string :=
  match k with SInt _ => "int" | SStr _ => "str" | SNone => "NoneType" end.

Definition skey_lt (a b : skey) : exn + bool :=
  match a, b with
  | SInt x, SInt y => inr (x <? y)%Z
  | SStr x, SStr y => inr (String.ltb x y)
  | _, _ =>
      inl (Exn "TypeError"
             ("'<' not supported between instances of " +:+ Dyn.APOS +:+ skey_type a
              +:+ Dyn.APOS +:+ " and " +:+ Dyn.APOS +:+ skey_type b +:+ Dyn.APOS))
  end.

(** [ContentStatistics.get_question_stats], to which
    [ContentProcessor.get_question_stats] and the function of the same name
    of the module pass their argument. *)
Definition get_question_stats (questions : list Question)
    : exn + (list Stat * nat * list (string * nat)) :=
  let '(stats, total_images, counts) :=
    fold_left add_question questions ([], 0%nat, question_types) in
  match Output.sort_keyed skey_lt (map (fun x => (stat_key x, x)) stats) with
  | inl e => inl e
  | inr sorted => inr (map snd sorted, total_images, counts)
  end.

End Statistics.

(* ===================================================================== *)
(** ** modules/questions/question_factory.py: the supported types          *)
(* ===================================================================== *)

Module Factory.

(** [QuestionFactory.get_supported_types] *)
Definition get_supported_types : list string :=
  [ "HOTSPOT"; "DRAGDROP"; "DROPDOWN"; "SINGLECHOICE"; "MULTIPLECHOICE"; "RADIOBUTTON";
    "FILLINTHEBLANK"; "POSITIONEDDROPDOWN"; "POSITIONEDDRAGDROP" ].

(** [QuestionFactory.is_supported_type] *)
Definition is_supported_type (q_type : string) : bool :=
  TextHelpers.in_list (Py.upper q_type) get_supported_types.

End Factory.

(* ===================================================================== *)
(** ** modules/questions/question_types.py: the two classes that read the
       answer from the text                                                *)
(* ===================================================================== *)

Module TextAnswers.
Import Re TextHelpers.

(** [Answer:\s*(.+?)] and [Answer:\s*(.+)], the common start of the
    patterns. *)
Definition lazy_answer (stop_at : regex) : regex :=
  Seq [Lit "Answer:"; Star true s; Grp 1 (PlusLazy Dot); stop_at].

Definition greedy_answer : regex :=
  Seq [Lit "Answer:"; Star true s; Grp 1 (Plus Dot)].

(** The patterns of [FillInTheBlankQuestion._extract_multiple_answers]:
    the answer up to a line that starts a new part, up to an empty line, up
    to the end of the line, and up to the end of the text. *)
Definition fill_patterns : list regex :=
  [ lazy_answer (Alt (Seq [Chr Re.nl; Star true s;
                           Alts [Lit "QUESTION"; Lit "Explanation"; Lit "References"]])
                     Eol);
    lazy_answer (Alt (Lit (NL +:+ NL)) Eol);
    lazy_answer (Alt (Chr Re.nl) Eol);
    greedy_answer ].

(** The patterns of [SimulationQuestion._extract_answer_text]. *)
Definition simulation_patterns : list regex :=
  [ lazy_answer (Alt (Seq [Chr Re.nl; Star true s;
                           Alts [Lit "Explanation"; Lit "QUESTION"; Lit "References"]])
                     Eol);
    lazy_answer (Alt (Lit (NL +:+ NL)) Eol);
    lazy_answer (Alt (Chr Re.nl) Eol);
    greedy_answer ].

(** What both loops do with a match: the group stripped, its runs of white
    space turned into one space, and stripped again. *)
Definition cleaned (m : rmatch) : string :=
  Py.strip (sub no_flags (Plus s) " " (Py.strip (group_or_empty 1 m))).

(** The loop over the patterns: the first pattern that matches with an
    answer that is not empty decides. *)
Fixpoint first_answer (patterns : list regex) (text : string) : option string :=
  match patterns with
  | [] => None
  | pattern :: rest =>
      match search IS pattern text with
      | Some m =>
          let answer_text := cleaned m in
          if Py.nonempty answer_text then Some answer_text else first_answer rest text
      | None => first_answer rest text
      end
  end.

(** [FillInTheBlankQuestion._extract_multiple_answers] *)
Definition _extract_multiple_answers (q : Question) : list string :=
  match first_answer fill_patterns (text q) with
  | Some answer_text =>
      filter Py.nonempty (map Py.strip (Py.split "," answer_text))
  | None => []
  end.

(** [FillInTheBlankQuestion._add_question_specific_elements] *)
Definition fill_in_the_blank_elements (q : Question) : list Element :=
  match _extract_multiple_answers q with
  | [] => []
  | answers =>
      [ node "Answer"
          (map (fun answer => leaf "Choices" (Py.strip answer))
               (filter (fun answer => Py.nonempty (Py.strip answer)) answers)) ]
  end.

(** [SimulationQuestion._extract_answer_text] *)
Definition _extract_answer_text (q : Question) : string :=
  match first_answer simulation_patterns (text q) with
  | Some answer => answer
  | None => ""
  end.

(** [SimulationQuestion._add_question_specific_elements] *)
Definition simulation_elements (q : Question) : list Element :=
  let answer_text := _extract_answer_text q in
  if Py.nonempty answer_text then [leaf "Answer" answer_text] else [].

End TextAnswers.

(* ===================================================================== *)
(** * Properties                                                           *)
(* ===================================================================== *)

Open Scope list_scope.

(** ** The grouping state machine *)

Module GrouperFacts.
Import Grouper.

(** The markers [_handle_case_study_markers] and [_handle_question_markers]
    recognise whatever the state is. *)
Definition no_marker (item : ContentItem) : bool :=
  let text := content item in
  negb (Py.is_some (Re.search Re.no_flags topic_re text))
  && negb (Py.contains "TopicName:" text)
  && negb (Py.contains "CaseStudyStart:" text)
  && negb (Py.contains "CaseStudyEnd:" text)
  && negb (Py.contains "CaseStudyDetailsStart:" text)
  && negb (Py.contains "CaseStudyDetailsEnd:" text)
  && negb (Py.contains "CaseStudyImage:" text)
  && negb (has_question_start item).

(** The one-shot flag of the case-study-image marker is waiting for this
    unit: the flag is set, a case study is open and the unit has images. *)
Definition image_pending (g : GrouperState) (item : ContentItem) : bool :=
  next_image_is_case_study (state g) && Py.nonempty_list (images item)
  && Py.is_some (current_case_study (state g)).

Lemma with_state_same g : with_state (state g) g = g.
Proof. destruct g; reflexivity. Qed.

Lemma run_items_app g l1 l2 :
  run_items g (l1 ++ l2) = run_items (run_items g l1) l2.
Proof. unfold run_items. apply fold_left_app. Qed.

(** At the end of a case study the open question is added only when no
    question of the case study carries its number. *)
Lemma finalize_case_study_checks_number g q cs :
  current_question g = Some q ->
  current_case_study (state g) = Some cs ->
  in_case_study (state g) = true ->
  In (number q) (map number (questions cs)) ->
  exists cs', case_studies (_finalize_case_study g) = case_studies g ++ [cs']
              /\ questions cs' = questions cs.
Proof.
  intros Hq Hcs Hin Hdup. unfold _finalize_case_study.
  rewrite Hq, Hcs, Hin.
  assert (Hex : existsb (fun n => bool_decide (n = number q))
                  (map number (questions cs)) = true).
  { apply existsb_exists. exists (number q). split; [exact Hdup|].
    apply bool_decide_eq_true. reflexivity. }
  rewrite Hex. cbn.
  unfold finalize_current_segment. cbn.
  destruct (Py.nonempty (current_segment_name (state g))
            && Py.nonempty_list (current_segment_contents (state g))); cbn;
    eexists; split; reflexivity.
Qed.

(** C1.  The claim fails on the code: only [_finalize_case_study] looks
    for the number among the questions already stored;
    [_finalize_current_question] and [_finalize_processing] append without
    a check.  Two question lines with the number 1 give two standalone
    questions numbered 1, and inside a case study the questions closed by
    the next question line keep their duplicates. *)
Theorem C1_duplicate_numbers_are_stored :
  map number
    (fst (process_content_items
            (map text_item ["QUESTION NO: 1"; "QUESTION NO: 1"])))
  = [Some "1"; Some "1"]
  /\ map (fun cs => map number (questions cs))
       (snd (process_content_items
               (map text_item ["CaseStudyStart:"; "QUESTION NO: 1"; "QUESTION NO: 1";
                               "QUESTION NO: 2"; "CaseStudyEnd:"])))
     = [[Some "1"; Some "1"; Some "2"]].
Proof. split; vm_compute; reflexivity. Qed.

(** C10, as stated, fails: a unit without a marker that arrives while no
    question is open and the details section is not active still leaves
    its images in the case study when the case-study-image flag is
    pending. *)
Lemma C10_counterexample :
  let img := {| img_data := "x"; img_format := "png"; img_path := "Pictures/1.png" |} in
  let unit := {| ci_type := "text"; content := "a plain line"; frame_refs := [];
                 images := [img] |} in
  let before := map text_item ["CaseStudyStart:"; "CaseStudyImage:"] in
  let g := run_items init before in
  no_marker unit = true
  /\ current_question g = None
  /\ in_case_study_details (state g) = false
  /\ map cs_images (snd (process_content_items (before ++ [unit]))) = [[img]].
Proof. vm_compute. repeat split; reflexivity. Qed.

(** C10, amended: a unit that matches no marker, arrives while no question
    is open and no details section is active, and is not awaited by the
    case-study-image flag leaves the state of the machine as it was; the
    result is the one obtained without the unit. *)
Theorem C10_unmatched_unit_is_dropped (g : GrouperState) (item : ContentItem) :
  no_marker item = true ->
  current_question g = None ->
  in_case_study_details (state g) = false ->
  image_pending g item = false ->
  _process_single_item g item = g
  /\ forall l1 l2, run_items init l1 = g ->
       process_content_items (l1 ++ item :: l2) = process_content_items (l1 ++ l2).
Proof.
  intros Hm Hq Hd Hp.
  assert (Hstep : _process_single_item g item = g).
  { unfold no_marker in Hm.
    repeat (apply andb_prop in Hm; destruct Hm as [Hm ?]).
    repeat match goal with H : negb _ = true |- _ => apply negb_true_iff in H end.
    unfold _process_single_item, _handle_case_study_markers.
    destruct (Re.search Re.no_flags topic_re (content item)); [discriminate|].
    repeat match goal with H : Py.contains _ _ = false |- _ => rewrite H; clear H end.
    rewrite Hd. cbn [andb].
    unfold _handle_question_markers.
    match goal with H : has_question_start _ = false |- _ => rewrite H end.
    unfold _handle_case_study_content. rewrite Hd.
    unfold image_pending in Hp.
    destruct (current_case_study (state g)) eqn:Hcs.
    - cbn [Py.is_some] in Hp. rewrite andb_true_r in Hp. rewrite Hp.
      unfold _add_item_to_current_question. rewrite Hq. reflexivity.
    - unfold _add_item_to_current_question. rewrite Hq. reflexivity. }
  split; [exact Hstep|].
  intros l1 l2 Hl1. unfold process_content_items.
  rewrite !run_items_app, Hl1. cbn [run_items fold_left].
  unfold run_items at 2. cbn [fold_left]. rewrite Hstep. reflexivity.
Qed.

Lemma C10_unmatched_unit_is_dropped_witness :
  let g := run_items init (map text_item ["CaseStudyStart:"]) in
  let item := {| ci_type := "text"; content := "a plain line"; frame_refs := [];
                 images := [{| img_data := "x"; img_format := "png";
                               img_path := "Pictures/1.png" |}] |} in
  _process_single_item g item = g.
Proof.
  intros g item.
  apply (C10_unmatched_unit_is_dropped g item); vm_compute; reflexivity.
Defined.

End GrouperFacts.

(** ** The validator *)

Module ValidationFacts.
Import Validation.

(** The text that makes [mark] record the key [k]. *)
Definition marks (k content : string) : Prop :=
  (k = "QuestionOptionImage" /\ Py.contains "QuestionOptionImage:" content = true)
  \/ (k = "AnswerOptionImage" /\ Py.contains "AnswerOptionImage:" content = true)
  \/ (k = "QuestionDescriptionImage"
      /\ Py.contains "QuestionDescriptionImage:" content = true)
  \/ (k = "PositionedImage" /\ Py.contains "PositionedImage:" content = true)
  \/ (k = "BackgroundImage" /\ Py.contains "BackgroundImage:" content = true).

Lemma elem_of_mark k content (m : gset string) :
  k ∈ mark content m <-> k ∈ m \/ marks k content.
Proof.
  unfold mark, marks.
  destruct (Py.contains "QuestionOptionImage:" content);
  destruct (Py.contains "AnswerOptionImage:" content);
  destruct (Py.contains "QuestionDescriptionImage:" content);
  destruct (Py.contains "PositionedImage:" content);
  destruct (Py.contains "BackgroundImage:" content);
  rewrite ?elem_of_union, ?elem_of_singleton; intuition congruence.
Qed.

Lemma elem_of_fold_mark k (items : list ContentItem) (m : gset string) :
  k ∈ fold_left (fun m item => mark (content item) m) items m
  <-> k ∈ m \/ exists item, In item items /\ marks k (content item).
Proof.
  revert m. induction items as [|item items IH]; intros m; cbn [fold_left].
  - split; [auto | intros [H | (item & [] & _)]; exact H].
  - rewrite IH, elem_of_mark. split.
    + intros [[H | H] | (item' & Hin & H)].
      * auto.
      * right. exists item. split; [left; reflexivity | exact H].
      * right. exists item'. split; [right; exact Hin | exact H].
    + intros [H | (item' & [-> | Hin] & H)].
      * auto.
      * auto.
      * right. exists item'. auto.
Qed.

Lemma elem_of_image_markers k (q : Question) :
  k ∈ image_markers q
  <-> marks k (text q) \/ exists item, In item (content_items q) /\ marks k (content item).
Proof.
  unfold image_markers. rewrite elem_of_mark, elem_of_fold_mark.
  split.
  - intros [[H | H] | H]; [exfalso; set_solver | auto | auto].
  - intros [H | H]; auto.
Qed.

Lemma require_acc key markers msg (valid : bool) (errs : list string) :
  require key markers msg (valid, errs)
  = (valid && fst (require key markers msg (true, [])),
     errs ++ snd (require key markers msg (true, []))).
Proof.
  unfold require. destruct (bool_decide (key ∈ markers)); cbn.
  - rewrite andb_true_r, app_nil_r. reflexivity.
  - rewrite andb_false_r. reflexivity.
Qed.

Lemma require2_acc k1 m1 msg1 k2 m2 msg2 (valid : bool) (errs : list string) :
  require k1 m1 msg1 (require k2 m2 msg2 (valid, errs))
  = (valid && fst (require k1 m1 msg1 (require k2 m2 msg2 (true, []))),
     errs ++ snd (require k1 m1 msg1 (require k2 m2 msg2 (true, [])))).
Proof.
  unfold require.
  destruct (bool_decide (k1 ∈ m1)), (bool_decide (k2 ∈ m2)); cbn;
    rewrite ?andb_true_r, ?andb_false_r, ?app_nil_r, <- ?app_assoc; reflexivity.
Qed.

(** [validate_one] adds the messages of its question to those collected so
    far, whatever these are. *)
Lemma validate_one_acc (valid : bool) (errs : list string) (q : Question) :
  validate_one (valid, errs) q
  = (valid && fst (validate_one (true, []) q), errs ++ snd (validate_one (true, []) q)).
Proof.
  unfold validate_one.
  repeat match goal with
         | |- context [String.eqb ?a ?b] => destruct (String.eqb a b)
         end;
    try apply require2_acc.
  cbn. rewrite andb_true_r, app_nil_r. reflexivity.
Qed.

Lemma validate_from_acc (valid : bool) (errs : list string) (qs : list Question) :
  validate_from (valid, errs) qs
  = (valid && fst (validate_question_images qs),
     errs ++ snd (validate_question_images qs)).
Proof.
  unfold validate_question_images.
  revert valid errs. induction qs as [|q qs IH]; intros valid errs; cbn [validate_from fold_left].
  - cbn. rewrite andb_true_r, app_nil_r. reflexivity.
  - fold (validate_from (validate_one (valid, errs) q) qs).
    fold (validate_from (validate_one (true, []) q) qs).
    rewrite validate_one_acc.
    destruct (validate_one (true, []) q) as [v1 e1]. cbn [fst snd].
    rewrite IH. rewrite (IH v1 e1).
    cbn [fst snd]. rewrite andb_assoc, app_assoc. reflexivity.
Qed.

(** The violations of a batch are those of its parts, in order: nothing is
    skipped after a first violation. *)
Lemma validate_app (qs1 qs2 : list Question) :
  validate_question_images (qs1 ++ qs2)
  = (fst (validate_question_images qs1) && fst (validate_question_images qs2),
     snd (validate_question_images qs1) ++ snd (validate_question_images qs2)).
Proof.
  unfold validate_question_images at 1. unfold validate_from.
  rewrite fold_left_app.
  fold (validate_from (true, []) qs1). fold (validate_question_images qs1).
  destruct (validate_question_images qs1) as [v e].
  fold (validate_from (v, e) qs2). apply validate_from_acc.
Qed.

(** C4.  A question of type HOTSPOT whose content units or text hold the
    marker [QuestionOptionImage:] and none of which holds
    [AnswerOptionImage:] makes the validator answer [False], and adds
    exactly one message, which names the number of the question and the
    missing role; the messages of the other questions of the batch stand
    before and after it.  The validator is a function of its argument
    only: it has nothing to write to. *)
Theorem C4_hotspot_without_answer_marker (before after : list Question) (q : Question) :
  q_type q = "HOTSPOT" ->
  (Py.contains "QuestionOptionImage:" (text q) = true
   \/ exists item, In item (content_items q)
                   /\ Py.contains "QuestionOptionImage:" (content item) = true) ->
  Py.contains "AnswerOptionImage:" (text q) = false ->
  (forall item, In item (content_items q) ->
                Py.contains "AnswerOptionImage:" (content item) = false) ->
  validate_question_images [q]
  = (false, ["Question " +:+ fmt_number (number q)
             +:+ " (HOTSPOT) - Missing AnswerOptionImage"])
  /\ validate_question_images (before ++ q :: after)
     = (false,
        snd (validate_question_images before)
        ++ ["Question " +:+ fmt_number (number q)
            +:+ " (HOTSPOT) - Missing AnswerOptionImage"]
        ++ snd (validate_question_images after)).
Proof.
  intros Ht Hq Ha Hitems.
  assert (Hin : "QuestionOptionImage" ∈ image_markers q).
  { apply elem_of_image_markers. unfold marks.
    destruct Hq as [Hq | (item & Hin & Hq)].
    - left. left. split; [reflexivity | exact Hq].
    - right. exists item. split; [exact Hin|]. left. split; [reflexivity | exact Hq]. }
  assert (Hout : "AnswerOptionImage" ∉ image_markers q).
  { rewrite elem_of_image_markers. unfold marks.
    intros [H | (item & Hi & H)].
    - destruct H as [[? ?] | [[_ H] | [[? ?] | [[? ?] | [? ?]]]]]; try discriminate.
      rewrite Ha in H. discriminate.
    - destruct H as [[? ?] | [[_ H] | [[? ?] | [[? ?] | [? ?]]]]]; try discriminate.
      rewrite (Hitems item Hi) in H. discriminate. }
  assert (Hone : validate_question_images [q]
                 = (false, ["Question " +:+ fmt_number (number q)
                            +:+ " (HOTSPOT) - Missing AnswerOptionImage"])).
  { unfold validate_question_images, validate_from. cbn [fold_left].
    unfold validate_one. rewrite Ht. cbn [String.eqb Ascii.eqb Bool.eqb].
    unfold require.
    rewrite (bool_decide_eq_true_2 _ Hin), (bool_decide_eq_false_2 _ Hout).
    reflexivity. }
  split; [exact Hone|].
  rewrite validate_app.
  change (q :: after) with ([q] ++ after).
  rewrite validate_app, Hone. cbn [fst snd]. rewrite andb_false_r. reflexivity.
Qed.

Lemma C4_hotspot_without_answer_marker_witness :
  let q := {| number := Some "4"; q_type := "HOTSPOT";
              content_items := map text_item ["QUESTION NO: 4 HOTSPOT";
                                              "QuestionOptionImage:"];
              text := "QUESTION NO: 4 HOTSPOT" +:+ TextHelpers.NL +:+ "QuestionOptionImage:";
              q_images := [] |} in
  validate_question_images [q]
  = (false, ["Question 4 (HOTSPOT) - Missing AnswerOptionImage"]).
Proof.
  intros q.
  apply (C4_hotspot_without_answer_marker [] [] q).
  - reflexivity.
  - left. vm_compute. reflexivity.
  - vm_compute. reflexivity.
  - intros item [<- | [<- | []]]; vm_compute; reflexivity.
Defined.

End ValidationFacts.

(** ** The image classifier *)

Module ImageTypesFacts.
Import ImageTypes.

(** A unit without a role marker. *)
Definition unmarked (item : ContentItem) : Prop :=
  marker_type (Py.strip (content item)) = None.

(** No image of the units [l] comes from the path [p]. *)
Definition path_free (p : string) (l : list ContentItem) : Prop :=
  forall item img, In item l -> In img (images item) -> img_path img <> p.

Lemma assign_other t imgs (m : gmap string string) p :
  (forall img, In img imgs -> img_path img <> p) ->
  assign t imgs m !! p = m !! p.
Proof.
  unfold assign. revert m.
  induction imgs as [|img imgs IH]; intros m H; cbn [fold_left]; [reflexivity|].
  rewrite IH by (intros i Hi; apply H; right; exact Hi).
  apply lookup_insert_ne. apply H. left. reflexivity.
Qed.

Lemma assign_member t imgs (m : gmap string string) img :
  In img imgs -> assign t imgs m !! img_path img = Some t.
Proof.
  unfold assign. induction imgs as [|i imgs IH] using rev_ind; intros Hin; [destruct Hin|].
  rewrite fold_left_app. cbn [fold_left].
  destruct (decide (img_path i = img_path img)) as [Heq | Hne].
  - rewrite Heq. apply lookup_insert_eq.
  - rewrite lookup_insert_ne by exact Hne.
    apply IH. apply in_app_or in Hin. destruct Hin as [H | [-> | []]]; [exact H|].
    exfalso. apply Hne. reflexivity.
Qed.

Lemma scan_app l1 l2 acc : scan (l1 ++ l2) acc = scan l2 (scan l1 acc).
Proof. unfold scan. apply fold_left_app. Qed.

Lemma scan_cons item l acc : scan (item :: l) acc = scan l (step acc item).
Proof. reflexivity. Qed.

(** Units without a marker leave the role in force as it is. *)
Lemma scan_unmarked_role l acc :
  (forall u, In u l -> unmarked u) -> snd (scan l acc) = snd acc.
Proof.
  revert acc. induction l as [|u l IH]; intros acc H; [reflexivity|].
  rewrite scan_cons, IH by (intros v Hv; apply H; right; exact Hv).
  unfold step, next_type. rewrite (H u (or_introl eq_refl)).
  destruct (snd acc); reflexivity.
Qed.

(** Units that carry no image of the path [p] leave its entry alone. *)
Lemma scan_path_free l acc p :
  path_free p l -> fst (scan l acc) !! p = fst acc !! p.
Proof.
  revert acc. induction l as [|u l IH]; intros acc H; [reflexivity|].
  rewrite scan_cons, IH by (intros v i Hv; apply H; right; exact Hv).
  unfold step. destruct (next_type (snd acc) u); [|reflexivity].
  cbn [fst]. apply assign_other. intros i Hi. apply (H u i); [left; reflexivity | exact Hi].
Qed.

(** While no role is in force nothing is recorded. *)
Lemma scan_unmarked_map l m :
  (forall u, In u l -> unmarked u) -> scan l (m, None) = (m, None).
Proof.
  induction l as [|u l IH]; intros H; [reflexivity|].
  rewrite scan_cons. unfold step, next_type. cbn [snd fst].
  rewrite (H u (or_introl eq_refl)).
  apply IH. intros v Hv. apply H. right. exact Hv.
Qed.

(** An image of a unit scanned while the role [r] is in force is recorded
    with [r]. *)
Lemma step_records acc item r img :
  next_type (snd acc) item = Some r -> In img (images item) ->
  fst (step acc item) !! img_path img = Some r.
Proof.
  intros Hr Hin. unfold step. rewrite Hr. cbn [fst]. apply assign_member. exact Hin.
Qed.

(** C8, as stated, fails: the mapping is keyed by the path of the image
    file.  An image that stands before every role marker and whose file is
    used again after [QuestionOptionImage:] is recorded as a question
    image, and the builder leaves it out of the sequential content instead
    of treating it as a description image. *)
Lemma C8_counterexample :
  let img := {| img_data := "x"; img_format := "png"; img_path := "Pictures/1.png" |} in
  let first := {| ci_type := "text"; content := "QUESTION NO: 1 HOTSPOT"; frame_refs := [];
                  images := [img] |} in
  let second := {| ci_type := "text"; content := "QuestionOptionImage:"; frame_refs := [];
                   images := [img] |} in
  let q := {| number := Some "1"; q_type := "HOTSPOT"; content_items := [first; second];
              text := "QUESTION NO: 1 HOTSPOT"; q_images := [img; img] |} in
  unmarked first
  /\ identify_image_types [first; second] !! img_path img = Some "question"
  /\ consumed_type (identify_image_types [first; second]) img <> "description"
  /\ Questions.item_content q (identify_image_types [first; second]) first = [].
Proof.
  vm_compute. repeat split; try reflexivity. discriminate.
Qed.

(** C8, amended.  Once a unit with a role marker has set the role [r],
    the images of that unit and of the units after it, up to the next unit
    with a marker, are recorded under their paths with [r], whether or not
    a unit follows the marker unit and whatever that unit is; the mapping
    is keyed by the path, so the entry of a path is the one recorded last:
    it is [r] when no later unit carries an image of the same path.  A
    path no unit carries from the first marker on has no entry, and the
    sequential content takes its images as description images; without
    any marker the mapping is empty. *)
Theorem C8_sticky_roles_keyed_by_path
    (before : list ContentItem) (m : ContentItem) (mid after : list ContentItem)
    (r : string) (img : Image) :
  marker_type (Py.strip (content m)) = Some r ->
  (forall u, In u mid -> unmarked u) ->
  (In img (images m) -> path_free (img_path img) (mid ++ after) ->
   identify_image_types (before ++ m :: mid ++ after) !! img_path img = Some r)
  /\ (forall (mid1 : list ContentItem) (item : ContentItem) (mid2 : list ContentItem),
        mid = (mid1 ++ item :: mid2)%list ->
        In img (images item) -> path_free (img_path img) (mid2 ++ after) ->
        identify_image_types (before ++ m :: mid ++ after) !! img_path img = Some r)
  /\ (forall pre post : list ContentItem,
        (forall u, In u pre -> unmarked u) -> path_free (img_path img) post ->
        identify_image_types (pre ++ post) !! img_path img = None
        /\ consumed_type (identify_image_types (pre ++ post)) img = "description")
  /\ (forall l : list ContentItem,
        (forall u, In u l -> unmarked u) -> identify_image_types l = ∅).
Proof.
  intros Hm Hmid. unfold identify_image_types.
  assert (Hrole : forall acc : gmap string string * option string,
             next_type (snd acc) m = Some r).
  { intros acc. unfold next_type. rewrite Hm. reflexivity. }
  split; [|split; [|split]].
  - intros Hin Hfree.
    rewrite scan_app, scan_cons, scan_path_free by exact Hfree.
    apply step_records; [apply Hrole | exact Hin].
  - intros mid1 item mid2 -> Hin Hfree.
    rewrite <- app_assoc. cbn [app].
    rewrite scan_app, scan_cons, scan_app, scan_cons, scan_path_free by exact Hfree.
    apply step_records; [|exact Hin].
    rewrite scan_unmarked_role
      by (intros u Hu; apply Hmid, in_or_app; left; exact Hu).
    unfold next_type.
    assert (Hitem : unmarked item)
      by (apply Hmid, in_or_app; right; left; reflexivity).
    rewrite Hitem.
    unfold step. rewrite Hrole. reflexivity.
  - intros pre post Hpre Hfree.
    assert (Hnone : fst (scan (pre ++ post) (∅, None)) !! img_path img = None).
    { rewrite scan_app, (scan_unmarked_map pre ∅ Hpre).
      rewrite scan_path_free by exact Hfree. apply lookup_empty. }
    split; [exact Hnone|].
    unfold consumed_type. rewrite Hnone. reflexivity.
  - intros l Hl. rewrite (scan_unmarked_map l ∅ Hl). reflexivity.
Qed.

Lemma C8_sticky_roles_keyed_by_path_witness :
  let img := {| img_data := "x"; img_format := "png"; img_path := "Pictures/2.png" |} in
  let other := {| img_data := "y"; img_format := "png"; img_path := "Pictures/3.png" |} in
  let m := {| ci_type := "text"; content := "QuestionOptionImage:"; frame_refs := [];
              images := [img] |} in
  let item := {| ci_type := "text"; content := ""; frame_refs := []; images := [other] |} in
  let last := {| ci_type := "text"; content := "AnswerOptionImage:"; frame_refs := [];
                 images := [] |} in
  identify_image_types ([text_item "QUESTION NO: 1 HOTSPOT"] ++ [m]) !! img_path img
  = Some "question"
  /\ identify_image_types ([text_item "QUESTION NO: 1 HOTSPOT"] ++ m :: [item] ++ [last])
     !! img_path other = Some "question".
Proof.
  intros img other m item last. split.
  - apply (proj1 (C8_sticky_roles_keyed_by_path [text_item "QUESTION NO: 1 HOTSPOT"]
                    m [] [] "question" img eq_refl (fun u (H : In u []) => match H with end))).
    + left. reflexivity.
    + intros u i [].
  - assert (Hmid : forall u, In u [item] -> unmarked u)
      by (intros u [<- | []]; vm_compute; reflexivity).
    apply (proj1 (proj2 (C8_sticky_roles_keyed_by_path
                           [text_item "QUESTION NO: 1 HOTSPOT"] m [item] [last]
                           "question" other eq_refl Hmid)) [] item []).
    + reflexivity.
    + left. reflexivity.
    + intros u i [<- | []] [].
Defined.

End ImageTypesFacts.

(** ** The builders *)

Module QuestionsFacts.
Import Questions.

(** *** Hotspot: matching an answer to the candidate statements *)

Definition score (ans_stmt opt_stmt : string) : Q :=
  Difflib.ratio (Py.lower opt_stmt) (Py.lower ans_stmt).

Lemma Qgt_bool_true x y : Qgt_bool x y = true <-> (y < x)%Q.
Proof.
  unfold Qgt_bool. rewrite negb_true_iff. split.
  - intros H. apply Qnot_le_lt. intros Hle. apply Qle_bool_iff in Hle. congruence.
  - intros H. destruct (Qle_bool x y) eqn:E; [|reflexivity].
    apply Qle_bool_iff in E. exfalso. exact (Qlt_not_le _ _ H E).
Qed.

Lemma Qgt_bool_false x y : Qgt_bool x y = false <-> (x <= y)%Q.
Proof.
  unfold Qgt_bool. rewrite negb_false_iff. apply Qle_bool_iff.
Qed.

Lemma lower_empty x : Py.lower x = "" -> x = "".
Proof. destruct x; [reflexivity | discriminate]. Qed.

(** An empty candidate scores above the threshold against an empty answer
    only. *)
Lemma empty_candidate_score ans_stmt :
  (threshold < score ans_stmt "")%Q -> ans_stmt = "".
Proof.
  unfold score. intros H. apply lower_empty.
  destruct (Py.lower ans_stmt) as [|c rest]; [reflexivity|].
  exfalso. revert H. unfold Difflib.ratio. cbn. unfold Qlt. cbn. lia.
Qed.

(** What the loop of [_add_answers_to_xml] holds after the candidates
    [opts]: nothing while no candidate scored above the threshold, and
    otherwise a candidate above the threshold that no candidate seen so
    far beats. *)
Definition best_of (ans_stmt : string) (opts : list (string * list string))
    (acc : option string * Q) : Prop :=
  match fst acc with
  | None =>
      snd acc = 0%Q
      /\ forall o, In o opts -> (score ans_stmt (fst o) <= threshold)%Q
  | Some c =>
      In c (map fst opts) /\ snd acc = score ans_stmt c
      /\ (threshold < score ans_stmt c)%Q
      /\ forall o, In o opts -> (score ans_stmt (fst o) <= score ans_stmt c)%Q
  end.

Lemma best_step_keeps ans_stmt opts acc o :
  best_of ans_stmt opts acc -> best_of ans_stmt (opts ++ [o]) (best_step ans_stmt acc o).
Proof.
  intros Hacc. unfold best_step. fold (score ans_stmt (fst o)).
  destruct (Qgt_bool (score ans_stmt (fst o)) (snd acc)) eqn:E1;
    [destruct (Qgt_bool (score ans_stmt (fst o)) threshold) eqn:E2|]; cbn [andb].
  - (* a better candidate above the threshold *)
    apply Qgt_bool_true in E1. apply Qgt_bool_true in E2.
    unfold best_of. cbn [fst snd]. repeat split.
    + rewrite map_app. apply in_or_app. right. left. reflexivity.
    + exact E2.
    + intros o' Hin. apply in_app_or in Hin. destruct Hin as [Hin | [<- | []]].
      * unfold best_of in Hacc. destruct (fst acc) as [c|].
        -- destruct Hacc as (_ & Hs & _ & Hall). rewrite Hs in E1.
           apply Qle_trans with (score ans_stmt c); [apply Hall; exact Hin|].
           apply Qlt_le_weak. exact E1.
        -- destruct Hacc as (_ & Hall).
           apply Qle_trans with threshold; [apply Hall; exact Hin|].
           apply Qlt_le_weak. exact E2.
      * apply Qle_refl.
  - (* above the best so far, but not above the threshold *)
    apply Qgt_bool_false in E2.
    unfold best_of in *. destruct (fst acc) as [c|].
    + destruct Hacc as (Hin & Hs & Hthr & Hall).
      apply Qgt_bool_true in E1. rewrite Hs in E1.
      exfalso. apply (Qlt_irrefl threshold).
      apply Qlt_le_trans with (score ans_stmt c); [exact Hthr|].
      apply Qle_trans with (score ans_stmt (fst o)); [apply Qlt_le_weak; exact E1 | exact E2].
    + destruct Hacc as (Hs & Hall). split; [exact Hs|].
      intros o' Hin. apply in_app_or in Hin. destruct Hin as [Hin | [<- | []]];
        [apply Hall; exact Hin | exact E2].
  - (* not above the best so far *)
    apply Qgt_bool_false in E1.
    unfold best_of in *. destruct (fst acc) as [c|].
    + destruct Hacc as (Hin & Hs & Hthr & Hall). repeat split.
      * rewrite map_app. apply in_or_app. left. exact Hin.
      * exact Hs.
      * exact Hthr.
      * intros o' Hin'. apply in_app_or in Hin'. destruct Hin' as [Hin' | [<- | []]];
          [apply Hall; exact Hin' | rewrite <- Hs; exact E1].
    + destruct Hacc as (Hs & Hall). split; [exact Hs|].
      intros o' Hin. apply in_app_or in Hin. destruct Hin as [Hin | [<- | []]];
        [apply Hall; exact Hin|].
      rewrite Hs in E1. apply Qle_trans with 0%Q; [exact E1|].
      unfold threshold, Qle. cbn. lia.
Qed.

Lemma best_match_fold ans_stmt seen opts acc :
  best_of ans_stmt seen acc ->
  best_of ans_stmt (seen ++ opts) (fold_left (best_step ans_stmt) opts acc).
Proof.
  revert seen acc. induction opts as [|o opts IH]; intros seen acc H; cbn [fold_left].
  - rewrite app_nil_r. exact H.
  - replace (seen ++ o :: opts) with ((seen ++ [o]) ++ opts)
      by (rewrite <- app_assoc; reflexivity).
    apply IH. apply best_step_keeps. exact H.
Qed.

Lemma best_match_spec options ans_stmt :
  best_of ans_stmt options (best_match options ans_stmt).
Proof.
  unfold best_match. apply (best_match_fold ans_stmt [] options (None, 0%Q)).
  split; [reflexivity | intros o []].
Qed.

(** C2, as stated, fails at the threshold itself: ["abcde"] and ["abcxy"]
    share three characters of ten, the score is exactly 0.6, and the
    answer keeps its own statement. *)
Lemma C2_counterexample :
  let options := [("abcde", ["Yes"; "No"])] in
  let answers := VList [VDict [("statement", VStr "abcxy"); ("answer", VStr "Yes")]] in
  (score "abcxy" "abcde" == 6 # 10)%Q
  /\ final_statement options "abcxy" = "abcxy"
  /\ _add_answers_to_xml answers options
     = inr (node "Answers" [Elem "Answer" [("statement", "abcxy")] (Some "Yes") []]).
Proof. vm_compute. repeat split; reflexivity. Qed.

(** An answer given as a dictionary whose entries under [statement] and
    [answer], where it has them, are texts. *)
Definition given (d : list (string * pyval)) (sa : string * string) : Prop :=
  Dyn.get (VDict d) "statement" (VStr "") = inr (VStr (fst sa))
  /\ Dyn.get (VDict d) "answer" (VStr "") = inr (VStr (snd sa)).

(** The node of an answer with the statement [fst sa] and the answer text
    [snd sa]. *)
Definition answer_node (options : list (string * list string)) (sa : string * string)
    : Element :=
  Elem "Answer" [("statement", final_statement options (Py.strip (fst sa)))]
       (Some (Py.strip (snd sa))) [].

Lemma answer_element_given options d sa :
  given d sa -> answer_element options (VDict d) = inr (answer_node options sa).
Proof.
  intros [Hs Ha]. unfold answer_element. rewrite Hs, Ha. reflexivity.
Qed.

Lemma answers_given options answers texts :
  Forall2 given answers texts ->
  try_map (answer_element options) (map VDict answers)
  = inr (map (answer_node options) texts).
Proof.
  induction 1 as [|d sa answers texts Hd _ IH]; [reflexivity|].
  cbn [map try_map]. rewrite (answer_element_given _ _ _ Hd), IH. reflexivity.
Qed.

(** Every exception of the body of the loop is an AttributeError. *)
Lemma answer_element_error options item e :
  answer_element options item = inl e -> exists msg, e = Exn "AttributeError" msg.
Proof.
  unfold answer_element, try_bind.
  destruct item as [| | | | | |d]; cbn [Dyn.get];
    try (intros [= <-]; eexists; reflexivity).
  destruct (default (VStr "") (Dyn.lookup "statement" d)); cbn [Dyn.strip];
    try (intros [= <-]; eexists; reflexivity).
  destruct (default (VStr "") (Dyn.lookup "answer" d)); cbn [Dyn.strip];
    intros [= <-]; eexists; reflexivity.
Qed.

Lemma answers_malformed options items item :
  In item items -> (forall d, item <> VDict d) ->
  exists msg, try_map (answer_element options) items = inl (Exn "AttributeError" msg).
Proof.
  intros Hin Hbad. induction items as [|x items IH]; [destruct Hin|].
  cbn [try_map]. unfold try_bind at 1.
  destruct (answer_element options x) as [e|y] eqn:E.
  - destruct (answer_element_error _ _ _ E) as [msg ->]. exists msg. reflexivity.
  - destruct Hin as [-> | Hin].
    + exfalso. unfold answer_element in E. destruct item; try discriminate E.
      eapply Hbad. reflexivity.
    + destruct (IH Hin) as [msg ->]. exists msg. reflexivity.
Qed.

Lemma final_statement_spec options ans_stmt :
  ((exists o, In o options /\ (threshold < score ans_stmt (fst o))%Q) ->
   In (final_statement options ans_stmt) (map fst options)
   /\ (threshold < score ans_stmt (final_statement options ans_stmt))%Q
   /\ forall o, In o options ->
        (score ans_stmt (fst o) <= score ans_stmt (final_statement options ans_stmt))%Q)
  /\ ((forall o, In o options -> (score ans_stmt (fst o) <= threshold)%Q) ->
      final_statement options ans_stmt = ans_stmt).
Proof.
  split.
  - intros (o & Hin & Ho).
    pose proof (best_match_spec options ans_stmt) as H.
    unfold final_statement. unfold best_of in H.
    destruct (fst (best_match options ans_stmt)) as [c|].
    + destruct H as (Hc & _ & Hthr & Hall).
      destruct (Py.nonempty c) eqn:Hne.
      * repeat split; assumption.
      * assert (c = "") as -> by (destruct c; [reflexivity | discriminate]).
        rewrite (empty_candidate_score _ Hthr) in *.
        repeat split; assumption.
    + destruct H as (_ & Hall). exfalso.
      apply (Qlt_irrefl threshold).
      apply Qlt_le_trans with (score ans_stmt (fst o)); [exact Ho | apply Hall; exact Hin].
  - intros Hall.
    pose proof (best_match_spec options ans_stmt) as H.
    unfold final_statement. unfold best_of in H.
    destruct (fst (best_match options ans_stmt)) as [c|]; [|reflexivity].
    destruct H as (Hc & _ & Hthr & _). exfalso.
    apply in_map_iff in Hc. destruct Hc as (o & <- & Hin).
    apply (Qlt_irrefl threshold).
    apply Qlt_le_trans with (score ans_stmt (fst o)); [exact Hthr | apply Hall; exact Hin].
Qed.

(** C2, amended.  For a candidate list that is not empty and a list of
    answers that is not empty, each answer a dictionary whose entries
    under [statement] and [answer] are texts, [_add_answers_to_xml]
    returns an [Answers] node with one [Answer] child for each answer, in
    the order of the answers.  Each child carries the trimmed answer text
    and, as its statement: a candidate statement whose score against the
    trimmed statement of the answer is above 0.6 and is not beaten by any
    candidate, when some candidate scores above 0.6; the trimmed statement
    of the answer itself when every candidate scores 0.6 or less.  ["The
    sky is blue"] falls back against ["xyz123"] and is matched with ["The
    sky is blue."].  With an empty candidate list the node has no child,
    and an answer that is no dictionary makes the whole call raise. *)
Theorem C2_hotspot_statement_matching
    (options : list (string * list string)) (answers : list (list (string * pyval)))
    (texts : list (string * string)) :
  options <> [] -> answers <> [] -> Forall2 given answers texts ->
  _add_answers_to_xml (VList (map VDict answers)) options
  = inr (node "Answers"
           (map (fun sa => Elem "Answer"
                             [("statement", final_statement options (Py.strip (fst sa)))]
                             (Some (Py.strip (snd sa))) [])
                texts))
  /\ (forall ans_stmt,
        ((exists o, In o options /\ (threshold < score ans_stmt (fst o))%Q) ->
         In (final_statement options ans_stmt) (map fst options)
         /\ (threshold < score ans_stmt (final_statement options ans_stmt))%Q
         /\ forall o, In o options ->
              (score ans_stmt (fst o)
               <= score ans_stmt (final_statement options ans_stmt))%Q)
        /\ ((forall o, In o options -> (score ans_stmt (fst o) <= threshold)%Q) ->
            final_statement options ans_stmt = ans_stmt))
  /\ _add_answers_to_xml
       (VList [VDict [("statement", VStr "The sky is blue"); ("answer", VStr "Yes")]])
       [("xyz123", ["Yes"; "No"])]
     = inr (node "Answers"
              [Elem "Answer" [("statement", "The sky is blue")] (Some "Yes") []])
  /\ _add_answers_to_xml
       (VList [VDict [("statement", VStr "The sky is blue"); ("answer", VStr "Yes")]])
       [("The sky is blue.", ["Yes"; "No"])]
     = inr (node "Answers"
              [Elem "Answer" [("statement", "The sky is blue.")] (Some "Yes") []])
  /\ (forall answers_data, _add_answers_to_xml answers_data [] = inr (node "Answers" []))
  /\ (forall items item,
        In item items -> (forall d, item <> VDict d) ->
        exists msg,
          _add_answers_to_xml (VList items) options = inl (Exn "AttributeError" msg)).
Proof.
  intros Hopts Hans Hgiven.
  assert (Hguard : forall items : list pyval, items <> [] ->
            _add_answers_to_xml (VList items) options
            = try_bind (try_map (answer_element options) items)
                       (fun answers => inr (node "Answers" answers))).
  { intros items Hne. unfold _add_answers_to_xml.
    destruct options as [|o options']; [congruence|].
    destruct items as [|i items']; [congruence|]. reflexivity. }
  split; [|split; [|split; [|split; [|split]]]].
  - rewrite Hguard by (destruct answers; [congruence | discriminate]).
    rewrite (answers_given _ _ _ Hgiven). reflexivity.
  - intros ans_stmt. apply final_statement_spec.
  - vm_compute. reflexivity.
  - vm_compute. reflexivity.
  - intros answers_data. reflexivity.
  - intros items item Hin Hbad.
    rewrite Hguard by (destruct items; [destruct Hin | discriminate]).
    destruct (answers_malformed options items item Hin Hbad) as [msg ->].
    exists msg. reflexivity.
Qed.

Lemma C2_hotspot_statement_matching_witness :
  _add_answers_to_xml
    (VList (map VDict [ [("statement", VStr " The sky is blue "); ("answer", VStr "Yes")];
                        [("statement", VStr "Grass is red"); ("answer", VStr " No ")] ]))
    [("The sky is blue.", ["Yes"; "No"]); ("Rain is wet.", ["Yes"; "No"])]
  = inr (node "Answers"
           [ Elem "Answer" [("statement", "The sky is blue.")] (Some "Yes") [];
             Elem "Answer" [("statement", "Grass is red")] (Some "No") [] ]).
Proof.
  refine (eq_trans
            (proj1 (C2_hotspot_statement_matching
                      [("The sky is blue.", ["Yes"; "No"]); ("Rain is wet.", ["Yes"; "No"])]
                      [ [("statement", VStr " The sky is blue "); ("answer", VStr "Yes")];
                        [("statement", VStr "Grass is red"); ("answer", VStr " No ")] ]
                      [(" The sky is blue ", "Yes"); ("Grass is red", " No ")]
                      _ _ _)) _).
  - discriminate.
  - discriminate.
  - repeat constructor.
  - vm_compute. reflexivity.
Defined.


(** *** The dispatch and the vision service *)

Section WithService.

Variable gemini : nat -> string -> option string -> option string.
Variable json_loads : string -> option pyval.
Variable str_compound : pyval -> string.
Variable other_elements : QuestionClass -> Question -> M (list Element).

Local Abbreviation process_questions := (process_questions gemini json_loads str_compound other_elements).
Local Abbreviation process_one := (process_one gemini json_loads str_compound other_elements).
Local Abbreviation build_xml := (build_xml gemini json_loads str_compound other_elements).

(** [process_one] never raises: the [except] clause takes every
    exception. *)
Lemma process_one_total q wd :
  exists r wd', process_one q wd = (inr r, wd').
Proof.
  unfold Questions.process_one.
  destruct (build_xml _ wd) as [[e | el] wd']; eexists; eexists; reflexivity.
Qed.

Lemma process_questions_total qs wd :
  exists rs wd', process_questions qs wd = (inr rs, wd') /\ length rs = length qs.
Proof.
  revert wd. induction qs as [|q qs IH]; intros wd.
  - exists [], wd. split; reflexivity.
  - destruct (process_one_total q wd) as (r & w1 & Hr).
    destruct (IH w1) as (rs & w2 & Hrs & Hlen).
    exists (r :: rs), w2. split.
    + cbn [Questions.process_questions]. unfold bind. rewrite Hr, Hrs. reflexivity.
    + cbn. rewrite Hlen. reflexivity.
Qed.

(** The questions of a batch are processed one after the other; each
    starts from the state the service was left in, and nothing else
    passes from one question to the next. *)
Lemma process_questions_app qs1 qs2 wd rs1 w1 rs2 w2 :
  process_questions qs1 wd = (inr rs1, w1) ->
  process_questions qs2 w1 = (inr rs2, w2) ->
  process_questions (qs1 ++ qs2) wd = (inr (rs1 ++ rs2), w2).
Proof.
  revert wd rs1. induction qs1 as [|q qs1 IH]; intros wd rs1 H1 H2.
  - cbn in H1. injection H1 as <- <-. exact H2.
  - cbn [app Questions.process_questions] in *. unfold bind in *.
    destruct (process_one q wd) as [[e | r] w] eqn:Hr; [discriminate|].
    destruct (process_questions qs1 w) as [[e | rs] w'] eqn:Hrs; [discriminate|].
    cbn in H1. injection H1 as <- <-.
    rewrite (IH w rs Hrs H2). reflexivity.
Qed.

(** The type of a text-based question changes to [MultipleChoice] at most. *)
Lemma updated_type_cases q :
  updated_type q = q_type q
  \/ (TextHelpers.in_list (q_type q) ["SingleChoice"; "MultipleChoice"] = true
      /\ updated_type q = "MultipleChoice").
Proof.
  unfold updated_type.
  destruct (TextHelpers.in_list (q_type q) ["SingleChoice"; "MultipleChoice"]) eqn:E; [|auto].
  unfold TextHelpers.extract_options_from_text. rewrite E.
  destruct (Re.search Re.no_flags TextHelpers.answer_line_re (text q)); cbn [snd]; [|auto].
  destruct (1 <? _)%nat; auto.
Qed.

(** A text-based question is built without the service and does not
    raise. *)
Lemma build_xml_text_based q wd :
  create_question q = TextBasedQuestion ->
  exists el, build_xml q wd = (inr el, wd).
Proof.
  intros Hc. unfold Questions.build_xml. rewrite Hc.
  cbn [_add_question_specific_elements]. unfold bind, ret. eexists. reflexivity.
Qed.

Lemma in_list_choice t :
  TextHelpers.in_list t ["SingleChoice"; "MultipleChoice"] = true ->
  t = "SingleChoice" \/ t = "MultipleChoice".
Proof.
  unfold TextHelpers.in_list. cbn [existsb]. rewrite orb_false_r.
  intros H. apply orb_prop in H. destruct H as [H | H]; apply String.eqb_eq in H; auto.
Qed.

(** A question whose building raises keeps its declared type. *)
Lemma raising_keeps_type q wd e wd' :
  build_xml (with_type (updated_type q) q) wd = (inl e, wd') ->
  updated_type q = q_type q.
Proof.
  intros H. destruct (updated_type_cases q) as [Hsame | [Hin Hup]]; [exact Hsame|].
  exfalso.
  destruct (build_xml_text_based (with_type (updated_type q) q) wd) as (el & Hel).
  - rewrite Hup. reflexivity.
  - rewrite Hel in H. discriminate.
Qed.

(** The entry [process_questions] stores for a question, given how its
    building ended. *)
Definition entry (q : Question) (out : exn + Element) : Processed :=
  match out with
  | inr xml_element =>
      {| p_number := number q; p_type := updated_type q; element := xml_element |}
  | inl e =>
      {| p_number := number q; p_type := updated_type q;
         element := fallback (number q) (updated_type q) (str_exn e) |}
  end.

Lemma process_one_entry q wd out wd' :
  build_xml (with_type (updated_type q) q) wd = (out, wd') ->
  process_one q wd = (inr (entry q out), wd').
Proof.
  intros H. unfold Questions.process_one. rewrite H. destruct out; reflexivity.
Qed.

(** C7.  Whatever the building of one question of a batch does, the batch
    gives the entries of the questions before it, then its own entry,
    then the entries of the questions after it, and these other entries
    are the ones [process_questions] computes for those questions alone
    from the state of the service they start in.  When the building
    raises [e], the entry of the question is a node with the question
    number, the declared type and the message of [e]. *)
Theorem C7_failure_is_isolated
    (qs1 qs2 : list Question) (q : Question) (wd w1 w2 w3 : World)
    (rs1 rs2 : list Processed) (out : exn + Element) :
  process_questions qs1 wd = (inr rs1, w1) ->
  build_xml (with_type (updated_type q) q) w1 = (out, w2) ->
  process_questions qs2 w2 = (inr rs2, w3) ->
  process_questions (qs1 ++ q :: qs2) wd = (inr (rs1 ++ entry q out :: rs2), w3)
  /\ forall e, out = inl e ->
       entry q out
       = {| p_number := number q; p_type := q_type q;
            element := node "Question"
                         [ leaf "QuestionNo" (str_number (number q));
                           leaf "Kind" (q_type q);
                           leaf "Error" (str_exn e) ] |}.
Proof.
  intros H1 Hq H2. split.
  - apply (process_questions_app qs1 (q :: qs2) wd rs1 w1); [exact H1|].
    cbn [Questions.process_questions]. unfold bind.
    rewrite (process_one_entry q w1 out w2 Hq), H2. reflexivity.
  - intros e ->. cbn [entry].
    rewrite (raising_keeps_type q w1 e w2 Hq). reflexivity.
Qed.

(** *** The vision service *)

Local Abbreviation call_gemini_with_retry := (Vision.call_gemini_with_retry gemini).

Lemma attempts_exhausted n prompt image wd :
  (forall k, (k < n)%nat -> gemini (wd + k) prompt image = None) ->
  Vision.attempts gemini n prompt image wd = (None, (wd + n)%nat).
Proof.
  revert wd. induction n as [|n IH]; intros wd H; cbn [Vision.attempts].
  - rewrite Nat.add_0_r. reflexivity.
  - specialize (H 0%nat (Nat.lt_0_succ n)) as H0. rewrite Nat.add_0_r in H0. rewrite H0.
    rewrite IH.
    + f_equal. lia.
    + intros k Hk. replace (S wd + k)%nat with (wd + S k)%nat by lia.
      apply H. lia.
Qed.

(** A call whose attempts all fail returns the default of its prompt. *)
Lemma call_exhausted prompt image_data wd :
  (forall n image, gemini n prompt image = None) ->
  call_gemini_with_retry prompt image_data wd
  = (inr (Vision.default_response prompt), (wd + Vision.MAX_API_RETRIES)%nat).
Proof.
  intros H. unfold Vision.call_gemini_with_retry.
  rewrite attempts_exhausted by (intros; apply H). reflexivity.
Qed.


Section Exhausted.

(** Every attempt on the service fails, and [json.loads] reads the empty
    array. *)
Hypothesis all_fail : forall n prompt image, gemini n prompt image = None.
Hypothesis loads_empty : json_loads "[]" = Some (VList []).

Local Abbreviation retries := Vision.MAX_API_RETRIES.

Ltac exhaust :=
  unfold bind, ret; rewrite call_exhausted by (intros; apply all_fail).

Lemma extract_text_exhausted data wd :
  Vision.extract_text_from_image gemini data wd = (inr "", (wd + retries)%nat).
Proof. unfold Vision.extract_text_from_image. exhaust. reflexivity. Qed.

Lemma extract_answers_exhausted data wd :
  Vision.extract_answers_from_image gemini json_loads data wd
  = (inr (VList []), (wd + retries)%nat).
Proof.
  unfold Vision.extract_answers_from_image. exhaust.
  replace (Vision.strip_fence _) with "[]" by (vm_compute; reflexivity).
  unfold Vision.loads_or. rewrite loads_empty. reflexivity.
Qed.

Lemma extract_columns_exhausted data wd :
  Vision.extract_columns_dynamic gemini json_loads data wd
  = (inr (VDict [("columns", VList [])]), (wd + retries)%nat).
Proof.
  unfold Vision.extract_columns_dynamic. exhaust.
  replace (Vision.strip_fence _) with "[]" by (vm_compute; reflexivity).
  rewrite loads_empty. reflexivity.
Qed.

Lemma extract_pairs_exhausted data wd :
  Vision.extract_pairs_dynamic gemini json_loads data wd
  = (inr (VList []), (wd + retries)%nat).
Proof.
  unfold Vision.extract_pairs_dynamic. exhaust.
  replace (Vision.bracket_slice _) with "[]" by (vm_compute; reflexivity).
  unfold Vision.loads_or. rewrite loads_empty. reflexivity.
Qed.

Lemma extract_just_dropdown_exhausted data wd :
  Vision.extract_just_dropdown_options gemini json_loads data wd
  = (inr (VList []), (wd + retries)%nat).
Proof.
  unfold Vision.extract_just_dropdown_options. exhaust.
  replace (Vision.bracket_slice _) with "[]" by (vm_compute; reflexivity).
  unfold Vision.loads_or. rewrite loads_empty. reflexivity.
Qed.

Lemma extract_dropdown_questions_exhausted data just wd :
  Vision.extract_dropdown_questions gemini json_loads data just wd
  = (inr (VList []), (wd + retries)%nat).
Proof.
  unfold Vision.extract_dropdown_questions. destruct just.
  - apply extract_just_dropdown_exhausted.
  - exhaust.
    replace (Vision.bracket_slice _) with "[]" by (vm_compute; reflexivity).
    unfold Vision.loads_or. rewrite loads_empty. reflexivity.
Qed.

Lemma extract_dropdown_answers_exhausted data wd :
  Vision.extract_dropdown_answers gemini json_loads data wd
  = (inr (VList []), (wd + retries)%nat).
Proof.
  unfold Vision.extract_dropdown_answers. exhaust.
  replace (Vision.bracket_slice _) with "[]" by (vm_compute; reflexivity).
  rewrite loads_empty. reflexivity.
Qed.

(** The type-specific part of a dropdown question when the service is out
    of reach: an option section and an answer section without entries. *)
Lemma dropdown_elements_exhausted q wd :
  exists wd',
    dropdown_elements gemini json_loads str_compound q wd
    = (inr [node "QuestionOptions" []; node "Answers" []], wd').
Proof.
  unfold dropdown_elements.
  destruct (_get_categorized_images q) as [[|qi q_imgs] [|ai a_imgs]];
    unfold _extract_dropdown_questions_from_image, _extract_dropdown_answers_from_image,
      _add_dropdown_answers_to_xml, bind, ret;
    rewrite ?extract_dropdown_questions_exhausted;
    rewrite ?extract_dropdown_answers_exhausted;
    cbn [Dyn.truthy];
    rewrite ?extract_text_exhausted;
    eexists; reflexivity.
Qed.

End Exhausted.

Lemma with_type_same q : with_type (q_type q) q = q.
Proof. destruct q; reflexivity. Qed.

Lemma dropdown_is_not_updated q : q_type q = "DROPDOWN" -> updated_type q = "DROPDOWN".
Proof. intros H. unfold updated_type. rewrite H. reflexivity. Qed.

Lemma dropdown_class q : q_type q = "DROPDOWN" -> create_question q = DropdownQuestion.
Proof. intros H. unfold create_question. rewrite H. reflexivity. Qed.

(** C6.  A call whose attempts all fail returns, without raising, the
    default of its prompt: the text of an empty array when the prompt asks
    for JSON, the empty text otherwise.  With a service that fails on
    every attempt, the text extraction gives the empty text and the
    structured extractions give their empty shape, and a question of type
    DROPDOWN is processed into an ordinary entry whose node holds an
    option section without option sets and an answer section without
    answers, next to the entries of the other questions of the batch. *)
Theorem C6_exhausted_retries_give_defaults :
  (forall n prompt image, gemini n prompt image = None) ->
  json_loads "[]" = Some (VList []) ->
  (forall prompt image_data wd,
     (forall k, (k < Vision.MAX_API_RETRIES)%nat ->
        gemini (wd + k) prompt (if Py.nonempty image_data then Some image_data else None)
        = None) ->
     call_gemini_with_retry prompt image_data wd
     = (inr (if Py.contains "JSON" prompt then "[]" else ""),
        (wd + Vision.MAX_API_RETRIES)%nat))
  /\ (forall data wd,
        fst (Vision.extract_text_from_image gemini data wd) = inr ""
        /\ fst (Vision.extract_answers_from_image gemini json_loads data wd) = inr (VList [])
        /\ fst (Vision.extract_columns_dynamic gemini json_loads data wd)
           = inr (VDict [("columns", VList [])])
        /\ fst (Vision.extract_pairs_dynamic gemini json_loads data wd) = inr (VList [])
        /\ (forall just,
              fst (Vision.extract_dropdown_questions gemini json_loads data just wd)
              = inr (VList []))
        /\ fst (Vision.extract_dropdown_answers gemini json_loads data wd) = inr (VList []))
  /\ (forall (before after : list Question) (q : Question) (wd : World),
        q_type q = "DROPDOWN" ->
        exists rs1 rs2 wd',
          process_questions (before ++ q :: after) wd
          = (inr (rs1 ++ {| p_number := number q; p_type := "DROPDOWN";
                            element :=
                              node "Question"
                                (_add_basic_elements DropdownQuestion q
                                 ++ _add_sequential_content DropdownQuestion q
                                 ++ [node "QuestionOptions" []; node "Answers" []]
                                 ++ [leaf "Id" ""] ++ _add_explanation q) |} :: rs2), wd')
          /\ length rs1 = length before /\ length rs2 = length after).
Proof.
  intros Hfail Hjson. split; [|split].
  - intros prompt image_data wd H.
    unfold Vision.call_gemini_with_retry.
    rewrite attempts_exhausted by exact H. reflexivity.
  - intros data wd.
    rewrite (extract_text_exhausted Hfail), (extract_answers_exhausted Hfail Hjson),
      (extract_columns_exhausted Hfail Hjson), (extract_pairs_exhausted Hfail Hjson),
      (extract_dropdown_answers_exhausted Hfail Hjson).
    repeat split.
    intros just. rewrite (extract_dropdown_questions_exhausted Hfail Hjson). reflexivity.
  - intros before after q wd Ht.
    destruct (process_questions_total before wd) as (rs1 & w1 & H1 & Hl1).
    destruct (dropdown_elements_exhausted Hfail Hjson q w1) as (w2 & Hd).
    destruct (process_questions_total after w2) as (rs2 & w3 & H2 & Hl2).
    exists rs1, rs2, w3. split; [|split; assumption].
    apply (process_questions_app before (q :: after) wd rs1 w1); [exact H1|].
    cbn [Questions.process_questions]. unfold bind at 1.
    unfold Questions.process_one.
    rewrite (dropdown_is_not_updated q Ht).
    rewrite <- Ht at 1. rewrite with_type_same.
    unfold Questions.build_xml. rewrite (dropdown_class q Ht).
    cbn [_add_question_specific_elements]. unfold bind, ret. rewrite Hd, H2.
    reflexivity.
Qed.

(** *** The end-to-end scenario *)

Definition choice (letter txt : string) : Element :=
  node "Choices"
    [ leaf "Number" letter;
      node "Contents" [leaf "ContentType" "Text"; leaf "Text" txt] ].

(** C5.  The four units give no case study and one standalone question,
    numbered 1 and of type SingleChoice; it passes the validator, and its
    node holds, besides the kind, the number and the empty identifier,
    exactly two choice nodes, A with Paris and B with London, and one
    answer node whose only value is A. *)
Theorem C5_single_choice_scenario (wd : World) :
  let units := map text_item ["QUESTION NO: 1 SingleChoice"; "A. Paris"; "B. London";
                              "Answer: A"] in
  let standalone := fst (Grouper.process_content_items units) in
  let el := node "Question"
              [ leaf "Kind" "SingleChoice"; leaf "DisplayKind" "SingleChoice";
                leaf "QuestionNo" "1";
                choice "A" "Paris"; choice "B" "London";
                node "Answer" [leaf "Choices" "A"];
                leaf "Id" "" ] in
  snd (Grouper.process_content_items units) = []
  /\ map (fun q => (number q, q_type q)) standalone = [(Some "1", "SingleChoice")]
  /\ Validation.validate_question_images standalone = (true, [])
  /\ process_questions standalone wd
     = (inr [{| p_number := Some "1"; p_type := "SingleChoice"; element := el |}], wd)
  /\ findall_tag "Choices" el = [choice "A" "Paris"; choice "B" "London"]
  /\ findall_tag "Answer" el = [node "Answer" [leaf "Choices" "A"]].
Proof.
  cbv zeta. repeat split; vm_compute; reflexivity.
Qed.

End WithService.

(** A service that fails on every attempt, and a reader of JSON that
    knows two texts. *)
Definition unreachable : nat -> string -> option string -> option string :=
  fun _ _ _ => None.

Definition loads_two : string -> option pyval :=
  fun x => if String.eqb x "[]" then Some (VList [])
           else if String.eqb x "[1]" then Some (VList [VInt 1])
           else None.

Definition no_compound : pyval -> string := fun _ => "".
Definition no_others : QuestionClass -> Question -> M (list Element) := fun _ _ => ret [].

Lemma C6_exhausted_retries_give_defaults_witness :
  fst (Vision.extract_dropdown_answers unreachable loads_two "image" 0)
  = inr (VList []).
Proof.
  apply (C6_exhausted_retries_give_defaults unreachable loads_two no_compound no_others
           (fun _ _ _ => eq_refl) eq_refl).
Defined.

(** A service that reads a statement in every image and answers the
    requests for JSON with an array of a number. *)
Definition misread : nat -> string -> option string -> option string :=
  fun _ prompt _ =>
    if Py.contains "JSON" prompt then Some "[1]"
    else Some "The first statement of the question".

Definition hotspot_sample : Question :=
  let img p := {| img_data := "image"; img_format := "png"; img_path := p |} in
  {| number := Some "2"; q_type := "HOTSPOT";
     content_items :=
       [ text_item "QUESTION NO: 2 HOTSPOT";
         {| ci_type := "text"; content := "QuestionOptionImage:"; frame_refs := [];
            images := [img "Pictures/q.png"] |};
         {| ci_type := "text"; content := "AnswerOptionImage:"; frame_refs := [];
            images := [img "Pictures/a.png"] |} ];
     text := "QUESTION NO: 2 HOTSPOT";
     q_images := [img "Pictures/q.png"; img "Pictures/a.png"] |}.

Lemma C7_failure_is_isolated_witness :
  let q1 := {| number := Some "1"; q_type := "SingleChoice";
               content_items := [text_item "QUESTION NO: 1"]; text := "QUESTION NO: 1";
               q_images := [] |} in
  exists rs1 rs2 wd',
    process_questions misread loads_two no_compound no_others
      ([q1] ++ hotspot_sample :: [q1]) 0
    = (inr (rs1
            ++ {| p_number := Some "2"; p_type := "HOTSPOT";
                  element :=
                    node "Question"
                      [ leaf "QuestionNo" "2"; leaf "Kind" "HOTSPOT";
                        leaf "Error" "'int' object has no attribute 'get'" ] |}
            :: rs2), wd').
Proof.
  intros q1.
  pose proof (C7_failure_is_isolated misread loads_two no_compound no_others
                [q1] [q1] hotspot_sample 0 0 3 3
                _ _ _ eq_refl eq_refl eq_refl) as [H Hf].
  rewrite (Hf _ eq_refl) in H.
  eexists. eexists. eexists. exact H.
Defined.

End QuestionsFacts.

(** ** The document assembler *)

Module OutputFacts.
Import Output.

(** Case studies with the topic numbers 10 and 2 come out with 2 first,
    whatever their other fields are. *)
Lemma sort_two_before_ten (cs2 cs10 : CaseStudy) :
  topic_number cs2 = "2" -> topic_number cs10 = "10" ->
  sort_case_studies [cs10; cs2] = inr [cs2; cs10]
  /\ sort_case_studies [cs2; cs10] = inr [cs2; cs10].
Proof.
  intros H2 H10. unfold sort_case_studies, case_study_key. cbn [map].
  rewrite H2, H10. split; reflexivity.
Qed.

(** A key made of two integers. *)
Definition numeric (k : key * key) : Prop := exists a b, k = (KInt a, KInt b).

Lemma pair_lt_numeric k1 k2 :
  numeric k1 -> numeric k2 -> exists b, pair_lt k1 k2 = inr b.
Proof.
  intros (a1 & b1 & ->) (a2 & b2 & ->). unfold pair_lt. cbn.
  destruct (a1 =? a2)%Z; [destruct (b1 =? b2)%Z|]; eexists; reflexivity.
Qed.

Lemma insert_numeric {A} (x : key * key * A) (sorted : list (key * key * A)) :
  numeric (fst x) -> Forall (fun y => numeric (fst y)) sorted ->
  exists r, insert pair_lt x sorted = inr r
            /\ Permutation (x :: sorted) r
            /\ Forall (fun y => numeric (fst y)) r.
Proof.
  intros Hx. induction sorted as [|y sorted IH]; intros Hs; cbn [insert].
  - exists [x]. repeat split; [reflexivity | constructor; [exact Hx | constructor]].
  - inversion Hs as [|? ? Hy Hs']; subst.
    destruct (pair_lt_numeric (fst x) (fst y) Hx Hy) as ([|] & ->).
    + exists (x :: y :: sorted). repeat split; [reflexivity|].
      constructor; [exact Hx | exact Hs].
    + destruct (IH Hs') as (r & -> & Hp & Hr).
      exists (y :: r). repeat split.
      * rewrite perm_swap. constructor. exact Hp.
      * constructor; [exact Hy | exact Hr].
Qed.

Lemma sort_keyed_numeric {A} (l done : list (key * key * A)) :
  Forall (fun y => numeric (fst y)) l -> Forall (fun y => numeric (fst y)) done ->
  exists r, fold_left (fun acc x => match acc with
                                    | inl e => inl e
                                    | inr sorted => insert pair_lt x sorted
                                    end) l (inr done) = inr r
            /\ Permutation (done ++ l) r.
Proof.
  revert done. induction l as [|x l IH]; intros done Hl Hd; cbn [fold_left].
  - exists done. split; [reflexivity | rewrite app_nil_r; reflexivity].
  - inversion Hl as [|? ? Hx Hl']; subst.
    destruct (insert_numeric x done Hx Hd) as (r & -> & Hp & Hr).
    destruct (IH r Hl' Hr) as (r' & Hr' & Hp').
    exists r'. split; [exact Hr'|].
    rewrite <- Hp'. rewrite <- Hp. cbn [app]. symmetry. apply Permutation_middle.
Qed.

(** When every topic number and every case number is a token of digits
    the sort does not fail, and it returns the case studies it was
    given. *)
Lemma sort_case_studies_numeric (l : list CaseStudy) :
  Forall (fun cs => Py.isdigit (topic_number cs) = true
                    /\ Py.isdigit (cs_number cs) = true) l ->
  exists r, sort_case_studies l = inr r /\ Permutation l r.
Proof.
  intros H. unfold sort_case_studies, sort_keyed.
  assert (Hk : Forall (fun y : key * key * CaseStudy => numeric (fst y))
                 (map (fun cs => (case_study_key cs, cs)) l)).
  { induction H as [|cs l [Ht Hn] _ IH]; cbn [map]; constructor; [|exact IH].
    unfold case_study_key, key_of. cbn [fst]. rewrite Ht, Hn.
    eexists. eexists. reflexivity. }
  destruct (sort_keyed_numeric (map (fun cs => (case_study_key cs, cs)) l) [] Hk)
    as (r & Hr & Hp).
  - constructor.
  - rewrite Hr. exists (map snd r). split; [reflexivity|].
    cbn [app] in Hp. rewrite <- Hp. rewrite map_map. cbn [snd]. rewrite map_id. reflexivity.
Qed.

Section WithServiceOut.

Variable gemini : nat -> string -> option string -> option string.
Variable json_loads : string -> option pyval.
Variable str_compound : pyval -> string.
Variable other_elements : Questions.QuestionClass -> Question -> M (list Element).

Local Abbreviation generate_xml_output :=
  (generate_xml_output gemini json_loads str_compound other_elements).

(** C3.  The claim fails on the code: the key of a token of digits is an
    integer and the key of any other token is the token itself, and an
    integer cannot be compared with a string.  A case study opened before
    any topic line has the empty topic and case numbers; next to a case
    study of topic 2 the sort raises a TypeError, and so does
    [generate_xml_output]. *)
Theorem C3_mixed_keys_raise (wd : World) :
  let units := map text_item ["CaseStudyStart:"; "CaseStudyEnd:";
                              "Topic 2, Case Study 1"; "CaseStudyStart:"; "CaseStudyEnd:"] in
  let standalone := fst (Grouper.process_content_items units) in
  let case_studies := snd (Grouper.process_content_items units) in
  let error := Exn "TypeError" "'<' not supported between instances of 'int' and 'str'" in
  map case_study_key case_studies = [(KStr "", KStr ""); (KInt 2, KInt 1)]
  /\ sort_case_studies case_studies = inl error
  /\ generate_xml_output standalone case_studies wd = (inl error, wd).
Proof.
  cbv zeta. repeat split; vm_compute; reflexivity.
Qed.

(** C9.  The claim fails on the code: the tree the assembler serialises
    holds the segments of a case study under [Segments] and never an
    element [CaseStudyDetails], so the post-pass finds no section to work
    on.  The heading markup of a segment text, as
    [process_case_study_headings] writes it, comes out escaped; inside a
    section [CaseStudyDetails] the post-pass would have restored it. *)
Theorem C9_segment_markup_stays_escaped (wd : World) :
  let markup := "<CaseStudyHeading>Background</CaseStudyHeading>" in
  let escaped := "&lt;CaseStudyHeading&gt;Background&lt;/CaseStudyHeading&gt;" in
  let units := map text_item ["CaseStudyStart:"; "CaseStudyDetailsStart:";
                              "Segment: Overview"; markup;
                              "CaseStudyDetailsEnd:"; "CaseStudyEnd:"] in
  let standalone := fst (Grouper.process_content_items units) in
  let case_studies := snd (Grouper.process_content_items units) in
  ContentUtilities.process_case_study_headings "CaseStudyHeading: Background"
  = markup +:+ TextHelpers.NL
  /\ map segments case_studies
     = [[{| seg_name := "Overview"; seg_contents := [SegText markup] |}]]
  /\ (exists xml,
        generate_xml_output standalone case_studies wd = (inr xml, wd)
        /\ Py.contains ("<Text>" +:+ escaped +:+ "</Text>") xml = true
        /\ Py.contains markup xml = false
        /\ Py.contains "<CaseStudyDetails>" xml = false)
  /\ fix_case_study_details_tags
       ("<CaseStudyDetails>" +:+ escaped +:+ "</CaseStudyDetails>")
     = "<CaseStudyDetails>" +:+ markup +:+ "</CaseStudyDetails>".
Proof.
  cbv zeta. split; [|split; [|split]]; try (vm_compute; reflexivity).
  eexists. split; [vm_compute; reflexivity|].
  repeat split; vm_compute; reflexivity.
Qed.

End WithServiceOut.
End OutputFacts.

(** ** The matcher *)

Module ReFacts.
Import Re.

(** The loop of a repetition, by itself. *)
Definition star_loop (f : flags) (greedy : bool) (r : regex) (k : cont)
    : nat -> nat -> option ascii -> list ascii -> caps -> option result :=
  fix loop (fuel : nat) (i : nat) (prev : option ascii) (rest : list ascii) (cs : caps)
      {struct fuel} : option result :=
    match fuel with
    | O => k i prev rest cs
    | S fuel' =>
        if greedy then
          match run f r i prev rest cs
                  (fun i' p' rest' cs' =>
                     if (i <? i')%nat then loop fuel' i' p' rest' cs' else None) with
          | Some x => Some x
          | None => k i prev rest cs
          end
        else
          match k i prev rest cs with
          | Some x => Some x
          | None =>
              run f r i prev rest cs
                (fun i' p' rest' cs' =>
                   if (i <? i')%nat then loop fuel' i' p' rest' cs' else None)
          end
    end.

Lemma run_star f g r i prev rest cs k :
  run f (Star g r) i prev rest cs k = star_loop f g r k (S (length rest)) i prev rest cs.
Proof. reflexivity. Qed.

Lemma run_cat f r1 r2 i prev rest cs k :
  run f (Cat r1 r2) i prev rest cs k
  = run f r1 i prev rest cs (fun i' p' rest' cs' => run f r2 i' p' rest' cs' k).
Proof. reflexivity. Qed.

Lemma run_grp f n r i prev rest cs k :
  run f (Grp n r) i prev rest cs k
  = run f r i prev rest cs
      (fun i' p' rest' cs' =>
         k i' p' rest' ((n, string_of_list_ascii (firstn (i' - i) rest)) :: cs')).
Proof. reflexivity. Qed.

(** Patterns without a capturing group. *)
Inductive groupless : regex -> Prop :=
| gl_eps : groupless Eps
| gl_chr c : groupless (Chr c)
| gl_dot : groupless Dot
| gl_cls p : groupless (Cls p)
| gl_cat r1 r2 : groupless r1 -> groupless r2 -> groupless (Cat r1 r2)
| gl_alt r1 r2 : groupless r1 -> groupless r2 -> groupless (Alt r1 r2)
| gl_star g r : groupless r -> groupless (Star g r)
| gl_bol : groupless Bol
| gl_eol : groupless Eol
| gl_wordb : groupless WordB
| gl_ahead r : groupless r -> groupless (Ahead r).

Lemma groupless_Lit x : groupless (Lit x).
Proof.
  induction x as [|c x IH]; cbn [Lit]; [constructor|].
  destruct x; [constructor | constructor; [constructor | exact IH]].
Qed.

(** A pattern without groups hands the groups it was given to its
    continuation. *)
Lemma run_groupless f r :
  groupless r ->
  forall i prev rest cs k res,
    run f r i prev rest cs k = Some res ->
    exists i' prev' rest', k i' prev' rest' cs = Some res.
Proof.
  induction 1 as [ | c | | p | r1 r2 _ IH1 _ IH2 | r1 r2 _ IH1 _ IH2 | g r _ IH
                 | | | | r _ IH ];
    intros i prev rest cs k res Hrun.
  - cbn [run] in Hrun. eauto.
  - cbn [run] in Hrun. destruct rest as [|x rest']; [discriminate|].
    destruct (chr_eq f c x); [eauto | discriminate].
  - cbn [run] in Hrun. destruct rest as [|x rest']; [discriminate|].
    destruct (DOTALL f || negb (Ascii.eqb x nl)); [eauto | discriminate].
  - cbn [run] in Hrun. destruct rest as [|x rest']; [discriminate|].
    destruct (cls_ok f p x); [eauto | discriminate].
  - cbn [run] in Hrun. apply IH1 in Hrun. destruct Hrun as (i1 & p1 & rest1 & Hrun).
    apply IH2 in Hrun. exact Hrun.
  - cbn [run] in Hrun. destruct (run f r1 i prev rest cs k) eqn:E.
    + injection Hrun as <-. apply IH1 in E. exact E.
    + apply IH2 in Hrun. exact Hrun.
  - rewrite run_star in Hrun.
    revert Hrun. generalize (S (length rest)). intros fuel. revert i prev rest cs res.
    induction fuel as [|fuel IHf]; intros i prev rest cs res Hrun; cbn [star_loop] in Hrun.
    + eauto.
    + destruct g.
      * destruct (run f r i prev rest cs _) eqn:E in Hrun.
        -- injection Hrun as <-. apply IH in E.
           destruct E as (i1 & p1 & rest1 & E).
           destruct (i <? i1)%nat; [|discriminate].
           apply IHf in E. exact E.
        -- eauto.
      * destruct (k i prev rest cs) eqn:E in Hrun.
        -- injection Hrun as <-. eauto.
        -- apply IH in Hrun.
           destruct Hrun as (i1 & p1 & rest1 & Hrun).
           destruct (i <? i1)%nat; [|discriminate].
           apply IHf in Hrun. exact Hrun.
  - cbn [run] in Hrun. destruct (at_bol f prev); [eauto | discriminate].
  - cbn [run] in Hrun. destruct (at_eol f rest); [eauto | discriminate].
  - cbn [run] in Hrun. destruct (at_wordb prev rest); [eauto | discriminate].
  - cbn [run] in Hrun.
    destruct (run f r i prev rest cs _) as [[[[i1 p1] rest1] cs1]|] eqn:E in Hrun;
      [|discriminate].
    apply IH in E. destruct E as (i2 & p2 & rest2 & E).
    cbv beta in E. injection E as _ _ _ <-. eauto.
Qed.

(** What is known of the text a pattern takes: it is a prefix of the text
    left, all of its characters satisfy [Q], and the groups stay as they
    were. *)
Definition takes (f : flags) (r : regex) (Q : ascii -> Prop) : Prop :=
  forall i prev rest cs k res,
    run f r i prev rest cs k = Some res ->
    exists pre rest' prev',
      rest = pre ++ rest' /\ Forall Q pre
      /\ k (i + length pre)%nat prev' rest' cs = Some res.

Lemma takes_cls f p : takes f (Cls p) (fun c => cls_ok f p c = true).
Proof.
  intros i prev rest cs k res Hrun. cbn [run] in Hrun.
  destruct rest as [|x rest']; [discriminate|].
  destruct (cls_ok f p x) eqn:Hx; [|discriminate].
  exists [x], rest', (Some x). repeat split.
  - constructor; [exact Hx | constructor].
  - cbn [length]. rewrite Nat.add_1_r. exact Hrun.
Qed.

Lemma takes_star f g r Q : takes f r Q -> takes f (Star g r) Q.
Proof.
  intros Hr i prev rest cs k res Hrun. rewrite run_star in Hrun.
  revert Hrun. generalize (S (length rest)). intros fuel. revert i prev rest cs res.
  induction fuel as [|fuel IHf]; intros i prev rest cs res Hrun; cbn [star_loop] in Hrun.
  - exists [], rest, prev. rewrite Nat.add_0_r. repeat split; [constructor | exact Hrun].
  - assert (Hmore : forall res',
              run f r i prev rest cs
                (fun i' p' rest' cs' =>
                   if (i <? i')%nat then star_loop f g r k fuel i' p' rest' cs' else None)
              = Some res' ->
              exists pre rest' prev',
                rest = pre ++ rest' /\ Forall Q pre
                /\ k (i + length pre)%nat prev' rest' cs = Some res').
    { intros res' H. apply Hr in H.
      destruct H as (pre1 & rest1 & prev1 & -> & Hall1 & H).
      destruct (i <? i + length pre1)%nat; [|discriminate].
      apply IHf in H. destruct H as (pre2 & rest2 & prev2 & -> & Hall2 & H).
      exists (pre1 ++ pre2), rest2, prev2. repeat split.
      - rewrite app_assoc. reflexivity.
      - apply Forall_app. split; assumption.
      - rewrite length_app, Nat.add_assoc. exact H. }
    destruct g.
    + destruct (run f r i prev rest cs _) eqn:E in Hrun.
      * injection Hrun as <-. apply Hmore. exact E.
      * exists [], rest, prev. rewrite Nat.add_0_r.
        repeat split; [constructor | exact Hrun].
    + destruct (k i prev rest cs) eqn:E in Hrun.
      * injection Hrun as <-. exists [], rest, prev. rewrite Nat.add_0_r.
        repeat split; [constructor | exact E].
      * apply Hmore. exact Hrun.
Qed.

Lemma takes_cat f r1 r2 Q : takes f r1 Q -> takes f r2 Q -> takes f (Cat r1 r2) Q.
Proof.
  intros H1 H2 i prev rest cs k res Hrun. cbn [run] in Hrun.
  apply H1 in Hrun. destruct Hrun as (pre1 & rest1 & prev1 & -> & Hall1 & Hrun).
  apply H2 in Hrun. destruct Hrun as (pre2 & rest2 & prev2 & -> & Hall2 & Hrun).
  exists (pre1 ++ pre2), rest2, prev2. repeat split.
  - rewrite app_assoc. reflexivity.
  - apply Forall_app. split; assumption.
  - rewrite length_app, Nat.add_assoc. exact Hrun.
Qed.

(** *** Patterns that begin with a literal text *)

(** The text as the flags compare it: in lower case when the case is
    ignored. *)
Definition folded (f : flags) (x : string) : string :=
  if IGNORECASE f then Py.lower x else x.

Lemma chr_eq_folded f a b :
  chr_eq f a b
  = Py.startswith (folded f (String a EmptyString)) (folded f (String b EmptyString)).
Proof.
  unfold chr_eq, folded. destruct (IGNORECASE f); cbn; rewrite andb_true_r; reflexivity.
Qed.

Lemma folded_cons f a x :
  folded f (String a x)
  = match folded f (String a EmptyString) with
    | String a' _ => String a' (folded f x)
    | EmptyString => EmptyString
    end.
Proof. unfold folded. destruct (IGNORECASE f); reflexivity. Qed.

Lemma startswith_folded_cons f a x b y :
  Py.startswith (folded f (String a x)) (folded f (String b y))
  = chr_eq f a b && Py.startswith (folded f x) (folded f y).
Proof.
  unfold chr_eq, folded. destruct (IGNORECASE f); reflexivity.
Qed.

(** A literal text matches only where the subject starts with it. *)
Lemma run_Lit_startswith f x :
  forall i prev y cs k res,
    run f (Lit x) i prev (list_ascii_of_string y) cs k = Some res ->
    Py.startswith (folded f x) (folded f y) = true.
Proof.
  induction x as [|c x IH]; intros i prev y cs k res Hrun.
  - unfold folded. destruct (IGNORECASE f); reflexivity.
  - assert (Hhead : forall k', run f (Chr c) i prev (list_ascii_of_string y) cs k' = Some res ->
              exists b y', y = String b y' /\ chr_eq f c b = true
                           /\ k' (S i) (Some b) (list_ascii_of_string y') cs = Some res).
    { intros k' H. cbn [run] in H. destruct y as [|b y']; [discriminate|].
      cbn [list_ascii_of_string] in H.
      destruct (chr_eq f c b) eqn:E; [|discriminate]. eauto. }
    destruct x as [|c' x'].
    + cbn [Lit] in Hrun. apply Hhead in Hrun.
      destruct Hrun as (b & y' & -> & E & _).
      rewrite startswith_folded_cons, E.
      unfold folded. destruct (IGNORECASE f); reflexivity.
    + change (Lit (String c (String c' x')))
        with (Cat (Chr c) (Lit (String c' x'))) in Hrun.
      rewrite run_cat in Hrun. apply Hhead in Hrun.
      destruct Hrun as (b & y' & -> & E & Hrun). apply IH in Hrun.
      rewrite startswith_folded_cons, E, Hrun. reflexivity.
Qed.

(** The leftmost match of a pattern that can match only where [P] holds of
    the text left: there is none when [P] holds nowhere. *)
Lemma scan_nowhere f r (P : string -> bool) :
  (forall y i prev res,
     run f r i prev (list_ascii_of_string y) [] stop = Some res -> P y = true) ->
  forall x,
    (forall n, P (Py.drop n x) = false) ->
    forall i prev, scan f r i prev (list_ascii_of_string x) = None.
Proof.
  intros Hrun. induction x as [|c x IH]; intros HP i prev.
  - cbn [list_ascii_of_string scan].
    destruct (run f r i prev [] [] stop) as [res|] eqn:E; [|reflexivity].
    apply (Hrun "") in E. pose proof (HP 0%nat) as H0. cbn [Py.drop] in H0. congruence.
  - cbn [list_ascii_of_string scan].
    destruct (run f r i prev (c :: list_ascii_of_string x) [] stop) as [res|] eqn:E.
    + apply (Hrun (String c x)) in E. pose proof (HP 0%nat) as H0. cbn [Py.drop] in H0.
      congruence.
    + apply IH. intros n. apply (HP (S n)).
Qed.

Lemma not_contained_nowhere lit x :
  Py.contains lit x = false -> forall n, Py.startswith lit (Py.drop n x) = false.
Proof.
  unfold Py.contains. induction x as [|c x IH]; intros H n.
  - cbn [Py.find] in H. destruct (Py.startswith lit "") eqn:E; [discriminate|].
    destruct n; exact E.
  - cbn [Py.find] in H. destruct (Py.startswith lit (String c x)) eqn:E; [discriminate|].
    destruct n as [|n]; [exact E|]. cbn [Py.drop]. apply IH.
    destruct (Py.find lit x); [discriminate | reflexivity].
Qed.

Lemma folded_drop f n x : folded f (Py.drop n x) = Py.drop n (folded f x).
Proof.
  unfold folded. destruct (IGNORECASE f); [|reflexivity].
  revert x. induction n as [|n IH]; intros x; [reflexivity|].
  destruct x as [|c x]; [reflexivity|]. cbn. apply IH.
Qed.

(** A pattern that begins with a literal text, in a group or not, finds
    nothing in a subject that does not hold the text. *)
Lemma search_without_literal f lit r x :
  Py.contains (folded f lit) (folded f x) = false ->
  search f (Cat (Lit lit) r) x = None.
Proof.
  intros H. unfold search.
  apply (scan_nowhere f _ (fun y => Py.startswith (folded f lit) (folded f y))).
  - intros y i prev res Hrun. rewrite run_cat in Hrun.
    apply (run_Lit_startswith f lit) in Hrun. exact Hrun.
  - intros n. rewrite folded_drop. apply not_contained_nowhere, H.
Qed.

Lemma search_without_group f n lit r x :
  Py.contains (folded f lit) (folded f x) = false ->
  search f (Cat (Grp n (Lit lit)) r) x = None.
Proof.
  intros H. unfold search.
  apply (scan_nowhere f _ (fun y => Py.startswith (folded f lit) (folded f y))).
  - intros y i prev res Hrun. rewrite run_cat, run_grp in Hrun.
    apply (run_Lit_startswith f lit) in Hrun. exact Hrun.
  - intros m. rewrite folded_drop. apply not_contained_nowhere, H.
Qed.

End ReFacts.


(** ** modules/utils/text_helpers.py: numbers and types *)

Module TextFacts.
Import Re TextHelpers ReFacts.

Lemma run_cls f p i prev rest cs k res :
  run f (Cls p) i prev rest cs k = Some res ->
  exists x rest',
    rest = x :: rest' /\ cls_ok f p x = true /\ k (S i) (Some x) rest' cs = Some res.
Proof.
  cbn [run]. destruct rest as [|x rest']; [discriminate|].
  destruct (cls_ok f p x) eqn:Hx; [|discriminate]. eauto.
Qed.

(** A match found by the scan is a match of the pattern somewhere, with no
    group captured before it. *)
Lemma scan_run f r rest :
  forall i prev m,
    scan f r i prev rest = Some m ->
    exists i0 prev0 rest0 res,
      run f r i0 prev0 rest0 [] stop = Some res /\ m = mk i0 res.
Proof.
  induction rest as [|c rest IH]; intros i prev m H; cbn [scan] in H.
  - destruct (run f r i prev [] [] stop) as [res|] eqn:E; [|discriminate].
    injection H as <-. eauto 6.
  - destruct (run f r i prev (c :: rest) [] stop) as [res|] eqn:E.
    + injection H as <-. eauto 6.
    + apply IH in H. exact H.
Qed.

Lemma cls_ok_digit f c : cls_ok f Py.is_digit c = true -> Py.is_digit c = true.
Proof.
  unfold cls_ok. destruct (IGNORECASE f); [|auto].
  destruct c as [[] [] [] [] [] [] [] []]; vm_compute; auto.
Qed.

Lemma all_chars_of_list p l :
  Forall (fun c => p c = true) l -> Py.all_chars p (string_of_list_ascii l) = true.
Proof.
  induction 1 as [|c l Hc _ IH]; [reflexivity|].
  cbn [string_of_list_ascii Py.all_chars]. rewrite Hc, IH. reflexivity.
Qed.

(** A string of digits, not empty. *)
Definition digits (l : list ascii) : Prop :=
  l <> [] /\ Forall (fun c => Py.is_digit c = true) l.

Lemma isdigit_digits l : digits l -> Py.isdigit (string_of_list_ascii l) = true.
Proof.
  intros [Hne Hall]. destruct l as [|c l]; [congruence|].
  apply all_chars_of_list in Hall. exact Hall.
Qed.

(** The text [\d+] matches is a string of digits, and the groups stay as
    they were. *)
Lemma takes_digits f i prev rest cs k res :
  run f (Plus d) i prev rest cs k = Some res ->
  exists ds rest' prev',
    (firstn (length ds) rest = ds /\ digits ds)
    /\ k (i + length ds)%nat prev' rest' cs = Some res.
Proof.
  unfold Plus, d. rewrite run_cat. intros Hrun.
  apply run_cls in Hrun. destruct Hrun as (x & rest1 & -> & Hx & Hrun).
  apply (takes_star f true _ _ (takes_cls f Py.is_digit)) in Hrun.
  destruct Hrun as (pre & rest2 & prev2 & -> & Hall & Hrun).
  exists (x :: pre), rest2, prev2. repeat split.
  - cbn [length firstn]. f_equal.
    rewrite firstn_app, firstn_all, Nat.sub_diag. cbn [firstn]. apply app_nil_r.
  - discriminate.
  - constructor; [apply (cls_ok_digit f); exact Hx|].
    eapply List.Forall_impl; [|exact Hall]. intros c. apply cls_ok_digit.
  - cbn [length]. rewrite Nat.add_succ_r. exact Hrun.
Qed.

(** A group around [\d+] records a string of digits. *)
Lemma group_digits f n i prev rest cs k res :
  run f (Grp n (Plus d)) i prev rest cs k = Some res ->
  exists v i' prev' rest',
    Py.isdigit v = true /\ k i' prev' rest' ((n, v) :: cs) = Some res.
Proof.
  rewrite run_grp. intros Hrun. apply takes_digits in Hrun.
  destruct Hrun as (ds & rest' & prev' & (Hfirst & Hds) & Hrun).
  replace (i + length ds - i)%nat with (length ds) in Hrun by lia.
  rewrite Hfirst in Hrun.
  exists (string_of_list_ascii ds), (i + length ds)%nat, prev', rest'.
  split; [apply isdigit_digits; exact Hds | exact Hrun].
Qed.

Lemma groupless_spaces g : groupless (Star g s).
Proof. constructor. unfold s. constructor. Qed.

Lemma groupless_plus_spaces : groupless (Plus s).
Proof. unfold Plus, s. repeat constructor. Qed.

Lemma question_number_groups m :
  search I question_number_re m = None
  \/ exists r v, search I question_number_re m = Some r
                 /\ m_caps r = [(1%nat, v)] /\ Py.isdigit v = true.
Proof.
  unfold search.
  destruct (scan I question_number_re 0 None (list_ascii_of_string m)) as [r|] eqn:E;
    [right | left; reflexivity].
  apply scan_run in E. destruct E as (i0 & prev0 & rest0 & res & Hrun & ->).
  unfold question_number_re in Hrun. cbn [Seq] in Hrun.
  rewrite run_cat in Hrun.
  apply (run_groupless _ _ (groupless_Lit _)) in Hrun.
  destruct Hrun as (i1 & p1 & rest1 & Hrun). rewrite run_cat in Hrun.
  apply (run_groupless _ _ (groupless_spaces _)) in Hrun.
  destruct Hrun as (i2 & p2 & rest2 & Hrun).
  apply group_digits in Hrun. destruct Hrun as (v & i3 & p3 & rest3 & Hv & Hrun).
  unfold stop in Hrun. injection Hrun as <-.
  exists (mk i0 (i3, p3, rest3, [(1%nat, v)])), v. repeat split. exact Hv.
Qed.

Lemma in_list_In x l : in_list x l = true -> In x l.
Proof.
  unfold in_list. intros H. apply existsb_exists in H.
  destruct H as (y & Hy & Heq). apply String.eqb_eq in Heq. subst y. exact Hy.
Qed.

Lemma upper_char_not_lower c : Py.is_lower (Py.upper_char c) = false.
Proof. destruct c as [[] [] [] [] [] [] [] []]; vm_compute; reflexivity. Qed.

Lemma upper_has_no_lower x :
  Py.all_chars (fun c => negb (Py.is_lower c)) (Py.upper x) = true.
Proof.
  unfold Py.upper. induction x as [|c x IH]; [reflexivity|].
  cbn [Py.map_string Py.all_chars]. rewrite upper_char_not_lower, IH. reflexivity.
Qed.

(** The type strings the detector can return. *)
Definition type_names : list string :=
  [ "POSITIONEDDRAGDROP"; "POSITIONEDDROPDOWN"; "FILLINTHEBLANK"; "SIMULATION";
    "HOTSPOT"; "DRAGDROP"; "DROPDOWN"; "RADIOBUTTON"; "MULTIPLECHOICE";
    "MultipleChoice"; "SingleChoice" ].

Lemma question_number_digits (text n : string) :
  get_question_number text = Some n -> Py.isdigit n = true.
Proof.
  unfold get_question_number. intros H.
  destruct (question_number_groups text) as [E | (r & v & E & Hcaps & Hv)];
    rewrite E in H; [discriminate|].
  rewrite Hcaps in H. cbn [group Nat.eqb] in H. injection H as <-. exact Hv.
Qed.

(** X1.  [get_question_number] returns nothing or a non-empty string of
    decimal digits (the text of the group of the pattern), so the sort key
    made of a returned number is always an integer. *)
Theorem get_question_number_is_numeric (text n : string) :
  get_question_number text = Some n ->
  Py.isdigit n = true /\ Output.key_of n = Output.KInt (Py.int n).
Proof.
  intros H. pose proof (question_number_digits text n H) as Hv.
  split; [exact Hv|]. unfold Output.key_of. rewrite Hv. reflexivity.
Qed.

Lemma get_question_number_is_numeric_witness :
  Py.isdigit "12" = true /\ Output.key_of "12" = Output.KInt (Py.int "12").
Proof. apply (get_question_number_is_numeric "Question No:  12 HOTSPOT"). reflexivity. Defined.

Lemma type_range (text : string) : In (get_question_type text) type_names.
Proof.
  unfold get_question_type.
  destruct (any_match I positioneddragdrop_patterns text); [vm_compute; tauto|].
  destruct (any_match I positioneddropdown_patterns text); [vm_compute; tauto|].
  destruct (any_match I fillintheblank_patterns text); [vm_compute; tauto|].
  destruct (any_match I simulation_patterns text); [vm_compute; tauto|].
  assert (Hrest :
    In (if matches I hotspot_re text then "HOTSPOT"
        else if matches I dragdrop_re text then "DRAGDROP"
        else if matches I dropdown_re text then "DROPDOWN"
        else match findall ML option_start_re text, search no_flags answer_line_re text with
             | _ :: _, Some m =>
                 if (1 <? length (split_answers (group_or_empty 1 m)))%nat
                 then "MultipleChoice" else "SingleChoice"
             | _, _ => "SingleChoice"
             end) type_names).
  { destruct (matches I hotspot_re text); [vm_compute; tauto|].
    destruct (matches I dragdrop_re text); [vm_compute; tauto|].
    destruct (matches I dropdown_re text); [vm_compute; tauto|].
    destruct (findall ML option_start_re text); [vm_compute; tauto|].
    destruct (search no_flags answer_line_re text); [|vm_compute; tauto].
    destruct (1 <? _)%nat; vm_compute; tauto. }
  destruct (search I declared_type_re text) as [m|]; [|exact Hrest].
  destruct (in_list (Py.upper (group_or_empty 1 m)) declared_types) eqn:E; [|exact Hrest].
  apply in_list_In in E.
  pose proof (upper_has_no_lower (group_or_empty 1 m)) as Hup.
  unfold declared_types in E. cbn [In] in E.
  destruct E as [E|[E|[E|[E|[E|[E|[E|[E|[]]]]]]]]]; rewrite <- E in *;
    try (vm_compute; tauto).
  vm_compute in Hup. discriminate.
Qed.

(** X2.  [get_question_type] returns one of eleven type strings, whatever
    the text: the four keyword types, a declared type in capitals, the
    three types found by their phrases, or one of the two choice types.
    The entry [FillInTheBlank] of the list of declared types can never be
    returned, since the declared word is compared in capitals. *)
Theorem get_question_type_range (text : string) :
  In (get_question_type text) type_names.
Proof. apply type_range. Qed.

(** X25.  [create_question] has a branch of its own for SIMULATION, but
    [is_supported_type] denies that type: of the types
    [get_question_type] can return, SIMULATION is the only one that
    [is_supported_type] calls unsupported. *)
Theorem simulation_is_the_unsupported_type (text : string) :
  Factory.is_supported_type (get_question_type text)
  = negb (String.eqb (get_question_type text) "SIMULATION")
  /\ (forall q, q_type q = "SIMULATION" ->
        Questions.create_question q = Questions.SimulationQuestion).
Proof.
  split.
  - pose proof (type_range text) as H. unfold type_names in H. cbn [In] in H.
    repeat (destruct H as [<- | H]; [reflexivity|]). destruct H.
  - intros q H. unfold Questions.create_question. rewrite H. reflexivity.
Qed.

End TextFacts.

(** ** modules/core/case_study_processor.py: what every result satisfies *)

Module GrouperInvariants.
Import Re TextHelpers Grouper ReFacts TextFacts.

Lemma append_assoc (a b c : string) : (a +:+ b) +:+ c = a +:+ b +:+ c.
Proof.
  induction a as [|x a IH]; [reflexivity|].
  change (String x ((a +:+ b) +:+ c) = String x (a +:+ b +:+ c)).
  rewrite IH. reflexivity.
Qed.

Lemma join_snoc sep l x :
  l <> [] -> Py.join sep (l ++ [x]) = Py.join sep l +:+ sep +:+ x.
Proof.
  induction l as [|a l IH]; [congruence|]. intros _.
  destruct l as [|b l]; [reflexivity|].
  change (Py.join sep ((a :: b :: l) ++ [x]))
    with (a +:+ sep +:+ Py.join sep ((b :: l) ++ [x])).
  rewrite IH by discriminate.
  change (Py.join sep (a :: b :: l)) with (a +:+ sep +:+ Py.join sep (b :: l)).
  rewrite !append_assoc. reflexivity.
Qed.

(** A question as the grouper builds it: its first unit holds the question
    line and gives the number and the type, its text is the texts of its
    units joined by line feeds, and its images are those of its units. *)
Definition well_formed (q : Question) : Prop :=
  exists first rest,
    content_items q = first :: rest
    /\ has_question_start first = true
    /\ number q = get_question_number (content first)
    /\ q_type q = get_question_type (content first)
    /\ text q = Py.join NL (map content (content_items q))
    /\ q_images q = concat (map images (content_items q)).

(** The two numbers of a case study: both empty (no topic line was read) or
    both strings of digits. *)
Definition numbers_agree (topic case_study : string) : Prop :=
  (topic = "" /\ case_study = "")
  \/ (Py.isdigit topic = true /\ Py.isdigit case_study = true).

Definition segment_filled (sg : Segment) : Prop :=
  Py.nonempty (seg_name sg) = true /\ seg_contents sg <> [].

Definition case_study_ok (cs : CaseStudy) : Prop :=
  Forall well_formed (questions cs)
  /\ numbers_agree (topic_number cs) (cs_number cs)
  /\ Forall segment_filled (segments cs).

Definition state_ok (st : CaseStudyState) : Prop :=
  (forall cs, current_case_study st = Some cs -> case_study_ok cs)
  /\ numbers_agree (st_topic_number st) (st_case_study_number st).

Definition inv (g : GrouperState) : Prop :=
  Forall well_formed (standalone_questions g)
  /\ Forall case_study_ok (case_studies g)
  /\ (forall q, current_question g = Some q -> well_formed q)
  /\ state_ok (state g).

Lemma created_well_formed item :
  has_question_start item = true -> well_formed (_create_question_from_item item).
Proof.
  intros H. exists item, []. cbn. rewrite app_nil_r. repeat split. exact H.
Qed.

Lemma extended_well_formed q item :
  well_formed q ->
  well_formed {| number := number q; q_type := q_type q;
                 content_items := content_items q ++ [item];
                 text := text q +:+ NL +:+ content item;
                 q_images := q_images q ++ images item |}.
Proof.
  intros (first & rest & Hci & Hstart & Hn & Ht & Htext & Himg).
  exists first, (rest ++ [item]). cbn [content_items number q_type text q_images].
  rewrite Hci. repeat split; try assumption.
  - rewrite Htext, Hci. rewrite map_app. cbn [map].
    rewrite join_snoc by discriminate. reflexivity.
  - rewrite Himg, Hci. rewrite map_app, concat_app. cbn [map concat].
    rewrite app_nil_r. reflexivity.
Qed.

(** The numbers of a topic line. *)
Lemma topic_groups text m :
  search no_flags topic_re text = Some m ->
  Py.isdigit (group_or_empty 1 m) = true /\ Py.isdigit (group_or_empty 2 m) = true.
Proof.
  unfold search. intros E. apply scan_run in E.
  destruct E as (i0 & prev0 & rest0 & res & Hrun & ->).
  unfold topic_re in Hrun. cbn [Seq] in Hrun.
  rewrite run_cat in Hrun.
  apply (run_groupless _ _ (groupless_Lit _)) in Hrun. destruct Hrun as (? & ? & ? & Hrun).
  rewrite run_cat in Hrun.
  apply (run_groupless _ _ groupless_plus_spaces) in Hrun. destruct Hrun as (? & ? & ? & Hrun).
  rewrite run_cat in Hrun.
  apply group_digits in Hrun. destruct Hrun as (v1 & ? & ? & ? & Hv1 & Hrun).
  rewrite run_cat in Hrun.
  apply (run_groupless _ _ (gl_chr _)) in Hrun. destruct Hrun as (? & ? & ? & Hrun).
  rewrite run_cat in Hrun.
  apply (run_groupless _ _ groupless_plus_spaces) in Hrun. destruct Hrun as (? & ? & ? & Hrun).
  rewrite run_cat in Hrun.
  apply (run_groupless _ _ (groupless_Lit _)) in Hrun. destruct Hrun as (? & ? & ? & Hrun).
  rewrite run_cat in Hrun.
  apply (run_groupless _ _ groupless_plus_spaces) in Hrun. destruct Hrun as (? & ? & ? & Hrun).
  rewrite run_cat in Hrun.
  apply (run_groupless _ _ (groupless_Lit _)) in Hrun. destruct Hrun as (? & ? & ? & Hrun).
  rewrite run_cat in Hrun.
  apply (run_groupless _ _ groupless_plus_spaces) in Hrun. destruct Hrun as (? & ? & ? & Hrun).
  apply group_digits in Hrun. destruct Hrun as (v2 & ? & ? & ? & Hv2 & Hrun).
  unfold stop in Hrun. injection Hrun as <-.
  unfold group_or_empty, mk. cbn. split; assumption.
Qed.

Lemma state_ok_reset : state_ok reset.
Proof. split; [discriminate | left; split; reflexivity]. Qed.

Lemma state_ok_segment name contents st :
  state_ok st -> state_ok (set_segment name contents st).
Proof. intros H. exact H. Qed.

Lemma state_ok_flags a b st : state_ok st -> state_ok (set_flags a b st).
Proof. intros H. exact H. Qed.

Lemma state_ok_topic t c name st :
  numbers_agree t c -> state_ok st -> state_ok (set_topic t c name st).
Proof. intros Hn [Hcs _]. split; [exact Hcs | exact Hn]. Qed.

Lemma state_ok_case_study cs st :
  case_study_ok cs -> state_ok st -> state_ok (set_case_study (Some cs) st).
Proof.
  intros Hcs [_ Hn]. split; [|exact Hn]. cbn. intros cs' [= <-]. exact Hcs.
Qed.

Lemma state_ok_start st : state_ok st -> state_ok (start_case_study st).
Proof.
  intros [_ Hn]. split; [|exact Hn]. cbn. intros cs [= <-].
  repeat split; cbn; [constructor | exact Hn | constructor].
Qed.

Lemma case_study_ok_question q cs :
  well_formed q -> case_study_ok cs -> case_study_ok (add_question q cs).
Proof.
  intros Hq (Hqs & Hn & Hs). repeat split; cbn; try assumption.
  apply Forall_app. split; [exact Hqs | constructor; [exact Hq | constructor]].
Qed.

Lemma case_study_ok_images imgs cs : case_study_ok cs -> case_study_ok (add_images imgs cs).
Proof. intros H. exact H. Qed.

Lemma case_study_ok_segment sg cs :
  segment_filled sg -> case_study_ok cs -> case_study_ok (add_segment sg cs).
Proof.
  intros Hsg (Hqs & Hn & Hs). repeat split; cbn; try assumption.
  apply Forall_app. split; [exact Hs | constructor; [exact Hsg | constructor]].
Qed.

Lemma state_ok_finalize_segment st : state_ok st -> state_ok (finalize_current_segment st).
Proof.
  intros H. unfold finalize_current_segment.
  destruct (current_case_study st) as [cs|] eqn:E; [|exact H].
  destruct (Py.nonempty (current_segment_name st)
            && Py.nonempty_list (current_segment_contents st)) eqn:Hb; [|exact H].
  apply andb_true_iff in Hb. destruct Hb as [Hname Hcontents].
  apply state_ok_segment, state_ok_case_study; [|exact H].
  apply case_study_ok_segment; [|apply H; exact E].
  split; cbn; [exact Hname|].
  destruct (current_segment_contents st); [discriminate | discriminate].
Qed.

Lemma inv_with_state st g : state_ok st -> inv g -> inv (with_state st g).
Proof. intros Hst (Hs & Hc & Hq & _). exact (conj Hs (conj Hc (conj Hq Hst))). Qed.

Lemma inv_with_question q g :
  (forall q', q = Some q' -> well_formed q') -> inv g -> inv (with_question q g).
Proof. intros Hq (Hs & Hc & _ & Hst). exact (conj Hs (conj Hc (conj Hq Hst))). Qed.

Lemma inv_standalone q g :
  well_formed q -> inv g ->
  inv {| current_question := None; case_studies := case_studies g;
         standalone_questions := standalone_questions g ++ [q];
         state := state g |}.
Proof.
  intros Hq (Hs & Hc & _ & Hst).
  split; [|split; [exact Hc | split; [discriminate | exact Hst]]].
  apply Forall_app. split; [exact Hs | constructor; [exact Hq | constructor]].
Qed.

Lemma inv_finalize_current_question g : inv g -> inv (_finalize_current_question g).
Proof.
  intros H. unfold _finalize_current_question.
  destruct (current_question g) as [q|] eqn:Eq; [|exact H].
  assert (Hq : well_formed q) by (apply H; exact Eq).
  destruct (current_case_study (state g)) as [cs|] eqn:Ecs;
    [|apply inv_standalone; assumption].
  destruct (in_case_study (state g)); [|apply inv_standalone; assumption].
  apply inv_with_question; [discriminate|].
  apply inv_with_state; [|exact H].
  apply state_ok_case_study; [|apply H].
  apply case_study_ok_question; [exact Hq | apply H; exact Ecs].
Qed.

(** The closing of a case study: the second and third steps of
    [_finalize_case_study] and [_finalize_processing]. *)
Lemma inv_store_case_study g :
  inv g ->
  inv match current_case_study (state g) with
      | Some _ =>
          let st := finalize_current_segment (state g) in
          {| current_question := current_question g;
             case_studies :=
               case_studies g ++ match current_case_study st with
                                 | Some cs => [cs] | None => [] end;
             standalone_questions := standalone_questions g;
             state := st |}
      | None => g
      end.
Proof.
  intros H. destruct (current_case_study (state g)) as [cs0|] eqn:E; [|exact H].
  pose proof (state_ok_finalize_segment (state g) (proj2 (proj2 (proj2 H)))) as Hst.
  destruct H as (Hs & Hc & Hq & _).
  split; [exact Hs | split; [|split; [exact Hq | exact Hst]]].
  apply Forall_app. split; [exact Hc|].
  destruct (current_case_study (finalize_current_segment (state g))) as [cs|] eqn:E';
    [|constructor].
  constructor; [apply Hst; exact E' | constructor].
Qed.

Lemma inv_finalize_case_study g : inv g -> inv (_finalize_case_study g).
Proof.
  intros H. unfold _finalize_case_study.
  apply inv_with_state; [apply state_ok_reset|].
  apply inv_store_case_study.
  destruct (current_question g) as [q|] eqn:Eq; [|exact H].
  destruct (current_case_study (state g)) as [cs|] eqn:Ecs; [|exact H].
  destruct (in_case_study (state g)); [|exact H].
  apply inv_with_question; [discriminate|].
  apply inv_with_state; [|exact H].
  apply state_ok_case_study; [|apply H].
  destruct (existsb _ _); [apply H; exact Ecs|].
  apply case_study_ok_question; [apply H; exact Eq | apply H; exact Ecs].
Qed.

Lemma inv_finalize_processing g : inv g -> inv (_finalize_processing g).
Proof.
  intros H. unfold _finalize_processing.
  apply inv_store_case_study.
  destruct (current_question g) as [q|] eqn:Eq; [|exact H].
  assert (Hq : well_formed q) by (apply H; exact Eq).
  assert (Hkeep : inv {| current_question := current_question g;
                         case_studies := case_studies g;
                         standalone_questions := standalone_questions g ++ [q];
                         state := state g |}).
  { destruct H as (Hs & Hc & Hcur & Hst).
    split; [|split; [exact Hc | split; [exact Hcur | exact Hst]]].
    apply Forall_app. split; [exact Hs | constructor; [exact Hq | constructor]]. }
  rewrite Eq in Hkeep.
  destruct (current_case_study (state g)) as [cs|] eqn:Ecs; [|exact Hkeep].
  destruct (in_case_study (state g)); [|exact Hkeep].
  apply inv_with_state; [|exact H].
  apply state_ok_case_study; [|apply H].
  apply case_study_ok_question; [exact Hq | apply H; exact Ecs].
Qed.

Lemma state_ok_heading text st : state_ok st -> state_ok (_handle_case_study_heading text st).
Proof.
  intros H. unfold _handle_case_study_heading.
  pose proof (state_ok_finalize_segment st H) as H'.
  destruct (Py.split_once "Segment:" text) as [|? [|? [|? ?]]]; try exact H'.
Qed.

Lemma state_ok_title text st :
  state_ok st -> state_ok (_handle_case_study_heading_title text st).
Proof.
  intros H. unfold _handle_case_study_heading_title.
  destruct (Py.split_once "Title:" text) as [|? [|? [|? ?]]]; exact H.
Qed.

Lemma inv_markers item g g' :
  _handle_case_study_markers item g = Some g' -> inv g -> inv g'.
Proof.
  unfold _handle_case_study_markers. intros E H.
  pose proof (proj2 (proj2 (proj2 H))) as Hst.
  destruct (search no_flags topic_re (content item)) as [m|] eqn:Em.
  { injection E as <-. apply inv_with_state; [|exact H].
    apply state_ok_topic; [|exact Hst].
    right. apply (topic_groups _ _ Em). }
  destruct (Py.contains "TopicName:" (content item)).
  { injection E as <-. apply inv_with_state; [|exact H].
    apply state_ok_topic; [apply Hst | exact Hst]. }
  destruct (Py.contains "CaseStudyStart:" (content item)).
  { injection E as <-. apply inv_with_state; [|exact H]. apply state_ok_start, Hst. }
  destruct (Py.contains "CaseStudyEnd:" (content item)).
  { injection E as <-. apply inv_finalize_case_study, H. }
  destruct (Py.contains "CaseStudyDetailsStart:" (content item)).
  { injection E as <-. apply inv_with_state; [|exact H]. exact Hst. }
  destruct (Py.contains "CaseStudyDetailsEnd:" (content item)).
  { injection E as <-. apply inv_with_state; [|exact H]. exact Hst. }
  destruct (in_case_study_details (state g) && Py.contains "Segment:" (content item)
            && Py.is_some (current_case_study (state g))).
  { injection E as <-. apply inv_with_state; [|exact H]. apply state_ok_heading, Hst. }
  destruct (in_case_study_details (state g) && Py.contains "Title:" (content item)
            && Py.is_some (current_case_study (state g))
            && Py.nonempty (current_segment_name (state g))).
  { injection E as <-. apply inv_with_state; [|exact H]. apply state_ok_title, Hst. }
  destruct (Py.contains "CaseStudyImage:" (content item)); [|discriminate].
  injection E as <-. apply inv_with_state; [|exact H]. exact Hst.
Qed.

Lemma inv_question_markers item g g' :
  _handle_question_markers item g = Some g' -> inv g -> inv g'.
Proof.
  unfold _handle_question_markers. intros E H.
  destruct (has_question_start item) eqn:Hs; [|discriminate].
  injection E as <-. apply inv_with_question.
  - intros q' [= <-]. apply created_well_formed, Hs.
  - apply inv_finalize_current_question, H.
Qed.

Lemma inv_content item g g' :
  _handle_case_study_content item g = Some g' -> inv g -> inv g'.
Proof.
  unfold _handle_case_study_content. intros E H.
  pose proof (proj2 (proj2 (proj2 H))) as Hst.
  destruct (current_case_study (state g)) as [cs|] eqn:Ecs; [|discriminate].
  destruct (next_image_is_case_study (state g) && Py.nonempty_list (images item)).
  { injection E as <-. apply inv_with_state; [|exact H].
    apply state_ok_flags.
    assert (H1 : state_ok (set_case_study (Some (add_images (images item) cs)) (state g))).
    { apply state_ok_case_study; [|exact Hst].
      apply case_study_ok_images, Hst, Ecs. }
    destruct (in_case_study_details _ && Py.nonempty _); [|exact H1].
    apply state_ok_segment, H1. }
  destruct (in_case_study_details (state g)); [|discriminate].
  destruct (Py.nonempty (current_segment_name (state g))).
  - destruct (Py.nonempty (Py.strip (content item))); injection E as <-; [|exact H].
    apply inv_with_state; [|exact H]. exact Hst.
  - destruct (Py.nonempty (Py.strip (content item))); [|discriminate].
    injection E as <-. apply inv_with_state; [|exact H]. exact Hst.
Qed.

Lemma inv_add_item item g : inv g -> inv (_add_item_to_current_question item g).
Proof.
  intros H. unfold _add_item_to_current_question.
  destruct (current_question g) as [q|] eqn:Eq; [|exact H].
  apply inv_with_question; [|exact H].
  intros q' [= <-]. apply extended_well_formed, H, Eq.
Qed.

Lemma inv_step g item : inv g -> inv (_process_single_item g item).
Proof.
  intros H. unfold _process_single_item.
  destruct (_handle_case_study_markers item g) eqn:E1; [exact (inv_markers _ _ _ E1 H)|].
  destruct (_handle_question_markers item g) eqn:E2;
    [exact (inv_question_markers _ _ _ E2 H)|].
  destruct (_handle_case_study_content item g) eqn:E3; [exact (inv_content _ _ _ E3 H)|].
  apply inv_add_item, H.
Qed.

Lemma inv_init : inv init.
Proof.
  split; [constructor | split; [constructor | split; [discriminate | apply state_ok_reset]]].
Qed.

Lemma inv_run_items l : forall g, inv g -> inv (run_items g l).
Proof.
  unfold run_items. induction l as [|item l IH]; intros g H; [exact H|].
  cbn [fold_left]. apply IH, inv_step, H.
Qed.

Lemma inv_result units : inv (_finalize_processing (run_items init units)).
Proof. apply inv_finalize_processing, inv_run_items, inv_init. Qed.

Lemma result_questions units q :
  In q (fst (process_content_items units))
  \/ (exists cs, In cs (snd (process_content_items units)) /\ In q (questions cs)) ->
  well_formed q.
Proof.
  unfold process_content_items. cbn [fst snd].
  destruct (inv_result units) as (Hs & Hc & _ & _).
  intros [Hin | (cs & Hcs & Hin)].
  - rewrite List.Forall_forall in Hs. apply Hs, Hin.
  - rewrite List.Forall_forall in Hc. apply Hc in Hcs. destruct Hcs as (Hqs & _ & _).
    rewrite List.Forall_forall in Hqs. apply Hqs, Hin.
Qed.

Lemma result_case_studies units cs :
  In cs (snd (process_content_items units)) -> case_study_ok cs.
Proof.
  unfold process_content_items. cbn [fst snd].
  destruct (inv_result units) as (_ & Hc & _ & _).
  intros Hin. rewrite List.Forall_forall in Hc. apply Hc, Hin.
Qed.

(** X4.  Every question [process_content_items] returns, standalone or
    inside a case study, starts with a unit that holds a question line; its
    number and type are those read from that unit, its text is the texts of
    its units joined by line feeds, and its images are the images of its
    units in order. *)
Theorem grouped_questions_are_well_formed (units : list ContentItem) (q : Question) :
  In q (fst (process_content_items units))
  \/ (exists cs, In cs (snd (process_content_items units)) /\ In q (questions cs)) ->
  exists first rest,
    content_items q = first :: rest
    /\ has_question_start first = true
    /\ number q = get_question_number (content first)
    /\ q_type q = get_question_type (content first)
    /\ text q = Py.join NL (map content (content_items q))
    /\ q_images q = concat (map images (content_items q)).
Proof. intros H. exact (result_questions units q H). Qed.

Lemma grouped_questions_are_well_formed_witness :
  let q := _create_question_from_item (text_item "QUESTION NO: 7 HOTSPOT") in
  exists first rest,
    content_items q = first :: rest
    /\ has_question_start first = true
    /\ number q = get_question_number (content first)
    /\ q_type q = get_question_type (content first)
    /\ text q = Py.join NL (map content (content_items q))
    /\ q_images q = concat (map images (content_items q)).
Proof.
  cbv zeta.
  apply (grouped_questions_are_well_formed [text_item "QUESTION NO: 7 HOTSPOT"]).
  left. vm_compute. left. reflexivity.
Defined.

(** X5.  Every case study [process_content_items] returns has a topic
    number and a case study number that are both empty or both strings of
    digits, and each of its segments has a name and at least one entry. *)
Theorem grouped_case_studies_are_regular (units : list ContentItem) (cs : CaseStudy) :
  In cs (snd (process_content_items units)) ->
  ((topic_number cs = "" /\ cs_number cs = "")
   \/ (Py.isdigit (topic_number cs) = true /\ Py.isdigit (cs_number cs) = true))
  /\ Forall (fun sg => Py.nonempty (seg_name sg) = true /\ seg_contents sg <> [])
       (segments cs).
Proof.
  intros Hin. destruct (result_case_studies units cs Hin) as (_ & Hn & Hsg).
  split; [exact Hn | exact Hsg].
Qed.

Lemma grouped_case_studies_are_regular_witness :
  let cs := {| topic_number := "2"; cs_number := "1"; topic_name := "";
               segments := []; questions := []; cs_images := [] |} in
  ((topic_number cs = "" /\ cs_number cs = "")
   \/ (Py.isdigit (topic_number cs) = true /\ Py.isdigit (cs_number cs) = true))
  /\ Forall (fun sg => Py.nonempty (seg_name sg) = true /\ seg_contents sg <> [])
       (segments cs).
Proof.
  cbv zeta.
  apply (grouped_case_studies_are_regular
           (map text_item ["Topic 2, Case Study 1"; "CaseStudyStart:"; "CaseStudyEnd:"])).
  vm_compute. left. reflexivity.
Defined.

(** X6.  When no returned case study has an empty topic number, the sort of
    the case studies in [generate_xml_output] raises nothing and returns
    them all: the TypeError of mixed keys needs a case study opened before
    any topic line. *)
Theorem grouped_case_studies_sort (units : list ContentItem) :
  forallb (fun cs => Py.nonempty (topic_number cs)) (snd (process_content_items units))
  = true ->
  exists sorted,
    Output.sort_case_studies (snd (process_content_items units)) = inr sorted
    /\ Permutation (snd (process_content_items units)) sorted.
Proof.
  intros Hne. apply OutputFacts.sort_case_studies_numeric.
  rewrite List.Forall_forall. intros cs Hin.
  rewrite forallb_forall in Hne. specialize (Hne cs Hin).
  destruct (result_case_studies units cs Hin) as (_ & [[Ht _] | Hd] & _).
  - rewrite Ht in Hne. discriminate.
  - exact Hd.
Qed.

Lemma grouped_case_studies_sort_witness :
  exists sorted,
    Output.sort_case_studies
      (snd (process_content_items
              (map text_item ["Topic 2, Case Study 1"; "CaseStudyStart:"; "CaseStudyEnd:";
                              "Topic 1, Case Study 1"; "CaseStudyStart:"; "CaseStudyEnd:"])))
    = inr sorted
    /\ Permutation
         (snd (process_content_items
                 (map text_item ["Topic 2, Case Study 1"; "CaseStudyStart:"; "CaseStudyEnd:";
                                 "Topic 1, Case Study 1"; "CaseStudyStart:"; "CaseStudyEnd:"])))
         sorted.
Proof. apply grouped_case_studies_sort. vm_compute. reflexivity. Defined.

(** X28.  A second [CaseStudyStart:] line while a case study is open
    replaces the open case study by an empty one: the case study that was
    open, with its questions, segments and images, is stored nowhere, and
    the result of the whole run does not depend on it. *)
Theorem nested_start_discards_open_case_study (g : GrouperState) (item : ContentItem) :
  search no_flags topic_re (content item) = None ->
  Py.contains "TopicName:" (content item) = false ->
  Py.contains "CaseStudyStart:" (content item) = true ->
  case_studies (_process_single_item g item) = case_studies g
  /\ standalone_questions (_process_single_item g item) = standalone_questions g
  /\ current_question (_process_single_item g item) = current_question g
  /\ current_case_study (state (_process_single_item g item))
     = Some {| topic_number := st_topic_number (state g);
               cs_number := st_case_study_number (state g);
               topic_name := st_topic_name (state g);
               segments := []; questions := []; cs_images := [] |}
  /\ forall (other : option CaseStudy) (rest : list ContentItem),
       _finalize_processing
         (run_items (with_state (set_case_study other (state g)) g) (item :: rest))
       = _finalize_processing (run_items g (item :: rest)).
Proof.
  intros Ht Hn Hs.
  assert (Hstep : forall g0, _process_single_item g0 item
                             = with_state (start_case_study (state g0)) g0).
  { intros g0. unfold _process_single_item, _handle_case_study_markers.
    rewrite Ht, Hn, Hs. reflexivity. }
  rewrite Hstep. repeat split.
  intros other rest. unfold run_items. cbn [fold_left]. rewrite !Hstep. reflexivity.
Qed.

Lemma nested_start_discards_open_case_study_witness :
  let g := run_items init (map text_item ["CaseStudyStart:"; "QUESTION NO: 1";
                                          "QUESTION NO: 2"]) in
  map (fun cs => length (questions cs))
      (match current_case_study (state g) with Some cs => [cs] | None => [] end) = [1%nat]
  /\ case_studies (_process_single_item g (text_item "CaseStudyStart:")) = case_studies g
  /\ current_case_study (state (_process_single_item g (text_item "CaseStudyStart:")))
     = Some {| topic_number := ""; cs_number := ""; topic_name := "";
               segments := []; questions := []; cs_images := [] |}.
Proof.
  cbv zeta. split; [reflexivity|].
  destruct (nested_start_discards_open_case_study
              (run_items init (map text_item ["CaseStudyStart:"; "QUESTION NO: 1";
                                              "QUESTION NO: 2"]))
              (text_item "CaseStudyStart:") eq_refl eq_refl eq_refl)
    as (H1 & _ & _ & H4 & _).
  split; [exact H1 | exact H4].
Defined.

End GrouperInvariants.

(** ** modules/core/content_processor_base.py: SimpleQuestionGrouper *)

Module SimpleGrouperFacts.
Import SimpleGrouper.

(** The units the grouper holds: those of the stored questions, then those
    of the open one. *)
Definition held (g : State) : list ContentItem :=
  concat (map content_items (questions g))
  ++ match current_question g with Some q => content_items q | None => [] end.

(** The questions the grouper holds, the open one last. *)
Definition all_questions (g : State) : list Question :=
  questions g ++ match current_question g with Some q => [q] | None => [] end.

(** The units from the first question line on. *)
Fixpoint from_first_question (l : list ContentItem) : list ContentItem :=
  match l with
  | [] => []
  | item :: l' => if has_question_start item then l else from_first_question l'
  end.

Lemma step_held_open g q item :
  current_question g = Some q ->
  held (step g item) = held g ++ [item]
  /\ exists q', current_question (step g item) = Some q'.
Proof.
  intros Hq. unfold step, held, _add_item_to_current_question, _finalize_current_question.
  rewrite Hq. destruct (has_question_start item); cbn.
  - split; [|eauto]. rewrite map_app, concat_app. cbn. rewrite app_nil_r. reflexivity.
  - split; [|eauto]. rewrite app_assoc. reflexivity.
Qed.

Lemma fold_held_open l :
  forall g q, current_question g = Some q ->
    held (fold_left step l g) = held g ++ l.
Proof.
  induction l as [|item l IH]; intros g q Hq; cbn [fold_left].
  - rewrite app_nil_r. reflexivity.
  - destruct (step_held_open g q item Hq) as [Hheld [q' Hq']].
    rewrite (IH _ _ Hq'), Hheld, <- app_assoc. reflexivity.
Qed.

Lemma fold_held_closed l :
  forall g, current_question g = None ->
    held (fold_left step l g) = held g ++ from_first_question l.
Proof.
  induction l as [|item l IH]; intros g Hq; cbn [fold_left from_first_question].
  - rewrite app_nil_r. reflexivity.
  - destruct (has_question_start item) eqn:Hs.
    + assert (Hstep : step g item
                      = {| current_question := Some (Grouper._create_question_from_item item);
                           questions := questions g |}).
      { unfold step, _finalize_current_question. rewrite Hs, Hq. reflexivity. }
      rewrite (fold_held_open l _ _ (f_equal current_question Hstep
                 : current_question (step g item) = Some _)).
      rewrite Hstep. unfold held. cbn. rewrite Hq, app_nil_r, <- app_assoc. reflexivity.
    + assert (Hstep : step g item = g).
      { unfold step. rewrite Hs, Hq. reflexivity. }
      rewrite Hstep. apply IH. exact Hq.
Qed.

Lemma held_finalize g :
  concat (map content_items (questions (_finalize_current_question g))) = held g.
Proof.
  unfold _finalize_current_question, held. destruct (current_question g) as [q|]; cbn.
  - rewrite map_app, concat_app. cbn. rewrite app_nil_r. reflexivity.
  - rewrite app_nil_r. reflexivity.
Qed.

Lemma all_questions_finalize g :
  questions (_finalize_current_question g) = all_questions g.
Proof.
  unfold _finalize_current_question, all_questions.
  destruct (current_question g); cbn; [reflexivity | rewrite app_nil_r; reflexivity].
Qed.

Lemma step_count g item :
  length (all_questions (step g item))
  = (length (all_questions g) + if has_question_start item then 1 else 0)%nat.
Proof.
  unfold step, all_questions, _add_item_to_current_question, _finalize_current_question.
  destruct (has_question_start item), (current_question g) eqn:E; cbn;
    rewrite ?E, ?length_app; cbn; lia.
Qed.

Lemma fold_count l :
  forall g, length (all_questions (fold_left step l g))
            = (length (all_questions g) + length (List.filter has_question_start l))%nat.
Proof.
  induction l as [|item l IH]; intros g; cbn [fold_left List.filter]; [cbn [length]; lia|].
  rewrite IH, step_count. destruct (has_question_start item); cbn [length]; lia.
Qed.

Definition all_well_formed (g : State) : Prop :=
  Forall GrouperInvariants.well_formed (all_questions g).

Lemma step_well_formed g item : all_well_formed g -> all_well_formed (step g item).
Proof.
  unfold all_well_formed, all_questions, step, _finalize_current_question,
    _add_item_to_current_question.
  intros H. destruct (has_question_start item) eqn:Hs.
  - cbn [questions current_question].
    apply Forall_app. split.
    + destruct (current_question g); cbn [questions]; [exact H|].
      rewrite app_nil_r in H. exact H.
    + constructor; [apply GrouperInvariants.created_well_formed, Hs | constructor].
  - destruct (current_question g) as [q|] eqn:E; [|rewrite E; exact H].
    cbn [questions current_question].
    apply Forall_app in H. destruct H as [H1 H2]. apply Forall_app. split; [exact H1|].
    inversion H2 as [|? ? Hq _]; subst.
    constructor; [apply GrouperInvariants.extended_well_formed, Hq | constructor].
Qed.

Lemma fold_well_formed l :
  forall g, all_well_formed g -> all_well_formed (fold_left step l g).
Proof.
  induction l as [|item l IH]; intros g H; [exact H|].
  cbn [fold_left]. apply IH, step_well_formed, H.
Qed.

(** X3.  [SimpleQuestionGrouper.process_content_items] returns one question
    for each unit with a question line, and the units of the questions, read
    in order, are the units of the input from the first question line on:
    what precedes that line is dropped, and nothing after it is lost,
    repeated or reordered.  Every question starts with its question line,
    which gives its number and type, and its text and images are those of
    its units. *)
Theorem simple_grouper_keeps_units (units : list ContentItem) :
  length (process_content_items units) = length (List.filter has_question_start units)
  /\ concat (map content_items (process_content_items units))
     = from_first_question units
  /\ Forall (fun q =>
               exists first rest,
                 content_items q = first :: rest
                 /\ has_question_start first = true
                 /\ number q = TextHelpers.get_question_number (content first)
                 /\ q_type q = TextHelpers.get_question_type (content first)
                 /\ text q = Py.join TextHelpers.NL (map content (content_items q))
                 /\ q_images q = concat (map images (content_items q)))
       (process_content_items units).
Proof.
  unfold process_content_items. split; [|split].
  - rewrite all_questions_finalize, fold_count. reflexivity.
  - rewrite held_finalize. rewrite fold_held_closed by reflexivity. reflexivity.
  - rewrite all_questions_finalize. apply (fold_well_formed units init). constructor.
Qed.

End SimpleGrouperFacts.

(** ** modules/image_processing/image_validation.py: the whole batch *)

Module ValidationBatch.
Import Validation ValidationFacts.

(** The verdict and the messages of one question on its own. *)
Definition verdict (q : Question) : bool := fst (validate_question_images [q]).
Definition messages (q : Question) : list string := snd (validate_question_images [q]).

Lemma validate_cons q qs :
  validate_question_images (q :: qs)
  = (verdict q && fst (validate_question_images qs),
     messages q ++ snd (validate_question_images qs)).
Proof. exact (validate_app [q] qs). Qed.

Lemma require_verdict key markers msg (valid : bool) (errs : list string) :
  (valid = true <-> errs = []) ->
  (fst (require key markers msg (valid, errs)) = true
   <-> snd (require key markers msg (valid, errs)) = []).
Proof.
  intros H. unfold require. destruct (bool_decide (key ∈ markers)); [exact H|].
  cbn. split; [discriminate|]. intros E. destruct errs; discriminate.
Qed.

Lemma require_pair key markers msg (acc : bool * list string) :
  (fst acc = true <-> snd acc = []) ->
  (fst (require key markers msg acc) = true <-> snd (require key markers msg acc) = []).
Proof. destruct acc as [valid errs]. apply require_verdict. Qed.

Lemma verdict_messages q : verdict q = true <-> messages q = [].
Proof.
  unfold verdict, messages, validate_question_images, validate_from.
  cbn [fold_left]. unfold validate_one.
  assert (H0 : fst (true, @nil string) = true <-> snd (true, @nil string) = [])
    by (split; reflexivity).
  repeat (destruct (String.eqb (q_type q) _);
          [apply require_pair, require_pair, H0|]).
  exact H0.
Qed.

Lemma validate_batch (qs : list Question) :
  validate_question_images qs
  = (forallb (fun q => fst (validate_question_images [q])) qs,
     concat (map (fun q => snd (validate_question_images [q])) qs))
  /\ (fst (validate_question_images qs) = true <-> snd (validate_question_images qs) = []).
Proof.
  induction qs as [|q qs [IH1 IH2]]; [split; [reflexivity | split; reflexivity]|].
  rewrite validate_cons. cbn [forallb map concat fst snd]. split.
  - rewrite IH1 at 1 2. reflexivity.
  - fold (verdict q) (messages q). rewrite andb_true_iff, IH2, verdict_messages.
    split.
    + intros [-> ->]. reflexivity.
    + intros H. apply app_eq_nil in H. exact H.
Qed.

(** X7.  [validate_question_images] judges each question on its own and
    stops at none: the verdict is the conjunction of the verdicts of the
    questions, the messages are those of the questions in their order, and
    the verdict is [True] exactly when there is no message. *)
Theorem validation_is_per_question (qs : list Question) :
  validate_question_images qs
  = (forallb (fun q => fst (validate_question_images [q])) qs,
     concat (map (fun q => snd (validate_question_images [q])) qs))
  /\ (fst (validate_question_images qs) = true <-> snd (validate_question_images qs) = []).
Proof. exact (validate_batch qs). Qed.

(** X8.  A question of type POSITIONEDDROPDOWN that has the positioned
    image marker but no background image marker is rejected with a message
    that names the positioned image, the marker it has, as missing. *)
Theorem positioned_dropdown_message_names_wrong_marker (q : Question) :
  q_type q = "POSITIONEDDROPDOWN" ->
  Py.contains "PositionedImage:" (text q) = true ->
  Py.contains "BackgroundImage:" (text q) = false ->
  (forall item, In item (content_items q) ->
                Py.contains "BackgroundImage:" (content item) = false) ->
  validate_question_images [q]
  = (false, ["Question " +:+ fmt_number (number q)
             +:+ " (POSITIONEDDROPDOWN) - Missing PositionedImage"]).
Proof.
  intros Ht Hpos Hbg Hitems.
  assert (Hin : "PositionedImage" ∈ image_markers q).
  { apply elem_of_image_markers. left. unfold marks. auto 10. }
  assert (Hout : "BackgroundImage" ∉ image_markers q).
  { rewrite elem_of_image_markers. unfold marks.
    intros [H | (item & Hitem & H)].
    - destruct H as [[E _]|[[E _]|[[E _]|[[E _]|[_ H]]]]]; try discriminate E. congruence.
    - specialize (Hitems item Hitem).
      destruct H as [[E _]|[[E _]|[[E _]|[[E _]|[_ H]]]]]; try discriminate E. congruence. }
  unfold validate_question_images, validate_from. cbn [fold_left].
  unfold validate_one. rewrite Ht. cbn [String.eqb Ascii.eqb Bool.eqb].
  unfold require.
  rewrite (bool_decide_eq_false_2 _ Hout), (bool_decide_eq_true_2 _ Hin).
  reflexivity.
Qed.

Lemma positioned_dropdown_message_names_wrong_marker_witness :
  let q := {| number := Some "9"; q_type := "POSITIONEDDROPDOWN";
              content_items := [text_item "QUESTION NO: 9 POSITIONEDDROPDOWN";
                                text_item "PositionedImage:"];
              text := "QUESTION NO: 9 POSITIONEDDROPDOWN" +:+ TextHelpers.NL
                      +:+ "PositionedImage:";
              q_images := [] |} in
  validate_question_images [q]
  = (false, ["Question 9 (POSITIONEDDROPDOWN) - Missing PositionedImage"]).
Proof.
  cbv zeta.
  apply (positioned_dropdown_message_names_wrong_marker
           {| number := Some "9"; q_type := "POSITIONEDDROPDOWN";
              content_items := [text_item "QUESTION NO: 9 POSITIONEDDROPDOWN";
                                text_item "PositionedImage:"];
              text := "QUESTION NO: 9 POSITIONEDDROPDOWN" +:+ TextHelpers.NL
                      +:+ "PositionedImage:";
              q_images := [] |}).
  - reflexivity.
  - vm_compute. reflexivity.
  - vm_compute. reflexivity.
  - intros item [<- | [<- | []]]; vm_compute; reflexivity.
Defined.

Lemma validate_case_study_acc (valid : bool) (errs : list string) cs :
  validate_case_study (valid, errs) cs
  = (valid && fst (validate_question_images (questions cs)),
     errs ++ snd (validate_case_study (true, []) cs)).
Proof.
  unfold validate_case_study.
  destruct (validate_question_images (questions cs)) as [v e]. cbn [fst snd].
  destruct v; cbn [snd app].
  - rewrite andb_true_r, app_nil_r. reflexivity.
  - rewrite andb_false_r. reflexivity.
Qed.

Lemma validate_case_studies_fold css :
  forall valid errs,
    fst (fold_left validate_case_study css (valid, errs))
    = valid && forallb (fun cs => fst (validate_question_images (questions cs))) css.
Proof.
  induction css as [|cs css IH]; intros valid errs; cbn [fold_left forallb].
  - rewrite andb_true_r. reflexivity.
  - rewrite validate_case_study_acc, IH, andb_assoc. reflexivity.
Qed.

(** X9.  [validate_case_study_questions] accepts the case studies exactly
    when every question of every case study is accepted on its own. *)
Theorem case_studies_valid_iff_each_question (case_studies : list CaseStudy) :
  fst (validate_case_study_questions case_studies) = true
  <-> forall cs q, In cs case_studies -> In q (questions cs) ->
        fst (validate_question_images [q]) = true.
Proof.
  unfold validate_case_study_questions.
  rewrite validate_case_studies_fold. cbn [andb].
  rewrite forallb_forall. split.
  - intros H cs q Hcs Hq. specialize (H cs Hcs).
    destruct (validate_batch (questions cs)) as [E _]. rewrite E in H.
    cbn [fst] in H. rewrite forallb_forall in H. apply H, Hq.
  - intros H cs Hcs.
    destruct (validate_batch (questions cs)) as [E _]. rewrite E.
    cbn [fst]. rewrite forallb_forall. intros q Hq. apply (H cs q Hcs Hq).
Qed.

End ValidationBatch.

(** ** modules/image_processing/image_processor.py: the roles recorded *)

Module ImageRoles.
Import ImageTypes ImageTypesFacts.

(** The seven roles. *)
Definition roles : list string :=
  [ "question"; "answer"; "description"; "justdropdown"; "positioned"; "background";
    "just_coordinates" ].

Lemma marker_type_role x r : marker_type x = Some r -> In r roles.
Proof.
  unfold marker_type.
  repeat (destruct (Py.contains _ x); [intros [= <-]; vm_compute; tauto|]).
  discriminate.
Qed.

(** What holds of the map and of the role in force while the units [seen]
    have been read. *)
Definition recorded (seen : list ContentItem) (acc : gmap string string * option string)
    : Prop :=
  (forall p r, fst acc !! p = Some r ->
     In r roles
     /\ exists item img, In item seen /\ In img (images item) /\ img_path img = p)
  /\ (forall r, snd acc = Some r -> In r roles).

Lemma assign_lookup t imgs (m : gmap string string) p r :
  assign t imgs m !! p = Some r ->
  (r = t /\ exists img, In img imgs /\ img_path img = p) \/ m !! p = Some r.
Proof.
  unfold assign. revert m.
  induction imgs as [|img imgs IH]; intros m H; cbn [fold_left] in H; [right; exact H|].
  apply IH in H. destruct H as [(-> & img' & Hin & Hp) | H].
  - left. split; [reflexivity|]. exists img'. split; [right; exact Hin | exact Hp].
  - destruct (decide (img_path img = p)) as [E|E].
    + rewrite E, lookup_insert_eq in H. injection H as <-.
      left. split; [reflexivity|]. exists img. split; [left; reflexivity | exact E].
    + rewrite lookup_insert_ne in H by exact E. right. exact H.
Qed.

Lemma recorded_step seen acc item :
  recorded seen acc -> recorded (seen ++ [item]) (step acc item).
Proof.
  intros [Hmap Hrole]. unfold step, next_type.
  assert (Hold : forall p r, fst acc !! p = Some r ->
            In r roles
            /\ exists it img, In it (seen ++ [item]) /\ In img (images it) /\ img_path img = p).
  { intros p r H. destruct (Hmap p r H) as (Hr & it & img & Hit & Himg & Hp).
    split; [exact Hr|]. exists it, img. rewrite in_app_iff. auto. }
  assert (Hnew : forall t, In t roles ->
            recorded (seen ++ [item]) (assign t (images item) (fst acc), Some t)).
  { intros t Ht. split; cbn [fst snd].
    - intros p r H. apply assign_lookup in H.
      destruct H as [(-> & img & Himg & Hp) | H]; [|apply Hold, H].
      split; [exact Ht|]. exists item, img. rewrite in_app_iff. cbn [In]. auto.
    - intros r [= <-]. exact Ht. }
  destruct (marker_type (Py.strip (content item))) as [t|] eqn:Em.
  - apply Hnew. apply (marker_type_role _ _ Em).
  - destruct (snd acc) as [t|] eqn:Es.
    + apply Hnew. apply Hrole. reflexivity.
    + split; cbn [fst snd]; [exact Hold | discriminate].
Qed.

Lemma recorded_scan l :
  forall seen acc, recorded seen acc -> recorded (seen ++ l) (scan l acc).
Proof.
  unfold scan. induction l as [|item l IH]; intros seen acc H; cbn [fold_left].
  - rewrite app_nil_r. exact H.
  - replace (seen ++ item :: l) with ((seen ++ [item]) ++ l)
      by (rewrite <- app_assoc; reflexivity).
    apply IH, recorded_step, H.
Qed.

Lemma recorded_result units : recorded units (scan units (∅, None)).
Proof.
  apply (recorded_scan units [] (∅, None)). split; cbn [fst snd].
  - intros p r H. rewrite lookup_empty in H. discriminate.
  - discriminate.
Qed.

(** X10.  [identify_image_types] records roles of the seven known names
    only, and only for paths of images that occur in the units it was
    given; the role [_add_sequential_content] reads for an image is then
    one of the seven as well. *)
Theorem recorded_roles_are_known (units : list ContentItem) (p r : string) (img : Image) :
  (identify_image_types units !! p = Some r ->
   In r roles
   /\ exists item img', In item units /\ In img' (images item) /\ img_path img' = p)
  /\ In (consumed_type (identify_image_types units) img) roles.
Proof.
  unfold identify_image_types. destruct (recorded_result units) as [Hmap _]. split.
  - apply Hmap.
  - unfold consumed_type.
    destruct (fst (scan units (∅, None)) !! img_path img) as [t|] eqn:E; cbn [default].
    + apply (Hmap _ _ E).
    + vm_compute. tauto.
Qed.

End ImageRoles.

(** ** modules/image_processing: the retry loop and the statements read *)

Module VisionFacts.
Import Vision.

Section Retry.
Variable gemini : nat -> string -> option string -> option string.

Lemma attempts_spec prompt image n :
  forall wd,
    match attempts gemini n prompt image wd with
    | (Some r, wd') =>
        exists k raw,
          (k < n)%nat /\ wd' = (wd + S k)%nat
          /\ (forall j, (j < k)%nat -> gemini (wd + j)%nat prompt image = None)
          /\ gemini (wd + k)%nat prompt image = Some raw /\ r = Py.strip raw
    | (None, wd') =>
        wd' = (wd + n)%nat
        /\ forall j, (j < n)%nat -> gemini (wd + j)%nat prompt image = None
    end.
Proof.
  induction n as [|n IH]; intros wd; cbn [attempts].
  - split; [lia | intros j Hj; lia].
  - destruct (gemini wd prompt image) as [raw|] eqn:E.
    + exists 0%nat, raw. rewrite Nat.add_0_r.
      split; [lia | split; [lia | split; [intros j Hj; lia | split; [exact E | reflexivity]]]].
    + specialize (IH (S wd)).
      destruct (attempts gemini n prompt image (S wd)) as [[r|] wd'].
      * destruct IH as (k & raw & Hk & -> & Hbefore & Hat & ->).
        exists (S k), raw. repeat split; try lia.
        -- intros j Hj. destruct j as [|j]; [rewrite Nat.add_0_r; exact E|].
           replace (wd + S j)%nat with (S wd + j)%nat by lia. apply Hbefore. lia.
        -- replace (wd + S k)%nat with (S wd + k)%nat by lia. exact Hat.
      * destruct IH as (-> & Hall). split; [lia|].
        intros j Hj. destruct j as [|j]; [rewrite Nat.add_0_r; exact E|].
        replace (wd + S j)%nat with (S wd + j)%nat by lia. apply Hall. lia.
Qed.

Lemma call_spec (prompt image_data : string) (wd : World) :
  let image := if Py.nonempty image_data then Some image_data else None in
  exists n r,
    call_gemini_with_retry gemini prompt image_data wd = (inr r, (wd + n)%nat)
    /\ (1 <= n <= MAX_API_RETRIES)%nat
    /\ (forall j, (j < n - 1)%nat -> gemini (wd + j)%nat prompt image = None)
    /\ ((exists raw, gemini (wd + (n - 1))%nat prompt image = Some raw /\ r = Py.strip raw)
        \/ (n = MAX_API_RETRIES
            /\ gemini (wd + (n - 1))%nat prompt image = None
            /\ r = if Py.contains "JSON" prompt then "[]" else "")).
Proof.
  intros image. unfold call_gemini_with_retry. fold image.
  pose proof (attempts_spec prompt image MAX_API_RETRIES wd) as H.
  destruct (attempts gemini MAX_API_RETRIES prompt image wd) as [[r|] wd'].
  - destruct H as (k & raw & Hk & -> & Hbefore & Hat & ->).
    exists (S k), (Py.strip raw). repeat split; try lia.
    + intros j Hj. apply Hbefore. lia.
    + left. exists raw. replace (S k - 1)%nat with k by lia. split; [exact Hat | reflexivity].
  - destruct H as (-> & Hall).
    exists MAX_API_RETRIES, (default_response prompt). unfold MAX_API_RETRIES in *.
    repeat split; try lia.
    + intros j Hj. apply Hall. lia.
    + right. repeat split. apply Hall. lia.
Qed.

(** X11.  [call_gemini_with_retry] never raises and makes between one and
    three attempts: it stops at the first attempt that succeeds and returns
    its answer stripped; when all three fail it returns the default, [[]]
    for a prompt that mentions JSON and the empty string otherwise. *)
Theorem retry_stops_at_first_success (prompt image_data : string) (wd : World) :
  let image := if Py.nonempty image_data then Some image_data else None in
  exists n r,
    call_gemini_with_retry gemini prompt image_data wd = (inr r, (wd + n)%nat)
    /\ (1 <= n <= MAX_API_RETRIES)%nat
    /\ (forall j, (j < n - 1)%nat -> gemini (wd + j)%nat prompt image = None)
    /\ ((exists raw, gemini (wd + (n - 1))%nat prompt image = Some raw /\ r = Py.strip raw)
        \/ (n = MAX_API_RETRIES
            /\ gemini (wd + (n - 1))%nat prompt image = None
            /\ r = if Py.contains "JSON" prompt then "[]" else "")).
Proof. exact (call_spec prompt image_data wd). Qed.

Variable json_loads : string -> option pyval.

(** The call returns a value after at least one attempt and at most
    [bound] attempts. *)
Definition returns {A} (m : M A) (wd : World) (bound : nat) (P : A -> Prop) : Prop :=
  exists v wd', m wd = (inr v, wd') /\ (wd < wd' <= wd + bound)%nat /\ P v.

Lemma call_returns prompt image_data wd :
  exists r wd',
    call_gemini_with_retry gemini prompt image_data wd = (inr r, wd')
    /\ (wd < wd' <= wd + 3)%nat.
Proof.
  destruct (call_spec prompt image_data wd) as (n & r & E & Hn & _).
  unfold MAX_API_RETRIES in Hn. exists r, (wd + n)%nat. split; [exact E | lia].
Qed.

Lemma after_call {A} prompt image_data (f : string -> A) (P : A -> Prop) wd :
  (forall r, P (f r)) ->
  returns (bind (call_gemini_with_retry gemini prompt image_data) (fun r => ret (f r)))
    wd 3 P.
Proof.
  intros HP. destruct (call_returns prompt image_data wd) as (r & wd' & E & Hwd).
  exists (f r), wd'. unfold bind, ret. rewrite E. repeat split; try lia. apply HP.
Qed.

(** X23.  None of the functions that read an image raises, whatever the
    service answers and whatever [json.loads] makes of the answer: each
    returns after one to three attempts ([extract_dropdown_answers] after
    one to six), and [extract_columns_dynamic] always returns a dictionary
    with the key [columns]. *)
Theorem image_readers_never_raise (data : string) (just : bool) (wd : World) :
  returns (extract_text_from_image gemini data) wd 3 (fun _ => True)
  /\ returns (extract_answers_from_image gemini json_loads data) wd 3 (fun _ => True)
  /\ returns (extract_columns_dynamic gemini json_loads data) wd 3
       (fun v => exists d c, v = VDict d /\ Dyn.lookup "columns" d = Some c)
  /\ returns (extract_pairs_dynamic gemini json_loads data) wd 3 (fun _ => True)
  /\ returns (extract_just_dropdown_options gemini json_loads data) wd 3 (fun _ => True)
  /\ returns (extract_dropdown_questions gemini json_loads data just) wd 3 (fun _ => True)
  /\ returns (extract_dropdown_answers gemini json_loads data) wd 6 (fun _ => True).
Proof.
  repeat split.
  - destruct (call_returns extract_text_from_image_prompt data wd) as (r & wd' & E & Hwd).
    exists r, wd'. unfold extract_text_from_image. rewrite E. repeat split; lia.
  - apply after_call. intros r. exact I.
  - apply after_call. intros r.
    destruct (json_loads (strip_fence r)) as [[| | | | | |d]|]; try (do 2 eexists; split; reflexivity).
    destruct (Dyn.lookup "columns" d) as [c|] eqn:E; do 2 eexists; split; try reflexivity.
    exact E.
  - apply after_call. intros r. exact I.
  - apply after_call. intros r. exact I.
  - unfold extract_dropdown_questions. destruct just; apply after_call; intros r; exact I.
  - destruct (call_returns extract_dropdown_answers_prompt data wd) as (r & w1 & E & Hw1).
    unfold returns, extract_dropdown_answers, bind. rewrite E.
    destruct (json_loads (bracket_slice (strip_fence r))) as [v|].
    + exists v, w1. unfold ret. repeat split; lia.
    + destruct (call_returns extract_text_from_image_prompt data w1) as (r2 & w2 & E2 & Hw2).
      unfold extract_text_from_image. rewrite E2. unfold ret.
      eexists _, w2. repeat split; lia.
Qed.

End Retry.

Lemma In_filter_stdpp {A} (P : A -> bool) (l : list A) x :
  In x (filter P l) -> P x = true /\ In x l.
Proof.
  intros H. apply list_elem_of_In in H. apply list_elem_of_filter in H.
  destruct H as [HP Hin]. apply list_elem_of_In in Hin.
  split; [|exact Hin]. destruct (P x); [reflexivity | contradiction].
Qed.

(** X12.  Every statement [parse_question_options] returns is longer than
    twenty characters and carries the two options Yes and No: a shorter
    statement read from the image is never offered for matching. *)
Theorem parsed_statements_are_long (extracted_text : string) (o : string * list string) :
  In o (parse_question_options extracted_text) ->
  (20 < String.length (fst o))%nat /\ snd o = ["Yes"; "No"].
Proof.
  unfold parse_question_options. intros H. apply in_map_iff in H.
  destruct H as (stmt & <- & Hin). apply In_filter_stdpp in Hin.
  destruct Hin as [Hlen _]. cbn [fst snd]. split; [|reflexivity].
  apply Nat.ltb_lt. exact Hlen.
Qed.

Lemma parsed_statements_are_long_witness :
  (20 < String.length "The sky is blue on a clear day")%nat
  /\ ["Yes"; "No"] = ["Yes"; "No"].
Proof.
  apply (parsed_statements_are_long
           ("Statement" +:+ TextHelpers.NL +:+ "Yes" +:+ TextHelpers.NL +:+ "No"
            +:+ TextHelpers.NL +:+ "The sky is blue on a clear day" +:+ TextHelpers.NL
            +:+ "Too short")
           ("The sky is blue on a clear day", ["Yes"; "No"])).
  vm_compute. left. reflexivity.
Defined.

End VisionFacts.

(** ** modules/questions: what every batch and every node satisfies *)

Module BuilderFacts.
Import Questions QuestionsFacts TextHelpers.

Lemma in_list_iff x l : in_list x l = true <-> In x l.
Proof.
  unfold in_list. rewrite existsb_exists. split.
  - intros (y & Hy & E). apply String.eqb_eq in E. subst y. exact Hy.
  - intros H. exists x. split; [exact H | apply String.eqb_refl].
Qed.

Lemma dedup_spec l :
  forall seen,
    List.NoDup (dedup seen l)
    /\ (forall x, In x (dedup seen l) <-> In x l /\ ~ In x seen).
Proof.
  induction l as [|a l IH]; intros seen; cbn [dedup].
  - split; [constructor | intros x; cbn [In]; tauto].
  - destruct (in_list a seen) eqn:E.
    + apply in_list_iff in E. destruct (IH seen) as [Hnd Hin]. split; [exact Hnd|].
      intros x. rewrite Hin. cbn [In]. split; [tauto|].
      intros [[<- | Hx] Hns]; [contradiction | tauto].
    + assert (Hna : ~ In a seen).
      { intros H. apply in_list_iff in H. congruence. }
      destruct (IH (a :: seen)) as [Hnd Hin]. split.
      * constructor; [|exact Hnd]. rewrite Hin. cbn [In]. tauto.
      * intros x. cbn [In]. rewrite Hin. cbn [In].
        destruct (string_dec a x) as [<- | Hne]; tauto.
Qed.

(** X13.  The reference links of a question and the letters of the correct
    answers of a text-based question hold no value twice, and every link
    found in the texts is among the references. *)
Theorem references_and_answers_are_distinct (q : Question) (link : string) :
  List.NoDup (_extract_references q)
  /\ List.NoDup (snd (_extract_text_options q))
  /\ (In link (_extract_references q)
      <-> exists p, In p [url_https; url_http; url_malformed; url_www]
                    /\ In link
                         (Re.findall Re.no_flags p
                            (fold_left (fun acc item =>
                                          if Py.nonempty (Py.strip (content item))
                                          then acc +:+ " " +:+ content item else acc)
                                       (content_items q) (text q)))).
Proof.
  split; [apply dedup_spec|]. split.
  - unfold _extract_text_options.
    destruct (extract_options_from_text (text q) (q_type q)) as [[o a] t].
    destruct o; destruct (content_items q); cbn [snd]; apply dedup_spec.
  - unfold _extract_references.
    match goal with |- In link (dedup [] ?l) <-> _ =>
      rewrite (proj2 (dedup_spec l []) link) end.
    rewrite in_concat. split.
    + intros [(l & Hl & Hin) _]. apply in_map_iff in Hl.
      destruct Hl as (p & <- & Hp). exists p. split; assumption.
    + intros (p & Hp & Hin). split; [|intros []].
      eexists. split; [apply in_map_iff; exists p; split; [reflexivity | exact Hp]|].
      exact Hin.
Qed.

Lemma contents_of_item q image_types item :
  Forall (fun e => tag_of e = "Contents") (item_content q image_types item).
Proof.
  unfold item_content. apply Forall_app. split.
  - destruct (Py.nonempty (Py.strip (content item))); [|constructor].
    destruct (Py.nonempty _); [repeat constructor | constructor].
  - induction (images item) as [|img imgs IH]; [constructor|].
    cbn [map concat]. apply Forall_app. split; [|exact IH].
    destruct (String.eqb _ "description"); [repeat constructor|].
    destruct (String.eqb _ "background"); [repeat constructor | constructor].
Qed.

Lemma sequential_contents_aux (cls : QuestionClass) (q : Question) :
  Forall (fun e => tag_of e = "Contents") (_add_sequential_content cls q).
Proof.
  unfold _add_sequential_content.
  destruct (content_items q) as [|item items] eqn:E.
  - apply Forall_app. split.
    + unfold _add_description_contents.
      induction (filter Py.nonempty _) as [|x l IH]; constructor; [reflexivity | exact IH].
    + unfold _add_description_images.
      induction (_get_description_images q) as [|x l IH]; constructor;
        [reflexivity | exact IH].
  - clear E. induction (item :: items) as [|it its IH]; [constructor|].
    cbn [map concat]. apply Forall_app. split; [apply contents_of_item | exact IH].
Qed.

(** X14.  Every node [_add_sequential_content] adds is a [Contents] node,
    whatever the class and the question. *)
Theorem sequential_content_is_contents (cls : QuestionClass) (q : Question) :
  Forall (fun e => tag_of e = "Contents") (_add_sequential_content cls q).
Proof. apply sequential_contents_aux. Qed.

Section WithServices.
Variable gemini : nat -> string -> option string -> option string.
Variable json_loads : string -> option pyval.
Variable str_compound : pyval -> string.
Variable other_elements : QuestionClass -> Question -> M (list Element).

Local Abbreviation process_questions :=
  (process_questions gemini json_loads str_compound other_elements).
Local Abbreviation process_one :=
  (process_one gemini json_loads str_compound other_elements).
Local Abbreviation build_xml := (build_xml gemini json_loads str_compound other_elements).

Lemma build_xml_tag q wd el wd' :
  build_xml q wd = (inr el, wd') -> tag_of el = "Question".
Proof.
  unfold Questions.build_xml, bind, ret.
  destruct (_add_question_specific_elements _ _ _ _ _ q wd) as [[e|specific] w];
    [discriminate|].
  intros [= <- _]. reflexivity.
Qed.

Lemma process_one_shape q wd :
  exists r wd',
    process_one q wd = (inr r, wd')
    /\ p_number r = number q /\ p_type r = updated_type q
    /\ tag_of (element r) = "Question".
Proof.
  destruct (build_xml (with_type (updated_type q) q) wd) as [out wd'] eqn:E.
  exists (entry q out), wd'. split; [apply process_one_entry; exact E|].
  destruct out as [e|el]; cbn; repeat split.
  apply (build_xml_tag _ _ _ _ E).
Qed.

Lemma process_questions_shape qs :
  forall wd,
    exists rs wd',
      process_questions qs wd = (inr rs, wd')
      /\ map p_number rs = map number qs
      /\ map p_type rs = map updated_type qs
      /\ Forall (fun r => tag_of (element r) = "Question") rs.
Proof.
  induction qs as [|q qs IH]; intros wd.
  - exists [], wd. repeat split. constructor.
  - destruct (process_one_shape q wd) as (r & w1 & E1 & Hn & Ht & Htag).
    destruct (IH w1) as (rs & w2 & E2 & Hns & Hts & Htags).
    exists (r :: rs), w2. cbn [Questions.process_questions]. unfold bind, ret.
    rewrite E1, E2. cbn [map]. rewrite Hn, Ht, Hns, Hts.
    repeat split. constructor; assumption.
Qed.

(** X15.  [process_questions] never raises, whatever the service answers
    and whatever the builders raise: it returns one entry for each
    question, in the order of the questions, with the number of the
    question and its type after the update for choice questions, and every
    entry holds a [Question] node. *)
Theorem process_questions_keeps_every_question (qs : list Question) (wd : World) :
  exists rs wd',
    process_questions qs wd = (inr rs, wd')
    /\ map p_number rs = map number qs
    /\ map p_type rs = map updated_type qs
    /\ Forall (fun r => tag_of (element r) = "Question") rs.
Proof. apply process_questions_shape. Qed.

Lemma choice_class q :
  q_type q = "SingleChoice" \/ q_type q = "MultipleChoice" ->
  create_question (with_type (updated_type q) q) = TextBasedQuestion.
Proof.
  intros Hq. unfold create_question. cbn [q_type with_type].
  destruct (updated_type_cases q) as [-> | [_ ->]]; [|reflexivity].
  destruct Hq as [-> | ->]; reflexivity.
Qed.

Lemma text_based_one q wd :
  q_type q = "SingleChoice" \/ q_type q = "MultipleChoice" ->
  exists r, process_one q wd = (inr r, wd) /\ children_of (element r) <> []
            /\ findall_tag "Error" (element r) = [].
Proof.
  intros Hq. pose proof (choice_class q Hq) as Hc.
  set (q' := with_type (updated_type q) q) in *.
  assert (E : build_xml q' wd
              = (inr (node "Question"
                        (_add_basic_elements TextBasedQuestion q'
                         ++ _add_sequential_content TextBasedQuestion q'
                         ++ text_based_elements q' ++ [leaf "Id" ""]
                         ++ _add_explanation q')), wd)).
  { unfold Questions.build_xml. rewrite Hc. reflexivity. }
  eexists. split; [apply process_one_entry; exact E|].
  cbn [entry element children_of node]. split; [discriminate|].
  unfold findall_tag. cbn [children_of node].
  assert (Hnone : forall l, Forall (fun e => tag_of e <> "Error") l ->
            filter (fun c => String.eqb (tag_of c) "Error") l = []).
  { induction 1 as [|e l He _ IH]; [reflexivity|].
    rewrite filter_cons_False; [exact IH|].
    apply String.eqb_neq in He. rewrite He. intros []. }
  apply Hnone. repeat (apply Forall_app; split).
  - repeat constructor; discriminate.
  - eapply List.Forall_impl; [|apply sequential_contents_aux].
    intros e ->. discriminate.
  - unfold text_based_elements. destruct (_extract_text_options q') as [o a].
    unfold _add_text_choices_to_xml. apply Forall_app. split.
    + induction o; constructor; [discriminate | assumption].
    + destruct a; repeat constructor; discriminate.
  - repeat constructor. discriminate.
  - unfold _add_explanation. destruct (_ || _); repeat constructor. discriminate.
Qed.

(** X16.  A batch of choice questions is processed without any call to the
    service and without any fallback: the state of the service is left as
    it was, and no entry holds an [Error] node. *)
Theorem choice_questions_need_no_service (qs : list Question) (wd : World) :
  (forall q, In q qs -> q_type q = "SingleChoice" \/ q_type q = "MultipleChoice") ->
  exists rs,
    process_questions qs wd = (inr rs, wd)
    /\ length rs = length qs
    /\ Forall (fun r => findall_tag "Error" (element r) = []) rs.
Proof.
  induction qs as [|q qs IH]; intros H.
  - exists []. repeat split. constructor.
  - destruct (text_based_one q wd (H q (or_introl eq_refl))) as (r & E1 & _ & Hr).
    destruct IH as (rs & E2 & Hlen & Hrs); [intros q' Hq'; apply H; right; exact Hq'|].
    exists (r :: rs). cbn [Questions.process_questions]. unfold bind, ret.
    rewrite E1, E2. cbn [length]. rewrite Hlen. repeat split. constructor; assumption.
Qed.

End WithServices.

Lemma choice_questions_need_no_service_witness :
  exists rs,
    Questions.process_questions unreachable loads_two no_compound no_others
      [ {| number := Some "1"; q_type := "SingleChoice";
           content_items := [text_item "QUESTION NO: 1"; text_item "A. Paris";
                             text_item "Answer: A"];
           text := "QUESTION NO: 1"; q_images := [] |} ] 0
    = (inr rs, 0%nat)
    /\ length rs = 1%nat
    /\ Forall (fun r => findall_tag "Error" (element r) = []) rs.
Proof.
  apply (choice_questions_need_no_service unreachable loads_two no_compound no_others).
  intros q [<- | []]. left. reflexivity.
Defined.

End BuilderFacts.

(** ** modules/output and the serialiser: sorting, escaping, the post-pass *)

Module AssemblerFacts.
Import Questions Output OutputFacts.

(** *** The sort of the processed questions *)

(** A list of integers in ascending order. *)
Fixpoint ascending (l : list Z) : Prop :=
  match l with
  | [] => True
  | a :: l' => Forall (Z.le a) l' /\ ascending l'
  end.

Definition int_key {A} (x : key * A) : Z :=
  match fst x with KInt z => z | KStr _ => 0%Z end.

Definition int_keyed {A} (l : list (key * A)) : Prop :=
  Forall (fun y => exists z, fst y = KInt z) l.

Lemma insert_int {A} (x : key * A) (sorted : list (key * A)) :
  (exists z, fst x = KInt z) -> int_keyed sorted -> ascending (map int_key sorted) ->
  exists r, insert key_lt x sorted = inr r
            /\ Permutation (x :: sorted) r
            /\ int_keyed r /\ ascending (map int_key r).
Proof.
  intros [a Ha]. induction sorted as [|y sorted IH]; intros Hk Hs.
  - exists [x]. cbn. repeat split; try constructor; eauto.
  - inversion Hk as [|? ? [b Hb] Hk']; subst. cbn [map ascending] in Hs.
    destruct Hs as [Hall Hs]. cbn [insert]. rewrite Ha, Hb. cbn [key_lt].
    destruct (a <? b)%Z eqn:E.
    + exists (x :: y :: sorted). repeat split; try reflexivity.
      * constructor; [eauto | exact Hk].
      * cbn [map]. constructor.
        -- apply Z.ltb_lt in E. unfold int_key. rewrite Ha, Hb. lia.
        -- apply Z.ltb_lt in E. eapply List.Forall_impl; [|exact Hall].
           intros c Hc. unfold int_key in Hc |- *. rewrite Ha. rewrite Hb in Hc. lia.
      * exact Hall.
      * exact Hs.
    + destruct (IH Hk' Hs) as (r & -> & Hperm & Hkr & Hsr).
      exists (y :: r). repeat split.
      * etransitivity; [apply perm_swap|]. constructor. exact Hperm.
      * constructor; [eauto | exact Hkr].
      * apply Z.ltb_ge in E.
        assert (Hy : Forall (Z.le (int_key y)) (map int_key (x :: sorted))).
        { cbn [map]. constructor; [|exact Hall]. unfold int_key. rewrite Ha, Hb. exact E. }
        rewrite List.Forall_forall in Hy. rewrite List.Forall_forall. intros c Hc.
        apply Hy. apply in_map_iff in Hc. destruct Hc as (e & <- & He).
        apply in_map. apply (Permutation_in _ (Permutation_sym Hperm)). exact He.
      * exact Hsr.
Qed.

Lemma sort_keyed_int {A} (l : list (key * A)) :
  forall done,
    int_keyed l -> int_keyed done -> ascending (map int_key done) ->
    exists r, fold_left (fun acc x => match acc with
                                      | inl e => inl e
                                      | inr sorted => insert key_lt x sorted
                                      end) l (inr done) = inr r
              /\ Permutation (done ++ l) r /\ ascending (map int_key r).
Proof.
  induction l as [|x l IH]; intros done Hl Hd Hs; cbn [fold_left].
  - exists done. rewrite app_nil_r. repeat split; [reflexivity | exact Hs].
  - inversion Hl as [|? ? Hx Hl']; subst.
    destruct (insert_int x done Hx Hd Hs) as (r1 & -> & Hperm & Hk1 & Hs1).
    destruct (IH r1 Hl' Hk1 Hs1) as (r & E & Hperm' & Hsr).
    exists r. repeat split; [exact E | | exact Hsr].
    etransitivity; [|exact Hperm'].
    etransitivity; [symmetry; apply Permutation_middle|].
    exact (Permutation_app_tail l Hperm).
Qed.

Definition numbered (r : Processed) : bool :=
  match p_number r with Some n => Py.isdigit n | None => false end.

Definition number_of (r : Processed) : Z := Py.int (default "" (p_number r)).

Lemma keys_of_numbered rs :
  forallb numbered rs = true ->
  try_map (fun r => try_bind (result_key r) (fun k => inr (k, r))) rs
  = inr (map (fun r => (KInt (number_of r), r)) rs).
Proof.
  induction rs as [|r rs IH]; intros H; [reflexivity|].
  cbn [forallb] in H. apply andb_true_iff in H. destruct H as [Hr Hrs].
  cbn [try_map map]. rewrite (IH Hrs). unfold numbered in Hr.
  unfold result_key, number_of, key_of.
  destruct (p_number r) as [n|]; [|discriminate]. cbn [default]. rewrite Hr. reflexivity.
Qed.

Lemma sort_numbered (rs : list Processed) :
  forallb numbered rs = true ->
  exists sorted,
    sort_results rs = inr sorted
    /\ Permutation rs sorted
    /\ ascending (map number_of sorted).
Proof.
  intros H. unfold sort_results. rewrite (keys_of_numbered rs H). cbn [try_bind].
  unfold sort_keyed.
  destruct (sort_keyed_int (map (fun r => (KInt (number_of r), r)) rs) [])
    as (r & -> & Hperm & Hs).
  - unfold int_keyed. rewrite List.Forall_forall. intros y Hy.
    apply in_map_iff in Hy. destruct Hy as (e & <- & _). eauto.
  - constructor.
  - exact I.
  - cbn [app] in Hperm. exists (map snd r). split; [reflexivity|].
    assert (Hsnd : map snd (map (fun r0 => (KInt (number_of r0), r0)) rs) = rs).
    { rewrite map_map. cbn [snd]. apply map_id. }
    split.
    + rewrite <- Hsnd at 1. apply Permutation_map. exact Hperm.
    + assert (Hkeys : Forall (fun y : key * Processed => int_key y = number_of (snd y)) r).
      { rewrite List.Forall_forall. intros y Hy.
        apply (Permutation_in _ (Permutation_sym Hperm)) in Hy.
        apply in_map_iff in Hy. destruct Hy as (e & <- & _). reflexivity. }
      rewrite map_map.
      replace (map (fun x => number_of (snd x)) r) with (map int_key r); [exact Hs|].
      clear - Hkeys. induction Hkeys as [|y l Hy _ IH]; [reflexivity|].
      cbn [map]. rewrite Hy, IH. reflexivity.
Qed.

(** X17.  When every processed question has a number made of digits, the
    sort in [generate_xml_output] raises nothing, returns the same entries,
    and returns them in ascending order of the numbers read as integers (so
    2 comes before 10). *)
Theorem results_sort_by_integer (rs : list Processed) :
  forallb numbered rs = true ->
  exists sorted,
    sort_results rs = inr sorted
    /\ Permutation rs sorted
    /\ ascending (map number_of sorted).
Proof. apply sort_numbered. Qed.

Lemma results_sort_by_integer_witness :
  exists sorted,
    sort_results
      [ {| p_number := Some "10"; p_type := "HOTSPOT"; element := node "Question" [] |};
        {| p_number := Some "2"; p_type := "HOTSPOT"; element := node "Question" [] |} ]
    = inr sorted
    /\ Permutation
         [ {| p_number := Some "10"; p_type := "HOTSPOT"; element := node "Question" [] |};
           {| p_number := Some "2"; p_type := "HOTSPOT"; element := node "Question" [] |} ]
         sorted
    /\ ascending (map number_of sorted).
Proof. apply results_sort_by_integer. reflexivity. Defined.

Lemma keys_fail rs :
  In None (map p_number rs) ->
  try_map (fun r => try_bind (result_key r) (fun k => inr (k, r))) rs
  = inl (Dyn.no_attribute VNone "isdigit").
Proof.
  induction rs as [|r rs IH]; intros H; [destruct H|].
  cbn [try_map]. unfold result_key at 1.
  destruct (p_number r) as [n|] eqn:E; [|reflexivity].
  cbn [try_bind]. rewrite IH; [reflexivity|].
  cbn [map In] in H. destruct H as [H | H]; [congruence | exact H].
Qed.

Section WithServices.
Variable gemini : nat -> string -> option string -> option string.
Variable json_loads : string -> option pyval.
Variable str_compound : pyval -> string.
Variable other_elements : QuestionClass -> Question -> M (list Element).

Local Abbreviation generate_xml_output :=
  (generate_xml_output gemini json_loads str_compound other_elements).

(** X18.  The isolation of failures does not cover the numbers: one
    standalone question without a number (its question line holds no
    digits) makes [generate_xml_output] raise an AttributeError when it
    sorts the entries, after every question has been processed. *)
Theorem missing_number_stops_the_output (qs : list Question) (q : Question) (wd : World) :
  In q qs -> number q = None ->
  exists wd',
    generate_xml_output qs [] wd
    = (inl (Exn "AttributeError" "'NoneType' object has no attribute 'isdigit'"), wd').
Proof.
  intros Hin Hnone.
  destruct (BuilderFacts.process_questions_shape gemini json_loads str_compound
              other_elements qs wd) as (rs & wd' & E & Hn & _ & _).
  exists wd'.
  assert (Hsort : sort_results rs = inl (Dyn.no_attribute VNone "isdigit")).
  { unfold sort_results. rewrite keys_fail; [reflexivity|].
    rewrite Hn, <- Hnone. apply in_map. exact Hin. }
  unfold Output.generate_xml_output, output_tree, sorted_elements, process_questions.
  destruct qs as [|q0 qs']; [destruct Hin|].
  unfold bind, lift, ret. cbn [sort_case_studies map sort_keyed fold_left for_all].
  unfold ret. rewrite E, Hsort. reflexivity.
Qed.

(** X24.  A batch that comes from the grouper (the standalone questions,
    or the questions of a returned case study) and in which every question
    has a number is processed and sorted without any exception, whatever
    the service does: the numbers the grouper reads are strings of digits,
    so the entries come out in ascending order of their numbers. *)
Theorem grouped_batch_is_sorted (units : list ContentItem) (qs : list Question)
    (wd : World) :
  qs = fst (Grouper.process_content_items units)
  \/ (exists cs, In cs (snd (Grouper.process_content_items units)) /\ qs = questions cs) ->
  forallb (fun q => Py.is_some (number q)) qs = true ->
  exists rs wd' sorted,
    Questions.process_questions gemini json_loads str_compound other_elements qs wd
    = (inr rs, wd')
    /\ sort_results rs = inr sorted
    /\ Permutation rs sorted
    /\ ascending (map number_of sorted).
Proof.
  intros Hfrom Hall.
  destruct (BuilderFacts.process_questions_shape gemini json_loads str_compound
              other_elements qs wd) as (rs & wd' & E & Hn & _ & _).
  assert (Hnum : forallb numbered rs = true).
  { apply forallb_forall. intros r Hr. unfold numbered.
    assert (Hin : In (p_number r) (map number qs)) by (rewrite <- Hn; apply in_map, Hr).
    apply in_map_iff in Hin. destruct Hin as (q & Hq & Hqin).
    rewrite forallb_forall in Hall. specialize (Hall q Hqin).
    assert (Hwf : GrouperInvariants.well_formed q).
    { apply (GrouperInvariants.result_questions units).
      destruct Hfrom as [-> | (cs & Hcs & ->)]; [left; exact Hqin|].
      right. exists cs. split; assumption. }
    destruct Hwf as (first & rest & _ & _ & Hnumber & _).
    rewrite <- Hq. destruct (number q) as [n|] eqn:En; [|discriminate].
    symmetry in Hnumber. apply (TextFacts.question_number_digits _ _ Hnumber). }
  destruct (sort_numbered rs Hnum) as (sorted & Hs & Hperm & Hasc).
  exists rs, wd', sorted. repeat split; assumption.
Qed.

End WithServices.

Lemma missing_number_stops_the_output_witness :
  exists wd',
    Output.generate_xml_output QuestionsFacts.unreachable QuestionsFacts.loads_two QuestionsFacts.no_compound QuestionsFacts.no_others
      (fst (Grouper.process_content_items
              (map text_item ["QUESTION NO: 1"; "A. Paris"; "QUESTION NO: two"])))
      [] 0
    = (inl (Exn "AttributeError" "'NoneType' object has no attribute 'isdigit'"), wd').
Proof.
  apply (missing_number_stops_the_output QuestionsFacts.unreachable QuestionsFacts.loads_two QuestionsFacts.no_compound QuestionsFacts.no_others _
           (Grouper._create_question_from_item (text_item "QUESTION NO: two"))).
  - vm_compute. right. left. reflexivity.
  - reflexivity.
Defined.

Lemma grouped_batch_is_sorted_witness :
  exists rs wd' sorted,
    Questions.process_questions QuestionsFacts.unreachable QuestionsFacts.loads_two
      QuestionsFacts.no_compound QuestionsFacts.no_others
      (fst (Grouper.process_content_items
              (map text_item ["QUESTION NO: 10"; "A. Paris"; "QUESTION NO: 2"]))) 0
    = (inr rs, wd')
    /\ sort_results rs = inr sorted
    /\ Permutation rs sorted
    /\ ascending (map number_of sorted).
Proof.
  apply (grouped_batch_is_sorted QuestionsFacts.unreachable QuestionsFacts.loads_two
           QuestionsFacts.no_compound QuestionsFacts.no_others
           (map text_item ["QUESTION NO: 10"; "A. Paris"; "QUESTION NO: 2"])).
  - left. reflexivity.
  - vm_compute. reflexivity.
Defined.

(** *** The post-pass *)

(** X19.  [fix_case_study_details_tags] returns its argument unchanged when
    the text holds no opening [CaseStudyDetails] tag. *)
Theorem post_pass_is_identity_without_details (xml_string : string) :
  Py.contains "<CaseStudyDetails>" xml_string = false ->
  fix_case_study_details_tags xml_string = xml_string.
Proof.
  intros H. unfold fix_case_study_details_tags, Re.sub_fun, Re.finditer.
  cbn [Re.iter]. unfold details_re. cbn [Re.Seq].
  pose proof (ReFacts.search_without_group Re.S_ 1 "<CaseStudyDetails>"
                (Re.Cat (Re.Grp 2 (Re.Star false Re.Dot))
                        (Re.Grp 3 (Re.Lit "</CaseStudyDetails>")))
                xml_string H) as Hnone.
  unfold Re.search in Hnone. rewrite Hnone.
  cbn [fold_right]. apply string_of_list_ascii_of_string.
Qed.

Lemma post_pass_is_identity_without_details_witness :
  fix_case_study_details_tags "<root><Text>&lt;b&gt;</Text></root>"
  = "<root><Text>&lt;b&gt;</Text></root>".
Proof. apply post_pass_is_identity_without_details. reflexivity. Defined.

(** *** Escaping *)

(** The replacement of one character by a text. *)
Fixpoint subst (c : ascii) (new s : string) : string :=
  match s with
  | EmptyString => EmptyString
  | String b s' => if Ascii.eqb c b then new +:+ subst c new s' else String b (subst c new s')
  end.

Lemma replace_char c new s :
  Py.replace (String c EmptyString) new s = subst c new s.
Proof.
  unfold Py.replace.
  assert (H : forall fuel s, (String.length s < fuel)%nat ->
            Py.replace_fuel fuel (String c EmptyString) new s = subst c new s).
  { induction fuel as [|fuel IH]; intros s0 Hlen; [lia|].
    destruct s0 as [|b s0]; [reflexivity|].
    cbn [Py.replace_fuel Py.startswith subst String.length Py.drop].
    cbn [String.length] in Hlen.
    destruct (Ascii.eqb c b); cbn [andb]; rewrite IH by lia; reflexivity. }
  apply H. lia.
Qed.

(** The character [d] does not occur in [s]. *)
Definition free (d : ascii) (s : string) : bool :=
  Py.all_chars (fun b => negb (Ascii.eqb b d)) s.

Lemma free_append d a b : free d (a +:+ b) = free d a && free d b.
Proof.
  unfold free. induction a as [|x a IH]; [reflexivity|].
  simpl. rewrite IH, andb_assoc. reflexivity.
Qed.

Lemma subst_kills c new s : free c new = true -> free c (subst c new s) = true.
Proof.
  intros Hn. induction s as [|b s IH]; [reflexivity|]. cbn [subst].
  destruct (Ascii.eqb c b) eqn:E.
  - rewrite free_append, Hn, IH. reflexivity.
  - unfold free in *. cbn [Py.all_chars]. rewrite IH, Ascii.eqb_sym, E. reflexivity.
Qed.

Lemma subst_keeps d c new s :
  free d new = true -> free d s = true -> free d (subst c new s) = true.
Proof.
  intros Hn. induction s as [|b s IH]; intros Hs; [reflexivity|].
  unfold free in Hs. cbn [Py.all_chars] in Hs. apply andb_true_iff in Hs.
  destruct Hs as [Hb Hs]. cbn [subst]. destruct (Ascii.eqb c b).
  - rewrite free_append, Hn. apply IH, Hs.
  - unfold free in *. cbn [Py.all_chars]. rewrite Hb. apply IH, Hs.
Qed.

(** X20.  The text [write_data] writes holds no [<], no [>] and no double
    quote, whatever the text of the node: a text or an attribute value
    cannot open or close a tag of the output. *)
Theorem written_text_has_no_markup (x : string) :
  free "<" (Serialize.write_data x) = true
  /\ free ">" (Serialize.write_data x) = true
  /\ free (ascii_of_nat 34) (Serialize.write_data x) = true.
Proof.
  unfold Serialize.write_data, Serialize.QUOTE, Grouper.QUOTE.
  rewrite !replace_char.
  set (s1 := subst "&" "&amp;" x).
  assert (H2 : free "<" (subst "<" "&lt;" s1) = true) by (apply subst_kills; reflexivity).
  set (s2 := subst "<" "&lt;" s1) in *.
  assert (H3q : free (ascii_of_nat 34) (subst (ascii_of_nat 34) "&quot;" s2) = true)
    by (apply subst_kills; reflexivity).
  assert (H3l : free "<" (subst (ascii_of_nat 34) "&quot;" s2) = true)
    by (apply subst_keeps; [reflexivity | exact H2]).
  set (s3 := subst (ascii_of_nat 34) "&quot;" s2) in *.
  repeat split.
  - apply subst_keeps; [reflexivity | exact H3l].
  - apply subst_kills. reflexivity.
  - apply subst_keeps; [reflexivity | exact H3q].
Qed.

End AssemblerFacts.

(** ** modules/utils/content_statistics.py: the statistics *)

Module StatisticsFacts.
Import Statistics.

Local Abbreviation step :=
  (fun (acc : exn + list (skey * Stat)) (x : skey * Stat) =>
     match acc with
     | inl e => inl e
     | inr sorted => Output.insert skey_lt x sorted
     end).

Definition type_error (e : exn) : Prop := exists msg, e = Exn "TypeError" msg.

Lemma skey_lt_error a b e : skey_lt a b = inl e -> type_error e.
Proof.
  unfold skey_lt. destruct a, b; intros [= <-]; eexists; reflexivity.
Qed.

Lemma skey_lt_none_l b : exists e, skey_lt SNone b = inl e.
Proof. destruct b; eexists; reflexivity. Qed.

Lemma skey_lt_none_r a : exists e, skey_lt a SNone = inl e.
Proof. destruct a; eexists; reflexivity. Qed.

Lemma insert_result (x : skey * Stat) sorted :
  match Output.insert skey_lt x sorted with
  | inl e => type_error e
  | inr r => Permutation (x :: sorted) r
  end.
Proof.
  induction sorted as [|y sorted IH]; cbn [Output.insert]; [reflexivity|].
  destruct (skey_lt (fst x) (fst y)) as [e|[|]] eqn:E.
  - apply (skey_lt_error _ _ _ E).
  - reflexivity.
  - destruct (Output.insert skey_lt x sorted) as [e|r]; [exact IH|].
    etransitivity; [apply perm_swap|]. constructor. exact IH.
Qed.

(** What holds after the units [seen] have been inserted. *)
Definition sorted_so_far (seen : list (skey * Stat)) (acc : exn + list (skey * Stat))
    : Prop :=
  match acc with
  | inl e => type_error e
  | inr sorted =>
      Permutation seen sorted
      /\ ((2 <= length sorted)%nat -> ~ In SNone (map fst sorted))
  end.

Lemma sorted_step seen acc x :
  sorted_so_far seen acc -> sorted_so_far (seen ++ [x]) (step acc x).
Proof.
  destruct acc as [e|sorted]; [intros H; exact H|].
  intros [Hperm Hnone]. cbn beta iota.
  pose proof (insert_result x sorted) as Hins.
  destruct (Output.insert skey_lt x sorted) as [e|r] eqn:E; [exact Hins|].
  split.
  - etransitivity; [|exact Hins].
    etransitivity; [symmetry; apply Permutation_cons_append|].
    constructor. exact Hperm.
  - intros Hlen Hin.
    destruct sorted as [|y sorted].
    + cbn in E. injection E as <-. cbn in Hlen. lia.
    + cbn [Output.insert] in E.
      assert (Hx : fst x <> SNone).
      { intros Hx. rewrite Hx in E. destruct (skey_lt_none_l (fst y)) as [e He].
        rewrite He in E. discriminate. }
      assert (Hy : fst y <> SNone).
      { intros Hy. rewrite Hy in E. destruct (skey_lt_none_r (fst x)) as [e He].
        rewrite He in E. discriminate. }
      apply (Permutation_in _ (Permutation_sym (Permutation_map fst Hins))) in Hin.
      cbn [map In] in Hin. destruct Hin as [Hin | [Hin | Hin]]; try congruence.
      destruct sorted as [|z sorted]; [destruct Hin|].
      apply Hnone; [cbn [length]; lia | right; exact Hin].
Qed.

Lemma sorted_fold l :
  forall seen acc, sorted_so_far seen acc -> sorted_so_far (seen ++ l) (fold_left step l acc).
Proof.
  induction l as [|x l IH]; intros seen acc H; cbn [fold_left].
  - rewrite app_nil_r. exact H.
  - replace (seen ++ x :: l) with ((seen ++ [x]) ++ l) by (rewrite <- app_assoc; reflexivity).
    apply IH, sorted_step, H.
Qed.

Lemma sort_stats l : sorted_so_far l (Output.sort_keyed skey_lt l).
Proof.
  apply (sorted_fold l [] (inr [])). split; [constructor | cbn; lia].
Qed.

(** The three values the loop has built. *)
Definition stat_of (q : Question) : Stat :=
  {| s_question := number q; s_type := q_type q; s_images := length (q_images q) |}.

Definition counted (t : string) (qs : list Question) : nat :=
  length (List.filter (fun q => String.eqb t (q_type q)) qs).

Lemma count_type_spec t counts :
  count_type t counts
  = map (fun kv => (fst kv, (snd kv + if String.eqb (fst kv) t then 1 else 0)%nat)) counts.
Proof.
  unfold count_type. apply map_ext. intros [k n]. cbn [fst snd].
  destruct (String.eqb k t); f_equal; lia.
Qed.

Lemma loop_spec qs :
  forall stats total counts,
    fold_left add_question qs (stats, total, counts)
    = (stats ++ map stat_of qs,
       (total + list_sum (map (fun q => length (q_images q)) qs))%nat,
       map (fun kv => (fst kv, (snd kv + counted (fst kv) qs)%nat)) counts).
Proof.
  induction qs as [|q qs IH]; intros stats total counts.
  - cbn. rewrite app_nil_r, Nat.add_0_r. f_equal.
    rewrite <- (map_id counts) at 1. apply map_ext. intros [k n]. cbn. f_equal. lia.
  - cbn [fold_left add_question]. rewrite IH. cbn [map]. f_equal; [f_equal|].
    + rewrite <- app_assoc. reflexivity.
    + unfold list_sum. cbn [fold_right]. lia.
    + rewrite count_type_spec, map_map. apply map_ext. intros [k n]. cbn [fst snd].
      unfold counted. cbn [List.filter]. destruct (String.eqb k (q_type q)); cbn [length]; f_equal; lia.
Qed.

Lemma keys_of_stats qs :
  map fst (map (fun x => (stat_key x, x)) (map stat_of qs))
  = map (fun q => stat_key (stat_of q)) qs.
Proof. rewrite !map_map. reflexivity. Qed.

(** X21.  [get_question_stats] raises a TypeError as soon as it is given
    two questions or more of which one has no number: the key of that
    question is [None], which cannot be compared with any other key. *)
Theorem stats_need_numbers (qs : list Question) :
  (2 <= length qs)%nat -> In None (map number qs) ->
  exists msg, get_question_stats qs = inl (Exn "TypeError" msg).
Proof.
  intros Hlen Hnone. unfold get_question_stats.
  rewrite loop_spec. cbn [app].
  pose proof (sort_stats (map (fun x => (stat_key x, x)) (map stat_of qs))) as H.
  destruct (Output.sort_keyed skey_lt _) as [e|sorted]; cbn in H.
  - destruct H as [msg ->]. exists msg. reflexivity.
  - exfalso. destruct H as [Hperm Hno].
    assert (Hl : length sorted = length qs).
    { rewrite <- (Permutation_length Hperm), !length_map. reflexivity. }
    apply Hno; [lia|].
    apply (Permutation_in _ (Permutation_map fst Hperm)).
    rewrite keys_of_stats. apply in_map_iff in Hnone. destruct Hnone as (q & Hq & Hin).
    apply in_map_iff. exists q. split; [|exact Hin].
    unfold stat_key, stat_of. cbn. rewrite Hq. reflexivity.
Qed.

Lemma stats_need_numbers_witness :
  exists msg,
    get_question_stats
      (fst (Grouper.process_content_items
              (map text_item ["QUESTION NO: 1"; "QUESTION NO: two"])))
    = inl (Exn "TypeError" msg).
Proof.
  apply stats_need_numbers.
  - vm_compute. lia.
  - vm_compute. right. left. reflexivity.
Defined.

(** X22.  When [get_question_stats] returns, it returns one entry for each
    question (the entries of the questions, reordered), the sum of the
    numbers of images, and for each of the five counted types the number of
    questions of exactly that type: a question of any other type, such as
    SingleChoice or FILLINTHEBLANK, is counted nowhere. *)
Theorem stats_count_every_question (qs : list Question) stats total counts :
  get_question_stats qs = inr (stats, total, counts) ->
  Permutation (map stat_of qs) stats
  /\ total = list_sum (map (fun q => length (q_images q)) qs)
  /\ counts = map (fun t => (t, counted t qs))
                  ["HOTSPOT"; "DRAGDROP"; "DROPDOWN"; "RADIOBUTTON"; "MULTIPLECHOICE"].
Proof.
  unfold get_question_stats. rewrite loop_spec. cbn [app].
  pose proof (sort_stats (map (fun x => (stat_key x, x)) (map stat_of qs))) as H.
  destruct (Output.sort_keyed skey_lt _) as [e|sorted]; [discriminate|].
  cbn in H. destruct H as [Hperm _]. intros [= <- <- <-]. repeat split.
  rewrite <- (map_id (map stat_of qs)).
  rewrite <- (map_ext _ _ (fun x : Stat => eq_refl : snd (stat_key x, x) = id x)).
  rewrite <- map_map. apply Permutation_map. exact Hperm.
Qed.

Lemma stats_count_every_question_witness :
  let qs := fst (Grouper.process_content_items
                   (map text_item ["QUESTION NO: 2 HOTSPOT"; "QUESTION NO: 1"])) in
  Permutation (map stat_of qs)
    [ {| s_question := Some "1"; s_type := "SingleChoice"; s_images := 0 |};
      {| s_question := Some "2"; s_type := "HOTSPOT"; s_images := 0 |} ]
  /\ 0%nat = list_sum (map (fun q => length (q_images q)) qs)
  /\ [ ("HOTSPOT", 1%nat); ("DRAGDROP", 0%nat); ("DROPDOWN", 0%nat); ("RADIOBUTTON", 0%nat);
       ("MULTIPLECHOICE", 0%nat) ]
     = map (fun t => (t, counted t qs))
           ["HOTSPOT"; "DRAGDROP"; "DROPDOWN"; "RADIOBUTTON"; "MULTIPLECHOICE"].
Proof.
  cbv zeta. apply stats_count_every_question. vm_compute. reflexivity.
Defined.

End StatisticsFacts.

(** ** modules/questions/question_types.py: answers read from the text *)

Module TextAnswersFacts.
Import Re TextHelpers TextAnswers ReFacts AssemblerFacts.

(** *** Stripping *)

(** The text is empty or starts with a character that is kept. *)
Definition head_kept (p : ascii -> bool) (x : string) : Prop :=
  match x with EmptyString => True | String c _ => p c = false end.

Lemma lstrip_head p x : head_kept p (Py.lstrip_by p x).
Proof.
  induction x as [|c x IH]; [exact Logic.I|]. cbn [Py.lstrip_by].
  destruct (p c) eqn:E; [exact IH | exact E].
Qed.

Lemma lstrip_kept p x : head_kept p x -> Py.lstrip_by p x = x.
Proof. destruct x as [|c x]; [reflexivity|]. cbn. intros ->. reflexivity. Qed.

Lemma rstrip_head p x : head_kept p x -> head_kept p (Py.rstrip_by p x).
Proof.
  destruct x as [|c x]; [intros _; exact Logic.I|]. cbn [head_kept Py.rstrip_by]. intros H.
  destruct (Py.rstrip_by p x); [rewrite H|]; exact H.
Qed.

Lemma rstrip_idem p x : Py.rstrip_by p (Py.rstrip_by p x) = Py.rstrip_by p x.
Proof.
  induction x as [|c x IH]; [reflexivity|]. cbn [Py.rstrip_by].
  destruct (Py.rstrip_by p x) as [|d r] eqn:E.
  - destruct (p c) eqn:Hc; [reflexivity|]. cbn [Py.rstrip_by]. rewrite Hc. reflexivity.
  - change (Py.rstrip_by p (String c (String d r)))
      with (match Py.rstrip_by p (String d r) with
            | EmptyString => if p c then EmptyString else String c EmptyString
            | r' => String c r'
            end).
    rewrite IH. reflexivity.
Qed.

Lemma strip_idem x : Py.strip (Py.strip x) = Py.strip x.
Proof.
  unfold Py.strip, Py.strip_by.
  rewrite (lstrip_kept _ _ (rstrip_head _ _ (lstrip_head Py.is_space x))).
  apply rstrip_idem.
Qed.

Lemma lstrip_all P p x : Py.all_chars P x = true -> Py.all_chars P (Py.lstrip_by p x) = true.
Proof.
  induction x as [|c x IH]; [reflexivity|]. cbn [Py.lstrip_by]. intros H.
  destruct (p c); [|exact H]. cbn [Py.all_chars] in H. apply andb_true_iff in H.
  apply IH, H.
Qed.

Lemma rstrip_all P p x : Py.all_chars P x = true -> Py.all_chars P (Py.rstrip_by p x) = true.
Proof.
  induction x as [|c x IH]; [reflexivity|]. cbn [Py.rstrip_by Py.all_chars]. intros H.
  apply andb_true_iff in H. destruct H as [Hc Hx]. specialize (IH Hx).
  destruct (Py.rstrip_by p x) as [|d r].
  - destruct (p c); [reflexivity|]. cbn. rewrite Hc. reflexivity.
  - cbn [Py.all_chars] in *. rewrite Hc, IH. reflexivity.
Qed.

Lemma strip_free d x : free d x = true -> free d (Py.strip x) = true.
Proof. intros H. apply rstrip_all, lstrip_all, H. Qed.

(** *** Splitting at a character *)

Lemma find_char_none c x : Py.find (String c EmptyString) x = None -> free c x = true.
Proof.
  induction x as [|b x IH]; [reflexivity|]. cbn [Py.find Py.startswith].
  destruct (Ascii.eqb c b) eqn:E; [discriminate|]. cbn [andb].
  destruct (Py.find (String c EmptyString) x); [discriminate|]. intros _.
  unfold free. cbn [Py.all_chars]. rewrite Ascii.eqb_sym, E. apply IH. reflexivity.
Qed.

Lemma find_char_take c x :
  forall i, Py.find (String c EmptyString) x = Some i -> free c (Py.take i x) = true.
Proof.
  induction x as [|b x IH]; intros i; cbn [Py.find Py.startswith]; [discriminate|].
  destruct (Ascii.eqb c b) eqn:E; cbn [andb].
  - intros [= <-]. reflexivity.
  - destruct (Py.find (String c EmptyString) x) as [j|]; [|discriminate].
    intros [= <-]. cbn [Py.take]. unfold free. cbn [Py.all_chars].
    rewrite Ascii.eqb_sym, E. apply IH. reflexivity.
Qed.

Lemma drop_length n : forall x, (String.length (Py.drop n x) <= String.length x - n)%nat.
Proof.
  induction n as [|n IH]; intros x; [cbn; lia|].
  destruct x as [|b x]; [cbn; lia|]. cbn [Py.drop String.length]. apply IH.
Qed.

Lemma split_char_free c x :
  Forall (fun p => free c p = true) (Py.split (String c EmptyString) x).
Proof.
  unfold Py.split.
  assert (H : forall fuel y, (String.length y <= fuel)%nat ->
            Forall (fun p => free c p = true) (Py.split_fuel fuel (String c EmptyString) y)).
  { induction fuel as [|fuel IH]; intros y Hlen; cbn [Py.split_fuel].
    - destruct y; [repeat constructor | cbn in Hlen; lia].
    - destruct (Py.find (String c EmptyString) y) as [i|] eqn:E.
      + constructor; [apply (find_char_take _ _ _ E)|]. apply IH.
        pose proof (drop_length (i + String.length (String c EmptyString)) y) as Hd.
        cbn [String.length] in Hd.
        destruct y as [|b y]; [discriminate E|]. cbn [String.length] in *. lia.
      + constructor; [apply (find_char_none _ _ E) | constructor]. }
  apply H. lia.
Qed.

(** *** The answers of the two classes *)

Lemma first_answer_without_marker patterns text :
  Forall (fun p => exists r, p = Cat (Lit "Answer:") r) patterns ->
  Py.contains "answer:" (Py.lower text) = false ->
  first_answer patterns text = None.
Proof.
  intros Hp Hc. induction Hp as [|p ps (r & ->) _ IH]; [reflexivity|].
  cbn [first_answer]. rewrite (search_without_literal IS "Answer:" r text Hc). exact IH.
Qed.

Lemma fill_patterns_start :
  Forall (fun p => exists r, p = Cat (Lit "Answer:") r) fill_patterns.
Proof. repeat constructor; eexists; reflexivity. Qed.

Lemma simulation_patterns_start :
  Forall (fun p => exists r, p = Cat (Lit "Answer:") r) simulation_patterns.
Proof. repeat constructor; eexists; reflexivity. Qed.

(** X26.  A question whose text holds no [answer:], in any case of the
    letters, gets no [Answer] node from [FillInTheBlankQuestion] nor from
    [SimulationQuestion]. *)
Theorem no_answer_marker_no_answer_node (q : Question) :
  Py.contains "answer:" (Py.lower (text q)) = false ->
  fill_in_the_blank_elements q = [] /\ simulation_elements q = [].
Proof.
  intros H. unfold fill_in_the_blank_elements, _extract_multiple_answers,
    simulation_elements, _extract_answer_text.
  rewrite (first_answer_without_marker _ _ fill_patterns_start H).
  rewrite (first_answer_without_marker _ _ simulation_patterns_start H).
  split; reflexivity.
Qed.

Lemma no_answer_marker_no_answer_node_witness :
  let q := {| number := Some "3"; q_type := "SIMULATION";
              content_items := [text_item "QUESTION NO: 3 SIMULATION"];
              text := "QUESTION NO: 3 SIMULATION"; q_images := [] |} in
  fill_in_the_blank_elements q = [] /\ simulation_elements q = [].
Proof. cbv zeta. apply no_answer_marker_no_answer_node. reflexivity. Defined.

(** What holds of every answer of a fill-in-the-blank question. *)
Definition clean_answer (a : string) : Prop :=
  Py.nonempty a = true /\ free "," a = true /\ Py.strip a = a.

Lemma answers_clean pieces :
  Forall (fun p => free "," p = true) pieces ->
  Forall clean_answer (filter Py.nonempty (map Py.strip pieces)).
Proof.
  induction 1 as [|p pieces Hp _ IH]; [constructor|].
  cbn [map]. rewrite filter_cons. destruct (decide _) as [Hne|Hne]; [|exact IH].
  constructor; [|exact IH]. repeat split.
  - destruct (Py.nonempty (Py.strip p)); [reflexivity | destruct Hne].
  - apply strip_free, Hp.
  - apply strip_idem.
Qed.

Lemma keep_clean answers :
  Forall clean_answer answers ->
  map (fun answer => leaf "Choices" (Py.strip answer))
      (filter (fun answer => Py.nonempty (Py.strip answer)) answers)
  = map (leaf "Choices") answers.
Proof.
  induction 1 as [|a answers (Hne & _ & Hs) _ IH]; [reflexivity|].
  rewrite filter_cons_True by (rewrite Hs, Hne; exact Logic.I).
  cbn [map]. rewrite IH, Hs. reflexivity.
Qed.

Lemma first_answer_clean patterns text a :
  first_answer patterns text = Some a -> Py.nonempty a = true /\ Py.strip a = a.
Proof.
  induction patterns as [|p ps IH]; cbn [first_answer]; [discriminate|].
  destruct (search IS p text) as [m|]; [|exact IH].
  destruct (Py.nonempty (cleaned m)) eqn:E; [|exact IH].
  intros [= <-]. split; [exact E|]. unfold cleaned. apply strip_idem.
Qed.

(** X27.  What [FillInTheBlankQuestion] adds is nothing, or one [Answer]
    node with at least one [Choices] child; the text of every child is not
    empty, has no white space at its ends and holds no comma.  What
    [SimulationQuestion] adds is nothing, or one [Answer] node whose text
    is not empty and has no white space at its ends. *)
Theorem text_answers_are_clean (q : Question) :
  (fill_in_the_blank_elements q = []
   \/ exists choices,
        choices <> []
        /\ fill_in_the_blank_elements q = [node "Answer" (map (leaf "Choices") choices)]
        /\ Forall (fun a => Py.nonempty a = true /\ free "," a = true /\ Py.strip a = a)
             choices)
  /\ (simulation_elements q = []
      \/ exists a, simulation_elements q = [leaf "Answer" a]
                   /\ Py.nonempty a = true /\ Py.strip a = a).
Proof.
  split.
  - unfold fill_in_the_blank_elements.
    assert (Hclean : Forall clean_answer (_extract_multiple_answers q)).
    { unfold _extract_multiple_answers.
      destruct (first_answer fill_patterns (text q)) as [t|]; [|constructor].
      apply answers_clean, split_char_free. }
    destruct (_extract_multiple_answers q) as [|a answers]; [left; reflexivity|].
    right. exists (a :: answers). split; [discriminate|]. split; [|exact Hclean].
    rewrite (keep_clean _ Hclean). reflexivity.
  - unfold simulation_elements, _extract_answer_text.
    destruct (first_answer simulation_patterns (text q)) as [a|] eqn:E;
      [|left; reflexivity].
    destruct (first_answer_clean _ _ _ E) as [Hne Hs]. rewrite Hne.
    right. exists a. repeat split; assumption.
Qed.

End TextAnswersFacts.
